(** * GRAE: geometry-regularised autoencoders

    A shallow embedding of the training code of the repository:

    - [src/data/base.py]            : [BaseDataset]
    - [src/models/models.py]        : [AE], [GRAE], [SGRAE]  (module [Models])
    - [grae/models/grae_models.py]  : [AE], [GRAEBase]       (module [GraeModels])

    Numbers.  Losses and tensor entries are rationals ([Q]): the algebraic
    shape of each loss (which terms, which reduction, which rows) is kept,
    float32 rounding, NaN and infinities are not.  [np.inf] is the only
    non-finite value the code itself writes; it is modelled by [None] in
    [current_loss_min].  The one number an epoch count is computed from,
    [drop_lam * self.epochs], is a binary64 product (module [Float64]).

    Tensors.  A batch is a 2-D tensor, one row per sample (image samples are
    taken flattened, which leaves every loss below unchanged).

    Collaborators.  What the code consumes from torch, scipy and the
    manifold learners (forward pass, optimiser step, data-loader batching,
    embedders, z-scoring, square root) is a [Variable] of the section that
    uses it.  The optional comet logger is taken absent ([comet_exp=None]).
    In [GraeModels], where checkpoints are loaded, a module is a pair of
    its architecture (what a strict [load_state_dict] compares) and its
    parameter values (what an optimiser step changes).

    Exceptions are values: every operation that can raise returns a
    [result]. *)

From Stdlib Require Import List ZArith QArith Lia Bool PeanoNat.
From Stdlib Require Import SpecFloat.
From Stdlib Require String.
Import String.StringSyntax.
Delimit Scope string_scope with string.
Import ListNotations.

Set Implicit Arguments.

(* ------------------------------------------------------------------ *)
(** * Exceptions *)

Inductive exn : Type :=
| IndexError          (* subscript out of range *)
| RuntimeError        (* torch: tensor sizes do not match *)
| TypeError           (* calling / indexing [None] *)
| ZeroDivisionError
| OverflowError       (* [float(n)] of a huge int, [int(inf)] *)
| ValueError          (* [int(nan)] *)
| ConfigError.        (* [raise Exception(...)] in the code *)

Inductive result (A : Type) : Type :=
| Ok (a : A)
| Raise (e : exn).

Arguments Ok {A} a.
Arguments Raise {A} e.

Definition bind {A B} (c : result A) (k : A -> result B) : result B :=
  match c with
  | Ok a => k a
  | Raise e => Raise e
  end.

Declare Scope result_scope.
Delimit Scope result_scope with result.
Notation "x <- c ;; k" := (bind c (fun x => k))
  (at level 61, c at next level, right associativity) : result_scope.
Notation "' pat <- c ;; k" := (bind c (fun x => match x with pat => k end))
  (at level 61, pat pattern, c at next level, right associativity) : result_scope.
Local Open Scope result_scope.

Fixpoint mapM {A B} (f : A -> result B) (l : list A) : result (list B) :=
  match l with
  | [] => Ok []
  | a :: l' => b <- f a ;; bs <- mapM f l' ;; Ok (b :: bs)
  end.

(** Element-wise combination of two lists of the same length. *)
Fixpoint zipM {A B C} (f : A -> B -> result C) (l1 : list A) (l2 : list B)
  : result (list C) :=
  match l1, l2 with
  | a :: l1', b :: l2' => c <- f a b ;; cs <- zipM f l1' l2' ;; Ok (c :: cs)
  | _, _ => Ok []
  end.

(* ------------------------------------------------------------------ *)
(** * Python subscripts and slices *)

Module Py.

(** [l[i]]: negative subscripts count from the end. *)
Definition getitem {A} (l : list A) (i : Z) : result A :=
  let n := Z.of_nat (length l) in
  let j := if (i <? 0)%Z then (n + i)%Z else i in
  if ((0 <=? j)%Z && (j <? n)%Z)%bool then
    match nth_error l (Z.to_nat j) with
    | Some a => Ok a
    | None => Raise IndexError
    end
  else Raise IndexError.

(** [l[:b]], [l[a:]] and [l[a:b]] for [0 <= a], [0 <= b]: slices never
    raise, they clip. *)
Definition slice_to {A} (b : nat) (l : list A) : list A := firstn b l.
Definition slice_from {A} (a : nat) (l : list A) : list A := skipn a l.
Definition slice {A} (a b : nat) (l : list A) : list A :=
  firstn (b - a) (skipn a l).

End Py.

(* ------------------------------------------------------------------ *)
(** * Tensors and [nn.MSELoss] *)

Module Torch.

Definition row := list Q.
Definition tensor := list row.

Definition shape0 (t : tensor) : nat := length t.

Definition qsum (l : list Q) : Q := fold_right Qplus 0%Q l.

(** [torch.sum] and [numel] of a 2-D tensor. *)
Definition tsum (t : tensor) : Q := qsum (map qsum t).
Definition numel (t : tensor) : nat := fold_right Nat.add 0%nat (map (@length Q) t).

Definition Qnat (n : nat) : Q := inject_Z (Z.of_nat n).

(** Broadcasting along one dimension: sizes must agree, or one of them
    is 1; anything else is torch's size-mismatch [RuntimeError]. *)
Definition bcast {A C} (f : A -> A -> result C) (l1 l2 : list A)
  : result (list C) :=
  if (length l1 =? length l2)%nat then zipM f l1 l2
  else match l1, l2 with
       | [a], _ => mapM (f a) l2
       | _, [b] => mapM (fun a => f a b) l1
       | _, _ => Raise RuntimeError
       end.

(** [a - b] on 1-D and on 2-D tensors. *)
Definition sub1 (a b : row) : result row :=
  bcast (fun u v => Ok (u - v)%Q) a b.
Definition sub2 (a b : tensor) : result tensor := bcast sub1 a b.

Definition square (v : Q) : Q := (v * v)%Q.

(** [nn.MSELoss(reduction=...)]. *)
Inductive reduction : Type := Mean | Sum.

Definition MSELoss (red : reduction) (input target : tensor) : result Q :=
  d <- sub2 input target ;;
  let sq := map (map square) d in
  match red with
  | Mean => Ok (tsum sq / Qnat (numel sq))%Q
  | Sum => Ok (tsum sq)
  end.

(** [t[idx]] with an index tensor: the selected rows, in batch order. *)
Definition index_select (t : tensor) (idx : list Z) : result tensor :=
  mapM (Py.getitem t) idx.

(** [m[b1, b2]] with two index tensors: the entries [m[b1[i]][b2[i]]]. *)
Definition index_pairs (m : tensor) (b1 b2 : list Z) : result row :=
  bcast (fun i j => r <- Py.getitem m i ;; Py.getitem r j) b1 b2.

Definition same_shape (a b : tensor) : Prop :=
  Forall2 (fun r1 r2 : row => length r1 = length r2) a b.

(** The element-wise difference of two tensors of one shape. *)
Definition diff_row (a b : row) : row :=
  map (fun p => (fst p - snd p)%Q) (combine a b).

Definition diff (a b : tensor) : tensor :=
  map (fun p => diff_row (fst p) (snd p)) (combine a b).

End Torch.

(* ------------------------------------------------------------------ *)
(** * The quantities the specification names *)

Module Spec.

(** Mean squared error as the specification words it: the squared
    differences of corresponding entries, averaged over all entries. *)
Fixpoint sum_sq_diff (a b : list Q) : Q :=
  match a, b with
  | u :: a', v :: b' => ((u - v) * (u - v) + sum_sq_diff a' b')%Q
  | _, _ => 0%Q
  end.

Definition sum_squared_error (a b : Torch.tensor) : Q :=
  sum_sq_diff (concat a) (concat b).

Definition mean_squared_error (a b : Torch.tensor) : Q :=
  (sum_squared_error a b / Torch.Qnat (length (concat a)))%Q.

End Spec.

(* ------------------------------------------------------------------ *)
(** * [src/data/base.py]: [BaseDataset] *)

Module BaseDataset.

Import Torch.

(** [data] holds one (flattened) sample per row and [dims] the shape of
    one sample, so that [x[0][0].shape] is [dims]. *)
Record dataset : Type := {
  data : tensor;
  targets : list Q;
  dims : list nat
}.

(** [__len__] *)
Definition len (ds : dataset) : nat := length (data ds).

(** [__getitem__]:
    [return self.data[index], self.targets[index], index] *)
Definition getitem (ds : dataset) (index : Z) : result (row * Q * Z) :=
  d <- Py.getitem (data ds) index ;;
  t <- Py.getitem (targets ds) index ;;
  Ok (d, t, index).

(** [x[0][0].shape] *)
Definition sample_shape (ds : dataset) : result (list nat) :=
  _ <- getitem ds 0 ;; Ok (dims ds).

Section Split.

(** [sklearn.model_selection.train_test_split(np.arange(n), ...)]:
    the positions of the train and of the test samples. *)
Variable train_test_split : nat -> Q -> Z -> list Z * list Z.

(** [get_split] *)
Definition get_split (x : tensor) (y : list Q) (split : String.string)
           (split_ratio : Q) (seed : Z) : result (tensor * list Q) :=
  if String.eqb split "none"%string then Ok (x, y)
  else
    let n := length x in
    let '(train_idx, test_idx) := train_test_split n split_ratio seed in
    let sel := if String.eqb split "train"%string then train_idx else test_idx in
    xs <- index_select x sel ;;
    ys <- mapM (Py.getitem y) sel ;;
    Ok (xs, ys).

(** [__init__] *)
Definition init (x : tensor) (y : list Q) (sample_dims : list nat)
           (split : String.string) (split_ratio : Q) (seed : Z) : result dataset :=
  if negb (String.eqb split "train"%string || String.eqb split "test"%string
           || String.eqb split "none"%string)
  then Raise ConfigError
  else
    ' (xs, ys) <- get_split x y split split_ratio seed ;;
    Ok {| data := xs; targets := ys; dims := sample_dims |}.

End Split.

(** Default collation of the items at the given positions into one batch
    [(data, targets, idx)]. *)
Definition batch : Type := (tensor * list Q * list Z)%type.

Fixpoint collate (items : list (row * Q * Z)) : batch :=
  match items with
  | [] => ([], [], [])
  | (d, t, i) :: rest =>
      let '(ds, ts, js) := collate rest in (d :: ds, t :: ts, i :: js)
  end.

Definition fetch (ds : dataset) (positions : list Z) : result batch :=
  items <- mapM (getitem ds) positions ;; Ok (collate items).

(** The first component of a batch: [data, _, idx = batch]. *)
Definition batch_data (b : batch) : tensor := fst (fst b).

End BaseDataset.

(* ------------------------------------------------------------------ *)
(** * Comparisons on [Q] as the code uses them *)

Definition Qlt_bool (a b : Q) : bool := negb (Qle_bool b a).

(** [range(n)] and [range(a, b)] *)
Definition range (n : Z) : list Z := map Z.of_nat (seq 0 (Z.to_nat n)).
Definition range2 (a b : nat) : list nat := seq a (b - a).

(* ------------------------------------------------------------------ *)
(** * Python floats: IEEE 754 binary64, rounding to nearest even *)

Module Float64.

Definition float : Type := spec_float.

Definition prec : Z := 53.
Definition emax : Z := 1024.

(** [float(n)] for an int [n], as [float * int] converts its int
    operand: the nearest float, or [OverflowError]. *)
Definition of_int (n : Z) : result float :=
  match binary_normalize prec emax n 0 false with
  | S754_infinity _ => Raise OverflowError
  | f => Ok f
  end.

Definition mul (a b : float) : float := SFmul prec emax a b.

(** [int(f)]: truncation towards zero. *)
Definition to_int (f : float) : result Z :=
  match f with
  | S754_zero _ => Ok 0%Z
  | S754_finite sign m e =>
      let v := match e with
               | Z0 => Zpos m
               | Zpos p => (Zpos m * Z.pow_pos 2 p)%Z
               | Zneg p => (Zpos m / Z.pow_pos 2 p)%Z
               end in
      Ok (if sign then (- v)%Z else v)
  | S754_infinity _ => Raise OverflowError
  | S754_nan => Raise ValueError
  end.

(** The float a decimal literal [n / d] denotes (for ints [n], [d] that
    are floats themselves): the nearest float to the quotient. *)
Definition of_ratio (n d : Z) : float :=
  SFdiv prec emax (binary_normalize prec emax n 0 false)
                  (binary_normalize prec emax d 0 false).

End Float64.

(* ------------------------------------------------------------------ *)
(** * [src/models/models.py] *)

Module Models.

Import Torch BaseDataset.

Inductive class : Type := AE | GRAE | SGRAE.

(** Modelled from the spec: the sub-dataset that the [subset] method of
    the dataset contract returns, which src/data/base.py does not define.
    The contract is "indexable, [len()]-able, yields [(sample, label,
    index)] triples" and "supports a [subset(k)] operation returning a
    fixed-size (e.g., uniformly sampled) sub-dataset preserving original
    indices".  What [fit] is given is a [BaseDataset] ([Whole X]) or such
    a sub-dataset: [Sub X kept] holds the samples of [X] at the positions
    [kept]. *)
Inductive Dataset : Type :=
| Whole (X : dataset)
| Sub (X : dataset) (kept : list Z).

Coercion Whole : dataset >-> Dataset.

(** [len(X)] *)
Definition Dataset_len (D : Dataset) : nat :=
  match D with
  | Whole X => len X
  | Sub _ kept => length kept
  end.

(** Modelled from the spec: [X[i]] on a sub-dataset, "preserving
    original indices": item [i] is the sample and the label at position
    [kept[i]] of the full dataset, and the index it carries is the one
    the sample has there, [kept[i]].  On a [BaseDataset] it is
    [BaseDataset.__getitem__]. *)
Definition Dataset_getitem (D : Dataset) (i : Z) : result (row * Q * Z) :=
  match D with
  | Whole X => getitem X i
  | Sub X kept =>
      p <- Py.getitem kept i ;;
      ' (d, t, _) <- getitem X p ;;
      Ok (d, t, p)
  end.

(** [X[0][0].shape] *)
Definition Dataset_sample_shape (D : Dataset) : result (list nat) :=
  _ <- Dataset_getitem D 0 ;;
  Ok (dims match D with Whole X => X | Sub X _ => X end).

(** The batch of the items at the given positions. *)
Definition Dataset_fetch (D : Dataset) (positions : list Z) : result batch :=
  items <- mapM (Dataset_getitem D) positions ;; Ok (collate items).

Section WithTorch.

(** Network parameters and optimiser state. *)
Variables Weights Opt : Type.

(** [AutoencoderModule(input_dim=...)] and
    [ConvAutoencoderModule(H=..., W=..., input_channel=...)], freshly
    initialised. *)
Variable AutoencoderModule : nat -> Weights.
Variable ConvAutoencoderModule : nat -> nat -> nat -> Weights.
(** [torch.optim.Adam(self.torch_module.parameters(), ...)] *)
Variable Adam : Weights -> Opt.
(** [x_hat, z = self.torch_module(data)] *)
Variable forward : Weights -> tensor -> tensor * tensor.
(** [loss.backward(); self.optimizer.step()] for a loss given as a
    function of the parameters. *)
Variable backward_step : (Weights -> result Q) -> Weights -> Opt -> Weights * Opt.
(** The batches of one pass over
    [DataLoader(X, batch_size=..., shuffle=True)]. *)
Variable DataLoader : Dataset -> nat -> Z -> list batch.
(** [scipy.stats.zscore(self.embedder.fit_transform(data))] *)
Variable embedder_fit_transform : Dataset -> tensor.
Variable zscore : tensor -> tensor.
(** [squareform(pdist(self.dist_calculator.diff_potential))] after
    [self.dist_calculator.fit(X)] *)
Variable potential_distances : dataset -> tensor.
Variable sqrtQ : Q -> Q.
(** The positions a subsample of [k] out of [n] samples keeps. *)
Variable choice : nat -> nat -> list Z.

Record model : Type := {
  cls : class;
  epochs : Z;
  batch_size : nat;
  lam : Q;
  drop_lam : option Z;
  max_grae : option Z;
  torch_module : option Weights;
  optimizer : option Opt;
  z : option tensor;      (* GRAE: the target embedding *)
  d_mx : option tensor    (* SGRAE: reference distances *)
}.

Definition set_lam (m : model) (v : Q) : model :=
  {| cls := cls m; epochs := epochs m; batch_size := batch_size m;
     lam := v; drop_lam := drop_lam m; max_grae := max_grae m;
     torch_module := torch_module m; optimizer := optimizer m;
     z := z m; d_mx := d_mx m |}.

Definition set_torch_module (m : model) (w : Weights) : model :=
  {| cls := cls m; epochs := epochs m; batch_size := batch_size m;
     lam := lam m; drop_lam := drop_lam m; max_grae := max_grae m;
     torch_module := Some w; optimizer := optimizer m;
     z := z m; d_mx := d_mx m |}.

Definition set_optimizer (m : model) (o : Opt) : model :=
  {| cls := cls m; epochs := epochs m; batch_size := batch_size m;
     lam := lam m; drop_lam := drop_lam m; max_grae := max_grae m;
     torch_module := torch_module m; optimizer := Some o;
     z := z m; d_mx := d_mx m |}.

Definition set_z (m : model) (t : tensor) : model :=
  {| cls := cls m; epochs := epochs m; batch_size := batch_size m;
     lam := lam m; drop_lam := drop_lam m; max_grae := max_grae m;
     torch_module := torch_module m; optimizer := optimizer m;
     z := Some t; d_mx := d_mx m |}.

Definition set_d_mx (m : model) (t : tensor) : model :=
  {| cls := cls m; epochs := epochs m; batch_size := batch_size m;
     lam := lam m; drop_lam := drop_lam m; max_grae := max_grae m;
     torch_module := torch_module m; optimizer := optimizer m;
     z := z m; d_mx := Some t |}.

(** [AE.__init__], [GRAE.__init__], [SGRAE.__init__] *)
Definition AE_init (epochs_ : Z) (batch_size_ : nat) : model :=
  {| cls := AE; epochs := epochs_; batch_size := batch_size_;
     lam := 0; drop_lam := None; max_grae := None;
     torch_module := None; optimizer := None; z := None; d_mx := None |}.

Definition GRAE_init (lam_ : Q) (drop_lam_ : option Float64.float)
           (max_grae_ : option Z) (epochs_ : Z) (batch_size_ : nat)
  : result model :=
  d <- match drop_lam_ with
       | Some f =>
           e <- Float64.of_int epochs_ ;;
           Float64.to_int (Float64.mul f e)
       | None => Ok epochs_
       end ;;
  Ok {| cls := GRAE; epochs := epochs_; batch_size := batch_size_;
        lam := lam_;
        drop_lam := Some d;
        max_grae := max_grae_;
        torch_module := None; optimizer := None; z := None; d_mx := None |}.

Definition SGRAE_init (lam_ : Q) (drop_lam_ : option Z)
           (epochs_ : Z) (batch_size_ : nat) : model :=
  {| cls := SGRAE; epochs := epochs_; batch_size := batch_size_;
     lam := lam_; drop_lam := drop_lam_; max_grae := None;
     torch_module := None; optimizer := None; z := None; d_mx := None |}.

(** [self.criterion = nn.MSELoss(reduction='sum')] *)
Definition criterion : tensor -> tensor -> result Q := MSELoss Sum.

Definition attr {A} (o : option A) : result A :=
  match o with Some a => Ok a | None => Raise TypeError end.

(** [AE.apply_loss]: the value of [loss]. *)
Definition AE_apply_loss (x x_hat zb : tensor) (idx : list Z) : result Q :=
  criterion x x_hat.

(** [GRAE.apply_loss] *)
Definition GRAE_apply_loss (m : model) (x x_hat zb : tensor) (idx : list Z)
  : result Q :=
  if Qlt_bool 0 (lam m) then
    rec <- criterion x x_hat ;;
    target <- attr (z m) ;;
    rows <- index_select target idx ;;
    geo <- criterion zb rows ;;
    Ok (rec + lam m * geo)%Q
  else criterion x x_hat.

(** [torch.norm(t, p=2, dim=1)] *)
Definition norm_rows (t : tensor) : row :=
  map (fun r => sqrtQ (qsum (map square r))) t.

(** [SGRAE.apply_loss] *)
Definition SGRAE_apply_loss (m : model) (x x_hat zb : tensor) (idx : list Z)
  : result Q :=
  if Qlt_bool 0 (lam m) then
    let half := (shape0 x / 2)%nat in
    let batch_1 := Py.slice_to half idx in
    let batch_2 := Py.slice half (2 * half) idx in
    diff <- sub2 (Py.slice_to half zb) (Py.slice_from half zb) ;;
    let d_z := norm_rows diff in
    dist <- attr (d_mx m) ;;
    ref <- index_pairs dist batch_1 batch_2 ;;
    dd <- sub1 d_z ref ;;
    let d := map square dd in
    let geo_loss := qsum d in
    rec <- criterion x x_hat ;;
    Ok (rec + lam m * geo_loss)%Q
  else criterion x x_hat.

(** [self.apply_loss(...)], resolved on the class of [self]. *)
Definition apply_loss (m : model) (x x_hat zb : tensor) (idx : list Z)
  : result Q :=
  match cls m with
  | AE => AE_apply_loss x x_hat zb idx
  | GRAE => GRAE_apply_loss m x x_hat zb idx
  | SGRAE => SGRAE_apply_loss m x x_hat zb idx
  end.

(** The loss of [train_body] on one batch, as a function of the
    parameters. *)
Definition batch_loss (m : model) (b : batch) (w : Weights) : result Q :=
  let '(data, _, idx) := b in
  let '(x_hat, zb) := forward w data in
  apply_loss m data x_hat zb idx.

(** One iteration of [for batch in self.loader]:
    [zero_grad(); train_body(batch); step()]. *)
Definition train_batch (m : model) (b : batch) : result model :=
  w <- attr (torch_module m) ;;
  o <- attr (optimizer m) ;;
  _ <- batch_loss m b w ;;
  let '(w', o') := backward_step (batch_loss m b) w o in
  Ok (set_optimizer (set_torch_module m w') o').

Fixpoint train_batches (m : model) (bs : list batch) : result model :=
  match bs with
  | [] => Ok m
  | b :: bs' => m' <- train_batch m b ;; train_batches m' bs'
  end.

(** [end_epoch]: a no-op except for [SGRAE]. *)
Definition end_epoch (m : model) (epoch : Z) : model :=
  match cls m, drop_lam m with
  | SGRAE, Some d => if (epoch =? d - 1)%Z then set_lam m 0 else m
  | _, _ => m
  end.

(** One entry per executed epoch: the printed epoch number, the dataset
    the epoch iterated over and the value of [self.lam] its batches were
    trained with. *)
Record epoch_run : Type := {
  run_epoch : Z;
  run_data : Dataset;
  run_lam : Q
}.

(** [for epoch in range(epochs): ...] *)
Fixpoint epoch_loop (m : model) (X : Dataset) (epoch_offset : Z)
         (todo : list Z) : result (model * list epoch_run) :=
  match todo with
  | [] => Ok (m, [])
  | epoch :: rest =>
      m1 <- train_batches m (DataLoader X (batch_size m) epoch) ;;
      let m2 := end_epoch m1 epoch in
      ' (m3, runs) <- epoch_loop m2 X epoch_offset rest ;;
      Ok (m3, {| run_epoch := epoch + epoch_offset;
                 run_data := X;
                 run_lam := lam m |} :: runs)
  end.

(** [AE.fit(X, epochs=None, epoch_offset=0)] *)
Definition AE_fit (m : model) (X : Dataset) (epochs_arg : option Z)
           (epoch_offset : Z) : result (model * list epoch_run) :=
  let n_epochs := match epochs_arg with Some e => e | None => epochs m end in
  m1 <- match torch_module m with
        | Some _ => Ok m
        | None =>
            shape <- Dataset_sample_shape X ;;
            match shape with
            | [input_size] =>
                Ok (set_torch_module m (AutoencoderModule input_size))
            | [in_channel; height; width] =>
                Ok (set_torch_module m
                      (ConvAutoencoderModule height width in_channel))
            | _ => Raise ConfigError
            end
        end ;;
  w <- attr (torch_module m1) ;;
  let m2 := set_optimizer m1 (Adam w) in
  epoch_loop m2 X epoch_offset (range n_epochs).

(** Modelled from the spec: the [subset] method of the dataset contract,
    which src/data/base.py does not define: "a [subset(k)] operation
    returning a fixed-size (e.g., uniformly sampled) sub-dataset
    preserving original indices".  The sub-dataset holds the samples at
    the [k] positions [choice n k]. *)
Definition subset (X : dataset) (k : Z) : Dataset :=
  Sub X (choice (len X) (Z.to_nat k)).

(** [GRAE.fit] *)
Definition GRAE_fit (m : model) (X : dataset)
  : result (model * list epoch_run) :=
  let grae_data :=
    match max_grae m with
    | Some cap => if (Z.of_nat (len X) >? cap)%Z then subset X cap else Whole X
    | None => Whole X
    end in
  let emb := zscore (embedder_fit_transform grae_data) in
  let m1 := set_z m emb in
  d <- attr (drop_lam m1) ;;
  ' (m2, runs1) <- AE_fit m1 grae_data (Some d) 0 ;;
  if (d <? epochs m2)%Z then
    let m3 := set_lam m2 0 in
    ' (m4, runs2) <- AE_fit m3 X (Some (epochs m3 - d)%Z) d ;;
    Ok (m4, runs1 ++ runs2)
  else Ok (m2, runs1).

(** The attributes mini-batch training leaves alone. *)
Definition same_config (m m' : model) : Prop :=
  cls m' = cls m /\ epochs m' = epochs m /\ lam m' = lam m
  /\ drop_lam m' = drop_lam m /\ max_grae m' = max_grae m
  /\ z m' = z m /\ d_mx m' = d_mx m.

(** [SGRAE.fit] *)
Definition SGRAE_fit (m : model) (X : dataset)
  : result (model * list epoch_run) :=
  let m1 := set_d_mx m (potential_distances X) in
  AE_fit m1 X None 0.

End WithTorch.

End Models.

(* ------------------------------------------------------------------ *)
(** * [grae/models/grae_models.py] *)

Module GraeModels.

Import Torch BaseDataset.

Inductive class : Type := AE | GRAEBase.

(** The attributes only [__init__] assigns. *)
Record hyper : Type := {
  cls : class;
  epochs : Z;
  batch_size : nat;
  patience : Z;
  data_val : option dataset;
  relax : bool;
  lam_original : Q
}.

Section WithModule.

Variables Weights Opt : Type.

(** [AutoencoderModule(input_dim=..., ...)] and
    [ConvAutoencoderModule(H=..., W=..., input_channel=..., ...)]. *)
Variable AutoencoderModule : nat -> Weights.
Variable ConvAutoencoderModule : nat -> nat -> nat -> Weights.
Variable Adam : Weights -> Opt.
(** [x_hat, z = self.torch_module(data)]; the flag is the module's
    training mode ([.train()] / [.eval()]). *)
Variable forward : bool -> Weights -> tensor -> tensor * tensor.
(** The batches of one pass over
    [DataLoader(x, batch_size=..., shuffle=True)]. *)
Variable DataLoader : dataset -> nat -> nat -> list batch.

(** The attributes [fit] and its hooks assign, and [checkpoint_pt]: the
    content of the file [os.path.join(write_path, 'checkpoint.pt')]
    (the saved parameters and [data_shape]), [None] while no such file
    exists. *)
Record state : Type := {
  torch_module : option Weights;
  optimizer : option Opt;
  data_shape : option (list nat);
  val_loader : option dataset;
  current_loss_min : option Q;      (* [None] is [np.inf] *)
  early_stopping_count : Z;
  lam : Q;
  target_embedding : option tensor;
  checkpoint_pt : option (Weights * option (list nat))
}.

(** [AE.__init__] and [GRAEBase.__init__]: the state of a new model. *)
Definition init (hp : hyper) : state :=
  {| torch_module := None; optimizer := None; data_shape := None;
     val_loader := None;
     current_loss_min := None;
     early_stopping_count := 0;
     lam := lam_original hp;
     target_embedding := None;
     checkpoint_pt := None |}.

Definition set_torch_module (s : state) (w : Weights) : state :=
  {| torch_module := Some w; optimizer := optimizer s;
     data_shape := data_shape s; val_loader := val_loader s;
     current_loss_min := current_loss_min s;
     early_stopping_count := early_stopping_count s;
     lam := lam s; target_embedding := target_embedding s;
     checkpoint_pt := checkpoint_pt s |}.

Definition set_optimizer (s : state) (o : Opt) : state :=
  {| torch_module := torch_module s; optimizer := Some o;
     data_shape := data_shape s; val_loader := val_loader s;
     current_loss_min := current_loss_min s;
     early_stopping_count := early_stopping_count s;
     lam := lam s; target_embedding := target_embedding s;
     checkpoint_pt := checkpoint_pt s |}.

Definition set_data_shape (s : state) (d : list nat) : state :=
  {| torch_module := torch_module s; optimizer := optimizer s;
     data_shape := Some d; val_loader := val_loader s;
     current_loss_min := current_loss_min s;
     early_stopping_count := early_stopping_count s;
     lam := lam s; target_embedding := target_embedding s;
     checkpoint_pt := checkpoint_pt s |}.

Definition set_val_loader (s : state) (v : dataset) : state :=
  {| torch_module := torch_module s; optimizer := optimizer s;
     data_shape := data_shape s; val_loader := Some v;
     current_loss_min := current_loss_min s;
     early_stopping_count := early_stopping_count s;
     lam := lam s; target_embedding := target_embedding s;
     checkpoint_pt := checkpoint_pt s |}.

Definition set_early_stopping_count (s : state) (c : Z) : state :=
  {| torch_module := torch_module s; optimizer := optimizer s;
     data_shape := data_shape s; val_loader := val_loader s;
     current_loss_min := current_loss_min s;
     early_stopping_count := c;
     lam := lam s; target_embedding := target_embedding s;
     checkpoint_pt := checkpoint_pt s |}.

Definition set_current_loss_min (s : state) (v : Q) : state :=
  {| torch_module := torch_module s; optimizer := optimizer s;
     data_shape := data_shape s; val_loader := val_loader s;
     current_loss_min := Some v;
     early_stopping_count := early_stopping_count s;
     lam := lam s; target_embedding := target_embedding s;
     checkpoint_pt := checkpoint_pt s |}.

Definition set_lam (s : state) (v : Q) : state :=
  {| torch_module := torch_module s; optimizer := optimizer s;
     data_shape := data_shape s; val_loader := val_loader s;
     current_loss_min := current_loss_min s;
     early_stopping_count := early_stopping_count s;
     lam := v; target_embedding := target_embedding s;
     checkpoint_pt := checkpoint_pt s |}.

Definition set_target_embedding (s : state) (t : tensor) : state :=
  {| torch_module := torch_module s; optimizer := optimizer s;
     data_shape := data_shape s; val_loader := val_loader s;
     current_loss_min := current_loss_min s;
     early_stopping_count := early_stopping_count s;
     lam := lam s; target_embedding := Some t;
     checkpoint_pt := checkpoint_pt s |}.

Definition set_checkpoint_pt (s : state)
           (f : option (Weights * option (list nat))) : state :=
  {| torch_module := torch_module s; optimizer := optimizer s;
     data_shape := data_shape s; val_loader := val_loader s;
     current_loss_min := current_loss_min s;
     early_stopping_count := early_stopping_count s;
     lam := lam s; target_embedding := target_embedding s;
     checkpoint_pt := f |}.

Definition attr {A} (o : option A) : result A :=
  match o with Some a => Ok a | None => Raise TypeError end.

(** [self.criterion = nn.MSELoss(reduction='mean')] *)
Definition criterion : tensor -> tensor -> result Q := MSELoss Mean.

(** [init_torch_module] *)
Definition init_torch_module (shape : list nat) : result Weights :=
  match shape with
  | [input_size] => Ok (AutoencoderModule input_size)
  | [in_channel; height; width] =>
      Ok (ConvAutoencoderModule height width in_channel)
  | _ => Raise ConfigError
  end.

(** [AE.compute_loss]: the value of [loss]. *)
Definition AE_compute_loss (x x_hat z : tensor) (idx : list Z) : result Q :=
  criterion x x_hat.

(** [GRAEBase.compute_loss] *)
Definition GRAEBase_compute_loss (s : state) (x x_hat z : tensor)
           (idx : list Z) : result Q :=
  if Qlt_bool 0 (lam s) then
    rec <- criterion x x_hat ;;
    target <- attr (target_embedding s) ;;
    rows <- index_select target idx ;;
    geo <- criterion z rows ;;
    Ok (rec + lam s * geo)%Q
  else criterion x x_hat.

Definition compute_loss (hp : hyper) (s : state) (x x_hat z : tensor)
           (idx : list Z) : result Q :=
  match cls hp with
  | AE => AE_compute_loss x x_hat z idx
  | GRAEBase => GRAEBase_compute_loss s x x_hat z idx
  end.

(** The loss of [train_body] on one batch, as a function of the
    parameters. *)
Definition batch_loss (hp : hyper) (s : state) (b : batch) (w : Weights)
  : result Q :=
  let '(data, _, idx) := b in
  let '(x_hat, z) := forward true w data in
  compute_loss hp s data x_hat z idx.

(** [eval_MSE]: the loop [for batch in loader: sum_loss += ...] and the
    final division by [len(loader.dataset)]. *)
Fixpoint sum_loss (w : Weights) (bs : list batch) (acc : Q) : result Q :=
  match bs with
  | [] => Ok acc
  | (data, _, _) :: bs' =>
      let '(x_hat, _) := forward false w data in
      l <- criterion data x_hat ;;
      sum_loss w bs' (acc + Qnat (shape0 data) * l)%Q
  end.

Definition eval_MSE (hp : hyper) (s : state) (loader : dataset) (pass : nat)
  : result Q :=
  w <- attr (torch_module s) ;;
  total <- sum_loss w (DataLoader loader (batch_size hp) pass) 0%Q ;;
  if (len loader =? 0)%nat then Raise ZeroDivisionError
  else Ok (total / Qnat (len loader))%Q.

(** [val_mse < self.current_loss_min] *)
Definition below_min (val_mse : Q) (current : option Q) : bool :=
  match current with
  | None => true
  | Some m => Qlt_bool val_mse m
  end.

(** [save(os.path.join(self.write_path, 'checkpoint.pt'))] *)
Definition save (s : state) : result state :=
  w <- attr (torch_module s) ;;
  Ok (set_checkpoint_pt s (Some (w, data_shape s))).

(** [log_metrics_val] *)
Definition log_metrics_val (hp : hyper) (s : state) (epoch : nat)
  : result state :=
  match val_loader s with
  | None => Ok s
  | Some loader =>
      val_mse <- eval_MSE hp s loader epoch ;;
      if below_min val_mse (current_loss_min s) then
        save (set_early_stopping_count (set_current_loss_min s val_mse) 0)
      else
        Ok (set_early_stopping_count s (early_stopping_count s + 1))
  end.

(** [log_metrics]; without a comet experiment [log_metrics_train] does
    nothing. *)
Definition log_metrics (hp : hyper) (s : state) (epoch : nat) : result state :=
  log_metrics_val hp s epoch.

(** [int(self.patience / 2)] *)
Definition half_patience (hp : hyper) : Z := Z.quot (patience hp) 2.

(** [AE.end_epoch] and [GRAEBase.end_epoch] *)
Definition GRAEBase_end_epoch (hp : hyper) (s : state) (epoch : nat) : state :=
  if (relax hp && Qlt_bool 0 (lam s)
      && (early_stopping_count s =? half_patience hp)%Z)%bool
  then set_lam s 0
  else s.

Definition end_epoch (hp : hyper) (s : state) (epoch : nat) : state :=
  match cls hp with
  | AE => s
  | GRAEBase => GRAEBase_end_epoch hp s epoch
  end.

(** The validation loss of the parameters in [cur], measured at
    [epoch], is below the minimum recorded in [prev]: the test
    [val_mse < self.current_loss_min] of [log_metrics_val] for an epoch
    that starts in [prev] and ends in [cur]. *)
Definition improves (hp : hyper) (v : dataset) (prev cur : state)
           (epoch : nat) : bool :=
  match eval_MSE hp cur v epoch with
  | Ok val_mse => below_min val_mse (current_loss_min prev)
  | Raise _ => false
  end.

(** [AE.fit] from its first line to the line before [log_metrics(0)]. *)
Definition fit_setup (hp : hyper) (s : state) (x : dataset) : result state :=
  shape <- sample_shape x ;;
  let s1 := set_data_shape s shape in
  s2 <- match torch_module s1 with
        | Some _ => Ok s1
        | None => w <- init_torch_module shape ;; Ok (set_torch_module s1 w)
        end ;;
  w <- attr (torch_module s2) ;;
  let s3 := set_optimizer s2 (Adam w) in
  Ok match data_val hp with
     | Some v => set_val_loader s3 v
     | None => s3
     end.

End WithModule.

Section WithTorch.

(** A module is its architecture (the keys of [state_dict()] with the
    sizes of their tensors, which [load_state_dict] compares) and the
    values of its parameters; [optimizer.step()] changes the values
    only. *)
Variables Arch Params Opt : Type.
Variable Arch_eq_dec : forall a b : Arch, {a = b} + {a <> b}.

Definition Weights : Type := (Arch * Params)%type.

Variable AutoencoderModule : nat -> Weights.
Variable ConvAutoencoderModule : nat -> nat -> nat -> Weights.
Variable Adam : Weights -> Opt.
Variable forward : bool -> Weights -> tensor -> tensor * tensor.
(** [loss.backward(); self.optimizer.step()] for a loss given as a
    function of the parameters: the new values and the new optimiser
    state. *)
Variable backward_step : (Weights -> result Q) -> Weights -> Opt -> Params * Opt.
Variable DataLoader : dataset -> nat -> nat -> list batch.
(** [scipy.stats.zscore(self.embedder.fit_transform(x))] *)
Variable embedder_fit_transform : dataset -> tensor.
Variable zscore : tensor -> tensor.

Local Abbreviation state := (state Weights Opt).

(** One iteration of [for batch in self.loader]. *)
Definition train_batch (hp : hyper) (s : state) (b : batch) : result state :=
  w <- attr (torch_module s) ;;
  o <- attr (optimizer s) ;;
  _ <- batch_loss forward hp s b w ;;
  let '(p', o') := backward_step (batch_loss forward hp s b) w o in
  Ok (set_optimizer (set_torch_module s (fst w, p')) o').

Fixpoint train_batches (hp : hyper) (s : state) (bs : list batch)
  : result state :=
  match bs with
  | [] => Ok s
  | b :: bs' => s' <- train_batch hp s b ;; train_batches hp s' bs'
  end.

(** The body of [for epoch in range(1, self.epochs + 1)] up to the
    early-stopping test. *)
Definition epoch_body (hp : hyper) (x : dataset) (s : state) (epoch : nat)
  : result state :=
  s1 <- train_batches hp s (DataLoader x (batch_size hp) epoch) ;;
  s2 <- log_metrics forward DataLoader hp s1 epoch ;;
  Ok (end_epoch hp s2 epoch).

(** The epoch loop.  The result lists the state at the end of each
    executed epoch, in order; [break] ends the list early. *)
Fixpoint epoch_loop (hp : hyper) (x : dataset) (todo : list nat) (s : state)
  : result (list state) :=
  match todo with
  | [] => Ok []
  | epoch :: rest =>
      s' <- epoch_body hp x s epoch ;;
      if (early_stopping_count s' =? patience hp)%Z then Ok [s']
      else
        hist <- epoch_loop hp x rest s' ;;
        Ok (s' :: hist)
  end.

(** [self.torch_module.load_state_dict(state)]: the load is strict, the
    keys and the sizes of the file must be those of the module, which
    then holds the values of the file. *)
Definition load_state_dict (w file : Weights) : result Weights :=
  if Arch_eq_dec (fst w) (fst file) then Ok file else Raise RuntimeError.

(** [load(checkpoint_path)] *)
Definition load (s : state) (file : Weights * option (list nat)) : result state :=
  let '(state_dict, shape) := file in
  s1 <- match torch_module s with
        | Some _ => Ok s
        | None => sh <- attr shape ;;
                  w0 <- init_torch_module AutoencoderModule
                                          ConvAutoencoderModule sh ;;
                  Ok (set_torch_module s w0)
        end ;;
  w <- attr (torch_module s1) ;;
  w' <- load_state_dict w state_dict ;;
  Ok (set_torch_module s1 w').

(** The end of [AE.fit]:
    [if os.path.exists(checkpoint_path): self.load(...); os.remove(...)] *)
Definition restore_checkpoint (s : state) : result state :=
  match checkpoint_pt s with
  | Some file => s' <- load s file ;; Ok (set_checkpoint_pt s' None)
  | None => Ok s
  end.

(** [AE.fit] up to the end of the epoch loop: the state after
    [log_metrics(0)] and the states at the end of the executed epochs. *)
Definition fit_train (hp : hyper) (s : state) (x : dataset)
  : result (state * list state) :=
  s0 <- fit_setup AutoencoderModule ConvAutoencoderModule Adam hp s x ;;
  s1 <- log_metrics forward DataLoader hp s0 0 ;;
  hist <- epoch_loop hp x (range2 1 (Z.to_nat (epochs hp) + 1)) s1 ;;
  Ok (s1, hist).

(** [AE.fit] *)
Definition AE_fit (hp : hyper) (s : state) (x : dataset) : result state :=
  ' (s1, hist) <- fit_train hp s x ;;
  restore_checkpoint (last hist s1).

(** [GRAEBase.fit] *)
Definition GRAEBase_fit (hp : hyper) (s : state) (x : dataset) : result state :=
  let emb := zscore (embedder_fit_transform x) in
  AE_fit hp (set_target_embedding s emb) x.

Definition fit (hp : hyper) (s : state) (x : dataset) : result state :=
  match cls hp with
  | AE => AE_fit hp s x
  | GRAEBase => GRAEBase_fit hp s x
  end.

End WithTorch.

End GraeModels.

(* ------------------------------------------------------------------ *)
(** * A small concrete network

    One scalar parameter that counts optimiser steps; the reconstruction is
    exact after exactly one step and zero otherwise, so the validation loss
    drops once and never again.  Each pass of a loader yields the whole
    dataset as a single batch. *)

Module Toy.

Import Torch BaseDataset.

(** Two architectures, 0 (fully connected) and 1 (convolutional); the
    parameters are one counter of optimiser steps. *)
Definition Arch : Type := nat.
Definition Params : Type := nat.
Definition Weights : Type := GraeModels.Weights Arch Params.
Definition Opt : Type := unit.
Definition Arch_eq_dec : forall a b : Arch, {a = b} + {a <> b} := Nat.eq_dec.

Definition AutoencoderModule (input_dim : nat) : Weights := (0%nat, 0%nat).
Definition ConvAutoencoderModule (H W input_channel : nat) : Weights :=
  (1%nat, 0%nat).
Definition Adam (w : Weights) : Opt := tt.

Definition gain (w : Weights) : Q := if (snd w =? 1)%nat then 1%Q else 0%Q.

Definition net (w : Weights) (x : tensor) : tensor * tensor :=
  (map (map (Qmult (gain w))) x, x).

Definition forward (training : bool) (w : Weights) (x : tensor)
  : tensor * tensor := net w x.

Definition backward_step (loss : Weights -> result Q) (w : Weights) (o : Opt)
  : Params * Opt := (S (snd w), o).
Definition backward_step_module (loss : Weights -> result Q) (w : Weights)
           (o : Opt) : Weights * Opt := ((fst w, S (snd w)), o).

Definition whole (ds : dataset) : list batch :=
  [(data ds, targets ds, range (Z.of_nat (len ds)))].

Definition DataLoader (ds : dataset) (batch_size pass : nat) : list batch :=
  whole ds.

(** For [models.py]: one batch per pass, the items of the dataset in
    order; the embedding of a dataset is its samples. *)
Definition all_items (D : Models.Dataset) : list batch :=
  match Models.Dataset_fetch D (range (Z.of_nat (Models.Dataset_len D))) with
  | Ok b => [b]
  | Raise _ => []
  end.

Definition DataLoaderZ (D : Models.Dataset) (batch_size : nat) (pass : Z)
  : list batch := all_items D.

Definition embedder_fit_transform (ds : dataset) : tensor := data ds.
Definition embedder_fit_transformZ (D : Models.Dataset) : tensor :=
  concat (map batch_data (all_items D)).
Definition zscore (t : tensor) : tensor := t.
Definition potential_distances (ds : dataset) : tensor :=
  map (fun _ => map (fun _ => 0%Q) (data ds)) (data ds).
Definition sqrtQ (q : Q) : Q := q.
Definition choice (n k : nat) : list Z := range (Z.of_nat k).

Definition points (vs : list Z) : dataset :=
  {| data := map (fun v => [inject_Z v]) vs;
     targets := map (fun _ => 0%Q) vs;
     dims := [1%nat] |}.

Definition x2 : dataset := points [1; 3]%Z.
Definition x5 : dataset := points [1; 2; 3; 4; 5]%Z.

(** [grae_models.py] models on the toy network. *)
Definition hyper := GraeModels.hyper.
Definition state := GraeModels.state Weights Opt.

Definition mk_hyper (c : GraeModels.class) (epochs patience : Z)
           (val : option dataset) (relax : bool) (lam : Q) : hyper :=
  {| GraeModels.cls := c; GraeModels.epochs := epochs;
     GraeModels.batch_size := 128;
     GraeModels.patience := patience; GraeModels.data_val := val;
     GraeModels.relax := relax; GraeModels.lam_original := lam |}.

Definition new_model (hp : hyper) : state := GraeModels.init Weights Opt hp.

Definition fit_setup : hyper -> state -> dataset -> result state :=
  GraeModels.fit_setup AutoencoderModule ConvAutoencoderModule Adam.

Definition fit_train : hyper -> state -> dataset -> result (state * list state) :=
  GraeModels.fit_train AutoencoderModule ConvAutoencoderModule Adam
    forward backward_step DataLoader.

Definition fit : hyper -> state -> dataset -> result state :=
  GraeModels.fit Arch_eq_dec AutoencoderModule ConvAutoencoderModule Adam
    forward backward_step DataLoader embedder_fit_transform zscore.

(** [models.py] models on the toy network. *)
Definition model := Models.model Weights Opt.

Definition new_grae (lam : Q) (drop_lam : option Float64.float)
           (max_grae : option Z) (epochs : Z) : result model :=
  Models.GRAE_init Weights Opt lam drop_lam max_grae epochs 128.

Definition grae (lam : Q) (drop_lam : option Float64.float)
           (max_grae : option Z) (epochs : Z) : model :=
  match new_grae lam drop_lam max_grae epochs with
  | Ok m => m
  | Raise _ => Models.AE_init Weights Opt epochs 128
  end.

Definition half : Float64.float := Float64.of_ratio 1 2.

Definition sgrae (lam : Q) (X : dataset) : model :=
  Models.set_d_mx (Models.SGRAE_init Weights Opt lam None 800 128)
                  (potential_distances X).

Definition GRAE_fit : model -> dataset -> result (model * list Models.epoch_run) :=
  Models.GRAE_fit AutoencoderModule ConvAutoencoderModule Adam
    (fun w => forward true w) backward_step_module DataLoaderZ
    embedder_fit_transformZ zscore sqrtQ choice.

Definition col (vs : list Z) : tensor := map (fun v => [inject_Z v]) vs.

(** A [GRAEBase] state and a [models.GRAE] model with [lam = 1] and a
    zero target embedding of two rows, and a [GRAEBase] state with
    [lam = 0]. *)
Definition s1 : state :=
  GraeModels.set_target_embedding
    (new_model (mk_hyper GraeModels.GRAEBase 10 4 None false 1)) (col [0; 0]%Z).

Definition m1 : model :=
  Models.set_z (grae 1 (Some half) None 10) (col [0; 0]%Z).

Definition s0 : state :=
  new_model (mk_hyper GraeModels.GRAEBase 10 4 None false 0).

(** Three configurations and the runs of their first [fit]:
    early stopping ([hpA]: 10 epochs, patience 2, validation on [x2]),
    no validation with [patience = 0] ([hp0]: 3 epochs), and a relaxed
    [GRAEBase] ([hpR]: 10 epochs, patience 4, [lam = 1]). *)
Definition hpA : hyper := mk_hyper GraeModels.AE 10 2 (Some x2) false 0.
Definition hp0 : hyper := mk_hyper GraeModels.AE 3 0 None false 0.
Definition hpR : hyper := mk_hyper GraeModels.GRAEBase 10 4 (Some x2) true 1.

Definition sR : state :=
  GraeModels.set_target_embedding (new_model hpR) (data x2).

Definition run (hp : hyper) (s : state) : state * list state :=
  match fit_train hp s x2 with
  | Ok r => r
  | Raise _ => (s, [])
  end.

Definition runA : state * list state := Eval vm_compute in run hpA (new_model hpA).
Definition run0 : state * list state := Eval vm_compute in run hp0 (new_model hp0).

(** The state the first [fit] with [hpA] returns. *)
Definition after_fitA : state :=
  Eval vm_compute in
    match fit hpA (new_model hpA) x2 with
    | Ok s => s
    | Raise _ => new_model hpA
    end.

(** A [models.GRAE] with cap 2 on the five samples of [x5]: 4 epochs,
    [drop_lam = 0.5]. *)
Definition grae_capped : model := grae 1 (Some half) (Some 2%Z) 4.

(** The state a second [fit] with [hpA] sets up from [after_fitA], and
    the run of that second [fit]. *)
Definition setup_again : state :=
  Eval vm_compute in
    match fit_setup hpA after_fitA x2 with
    | Ok s => s
    | Raise _ => after_fitA
    end.

Definition runA_again : state * list state :=
  Eval vm_compute in run hpA after_fitA.

Definition fit_capped : model * list Models.epoch_run :=
  Eval vm_compute in
    match GRAE_fit grae_capped x5 with
    | Ok r => r
    | Raise _ => (grae_capped, [])
    end.

(** No validation split, patience 2, 3 epochs. *)
Definition hpN : hyper := mk_hyper GraeModels.AE 3 2 None false 0.
Definition runN : state * list state := Eval vm_compute in run hpN (new_model hpN).

(** A fixed train/test split of three samples: positions 2 and 0 train,
    position 1 tests. *)
Definition split_2_0 (n : nat) (ratio : Q) (seed : Z) : list Z * list Z :=
  ([2; 0]%Z, [1]%Z).

Definition train_part : dataset :=
  Eval vm_compute in
    match BaseDataset.init split_2_0 (col [10; 20; 30]%Z) [1; 2; 3]%Q [1%nat]
                           "train"%string (8 # 10) 42 with
    | Ok ds => ds
    | Raise _ => points []
    end.


(** A dataset whose samples have rank 2, and an empty one. *)
Definition x_rank2 : dataset :=
  {| data := [[1%Q]]; targets := [0%Q]; dims := [1%nat; 1%nat] |}.
Definition x_empty : dataset := points [].

(** Validation on [x2] with [patience = 0], a budget of 3 epochs. *)
Definition hpZ : hyper := mk_hyper GraeModels.AE 3 0 (Some x2) false 0.
Definition runZ : state * list state := Eval vm_compute in run hpZ (new_model hpZ).

(** The state [GRAEBase.fit] returns with [hpR] on a new model. *)
Definition after_fitR : state :=
  Eval vm_compute in
    match fit hpR (new_model hpR) x2 with
    | Ok s => s
    | Raise _ => new_model hpR
    end.

(** A checkpoint of the convolutional architecture lying at the path
    of a new fully connected model without a validation split. *)
Definition beside_stale : state :=
  GraeModels.set_checkpoint_pt (new_model hpN)
    (Some ((1%nat, 7%nat), Some [1%nat; 2%nat; 2%nat])).

Definition run_stale : state * list state :=
  Eval vm_compute in run hpN beside_stale.

(** A model that holds the parameters with the best validation loss
    before training starts. *)
Definition trained : state :=
  GraeModels.set_torch_module (new_model hpA) (0%nat, 1%nat).

Definition run_trained : state * list state :=
  Eval vm_compute in run hpA trained.

(** A [GRAEBase] without relaxation: 10 epochs, patience 2, [lam = 1]. *)
Definition hpG : hyper := mk_hyper GraeModels.GRAEBase 10 2 (Some x2) false 1.
Definition sG : state :=
  GraeModels.set_target_embedding (new_model hpG) (data x2).
Definition runG : state * list state := Eval vm_compute in run hpG sG.




(** A [models.SGRAE] with [drop_lam = 2] and 4 epochs on four samples. *)
Definition x4 : dataset := points [1; 2; 3; 4]%Z.

Definition sgrae_soft : model := Models.SGRAE_init Weights Opt 1 (Some 2%Z) 4 128.

Definition SGRAE_fit : model -> dataset -> result (model * list Models.epoch_run) :=
  Models.SGRAE_fit AutoencoderModule ConvAutoencoderModule Adam
    (fun w => forward true w) backward_step_module DataLoaderZ
    potential_distances sqrtQ.

(** A subsample that keeps the last [k] of [n] samples, and [GRAE.fit]
    with it. *)
Definition choice_tail (n k : nat) : list Z :=
  map (fun j => (Z.of_nat (n - k) + j)%Z) (range (Z.of_nat k)).


(** The one batch of the sub-dataset of [x5] that keeps positions 3 and
    4. *)
Definition tail_batch : batch :=
  ([[inject_Z 4]; [inject_Z 5]], [0%Q; 0%Q], [3%Z; 4%Z]).

Definition fit_soft : model * list Models.epoch_run :=
  Eval vm_compute in
    match SGRAE_fit sgrae_soft x4 with
    | Ok r => r
    | Raise _ => (sgrae_soft, [])
    end.

End Toy.

(* ================================================================== *)
(** * Proofs *)

(** ** The error monad *)

Lemma bind_Ok {A B} (c : result A) (k : A -> result B) (b : B) :
  bind c k = Ok b -> exists a, c = Ok a /\ k a = Ok b.
Proof. destruct c as [a|e]; simpl; intro H; [eauto | discriminate]. Qed.

Ltac inv_bind H :=
  let a := fresh "a" in
  let E := fresh "E" in
  apply bind_Ok in H; destruct H as (a & E & H).

Ltac inv_ok H := injection H as H; subst.

Lemma zipM_pure {A B C} (f : A -> B -> C) (l1 : list A) (l2 : list B) :
  zipM (fun u v => Ok (f u v)) l1 l2
  = Ok (map (fun p => f (fst p) (snd p)) (combine l1 l2)).
Proof.
  revert l2; induction l1 as [|a l1 IH]; intros [|b l2]; simpl; try reflexivity.
  rewrite IH. reflexivity.
Qed.

Lemma mapM_length {A B} (f : A -> result B) (l : list A) (r : list B) :
  mapM f l = Ok r -> length r = length l.
Proof.
  revert r; induction l as [|a l IH]; simpl; intros r H.
  - inv_ok H. reflexivity.
  - inv_bind H. inv_bind H. inv_ok H. simpl. f_equal. eauto.
Qed.

Lemma mapM_nth {A B} (f : A -> result B) (l : list A) (r : list B) :
  mapM f l = Ok r ->
  forall i a, nth_error l i = Some a ->
  exists b, nth_error r i = Some b /\ f a = Ok b.
Proof.
  revert r; induction l as [|a0 l IH]; simpl; intros r H i a Hi.
  - destruct i; discriminate.
  - inv_bind H. inv_bind H. inv_ok H.
    destruct i as [|i]; simpl in *.
    + injection Hi as ->. eauto.
    + eapply IH; eauto.
Qed.

Lemma mapM_total {A B} (f : A -> result B) (l : list A) :
  Forall (fun a => exists b, f a = Ok b) l -> exists r, mapM f l = Ok r.
Proof.
  induction 1 as [|a l [b Hb] _ [r Hr]]; simpl.
  - eauto.
  - rewrite Hb, Hr. simpl. eauto.
Qed.

(** ** Comparisons *)

Lemma Qlt_bool_iff (a b : Q) : Qlt_bool a b = true <-> (a < b)%Q.
Proof.
  unfold Qlt_bool. rewrite negb_true_iff.
  split; intro H.
  - apply Qnot_le_lt. intro Hle. apply Qle_bool_iff in Hle. congruence.
  - destruct (Qle_bool b a) eqn:E; [|reflexivity].
    apply Qle_bool_iff in E. exfalso. exact (Qlt_not_le _ _ H E).
Qed.

Lemma Qlt_bool_zero_eq (q : Q) : (q == 0)%Q -> Qlt_bool 0 q = false.
Proof.
  intro H. destruct (Qlt_bool 0 q) eqn:E; [|reflexivity].
  apply Qlt_bool_iff in E. rewrite H in E. exfalso. exact (Qlt_irrefl _ E).
Qed.

(** ** Subscripts *)

Lemma getitem_in_range {A} (l : list A) (i : Z) :
  (0 <= i < Z.of_nat (length l))%Z ->
  exists a, Py.getitem l i = Ok a /\ nth_error l (Z.to_nat i) = Some a.
Proof.
  intros [H0 H1]. unfold Py.getitem.
  assert (E : (i <? 0)%Z = false) by (apply Z.ltb_ge; lia).
  rewrite E.
  assert (E1 : (0 <=? i)%Z = true) by (apply Z.leb_le; lia).
  assert (E2 : (i <? Z.of_nat (length l))%Z = true) by (apply Z.ltb_lt; lia).
  rewrite E1, E2. simpl.
  destruct (nth_error l (Z.to_nat i)) as [a|] eqn:En.
  - eauto.
  - apply nth_error_None in En. lia.
Qed.

(** ** [nn.MSELoss] on tensors of one shape *)

Module TorchFacts.

Import Torch.

Lemma bcast_same {A C} (f : A -> A -> result C) (l1 l2 : list A) :
  length l1 = length l2 -> bcast f l1 l2 = zipM f l1 l2.
Proof.
  intro H. unfold bcast. rewrite H, Nat.eqb_refl. reflexivity.
Qed.

Lemma sub1_same (a b : row) : length a = length b -> sub1 a b = Ok (diff_row a b).
Proof.
  intro H. unfold sub1. rewrite bcast_same by exact H. apply zipM_pure.
Qed.

Lemma zipM_sub1_same (a b : tensor) :
  same_shape a b -> zipM sub1 a b = Ok (diff a b).
Proof.
  induction 1 as [|r1 r2 a b Hr _ IH]; simpl; [reflexivity|].
  rewrite (sub1_same _ _ Hr). simpl. rewrite IH. reflexivity.
Qed.

Lemma sub2_same (a b : tensor) : same_shape a b -> sub2 a b = Ok (diff a b).
Proof.
  intro H. unfold sub2.
  rewrite bcast_same by (eapply Forall2_length; exact H).
  apply zipM_sub1_same. exact H.
Qed.

Lemma qsum_app (l1 l2 : list Q) : (qsum (l1 ++ l2) == qsum l1 + qsum l2)%Q.
Proof.
  induction l1 as [|q l1 IH]; simpl.
  - ring.
  - rewrite IH. ring.
Qed.

Lemma qsum_diff_row (a b : row) :
  (qsum (map square (diff_row a b)) == Spec.sum_sq_diff a b)%Q.
Proof.
  revert b; induction a as [|u a IH]; intros [|v b]; simpl; try reflexivity.
  fold (diff_row a b). rewrite IH. unfold square. reflexivity.
Qed.

Lemma sum_sq_diff_app (a1 b1 a2 b2 : list Q) :
  length a1 = length b1 ->
  (Spec.sum_sq_diff (a1 ++ a2) (b1 ++ b2)
   == Spec.sum_sq_diff a1 b1 + Spec.sum_sq_diff a2 b2)%Q.
Proof.
  revert b1; induction a1 as [|u a1 IH]; intros [|v b1] H; simpl in *;
    try discriminate.
  - ring.
  - rewrite IH by congruence. ring.
Qed.

Lemma tsum_diff (a b : tensor) :
  same_shape a b ->
  (tsum (map (map square) (diff a b)) == Spec.sum_squared_error a b)%Q.
Proof.
  unfold tsum, Spec.sum_squared_error.
  induction 1 as [|r1 r2 a b Hr _ IH]; simpl; [reflexivity|].
  fold (diff a b). rewrite sum_sq_diff_app by exact Hr.
  rewrite IH, qsum_diff_row. reflexivity.
Qed.

Lemma length_diff_row (a b : row) :
  length a = length b -> length (diff_row a b) = length a.
Proof.
  intro H. unfold diff_row.
  rewrite length_map, length_combine, <- H. apply Nat.min_id.
Qed.

Lemma numel_diff (a b : tensor) :
  same_shape a b ->
  numel (map (map square) (diff a b)) = length (concat a).
Proof.
  unfold numel.
  induction 1 as [|r1 r2 a b Hr _ IH]; simpl; [reflexivity|].
  fold (diff a b). rewrite length_app, IH, length_map.
  rewrite length_diff_row by exact Hr. reflexivity.
Qed.

(** On tensors of one shape, [MSELoss(reduction='mean')] is the mean and
    [MSELoss(reduction='sum')] the sum of the squared errors. *)
Lemma MSELoss_mean (a b : tensor) :
  same_shape a b ->
  exists v, MSELoss Mean a b = Ok v /\ (v == Spec.mean_squared_error a b)%Q.
Proof.
  intro H. unfold MSELoss. rewrite (sub2_same H). simpl.
  eexists. split; [reflexivity|].
  unfold Spec.mean_squared_error.
  rewrite (numel_diff H), (tsum_diff H). reflexivity.
Qed.

Lemma MSELoss_sum (a b : tensor) :
  same_shape a b ->
  exists v, MSELoss Sum a b = Ok v /\ (v == Spec.sum_squared_error a b)%Q.
Proof.
  intro H. unfold MSELoss. rewrite (sub2_same H). simpl.
  eexists. split; [reflexivity|]. apply tsum_diff. exact H.
Qed.

End TorchFacts.

(* ------------------------------------------------------------------ *)
(** ** [BaseDataset] *)

Module BaseDatasetFacts.

Import Torch BaseDataset.

Lemma getitem_index (ds : dataset) (i : Z) (r : row * Q * Z) :
  getitem ds i = Ok r -> snd r = i.
Proof.
  unfold getitem. intro H. inv_bind H. inv_bind H. inv_ok H. reflexivity.
Qed.

(** C10.  Indexing a dataset at a valid position [i] returns the sample
    and the target stored at position [i] of that dataset together with
    [i] itself: the third component of the triple is the position within
    the dataset that is indexed. *)
Theorem getitem_returns_position (ds : dataset) (i : Z) :
  length (targets ds) = length (data ds) ->
  (0 <= i < Z.of_nat (len ds))%Z ->
  exists d t,
    getitem ds i = Ok (d, t, i)
    /\ nth_error (data ds) (Z.to_nat i) = Some d
    /\ nth_error (targets ds) (Z.to_nat i) = Some t.
Proof.
  intros Hlen Hi. unfold len in Hi.
  destruct (getitem_in_range (data ds) Hi) as (d & Hd & Hnd).
  assert (Hi' : (0 <= i < Z.of_nat (length (targets ds)))%Z) by (rewrite Hlen; exact Hi).
  destruct (getitem_in_range (targets ds) Hi') as (t & Ht & Hnt).
  exists d, t. unfold getitem. rewrite Hd, Ht. simpl. auto.
Qed.

Lemma getitem_returns_position_witness :
  exists d t, getitem Toy.x5 3 = Ok (d, t, 3%Z)
              /\ nth_error (data Toy.x5) 3 = Some d
              /\ nth_error (targets Toy.x5) 3 = Some t.
Proof.
  apply (@getitem_returns_position Toy.x5 3).
  - reflexivity.
  - vm_compute. split; [discriminate | reflexivity].
Defined.

(** The index is the position in the split, not in the data the split
    was taken from: after [BaseDataset(x, y, 'train', ...)], item [i]
    carries the sample [x[train_idx[i]]] and the index [i]. *)
Lemma getitem_after_split
      (train_test_split : nat -> Q -> Z -> list Z * list Z)
      (x : tensor) (y : list Q) (sample_dims : list nat)
      (split_ratio : Q) (seed : Z) (ds : dataset) (i : Z) (p : Z) :
  init train_test_split x y sample_dims "train"%string split_ratio seed = Ok ds ->
  nth_error (fst (train_test_split (length x) split_ratio seed)) (Z.to_nat i)
  = Some p ->
  (0 <= i)%Z ->
  exists d t, getitem ds i = Ok (d, t, i) /\ Py.getitem x p = Ok d
              /\ Py.getitem y p = Ok t.
Proof.
  unfold init, get_split. simpl.
  destruct (train_test_split (length x) split_ratio seed) as [tr te]. simpl.
  intros H Hp Hi. inv_bind H. destruct a as [xs ys]. inv_ok H.
  inv_bind E. inv_bind E. inv_ok E.
  unfold index_select in E0.
  destruct (mapM_nth _ _ E0 _ Hp) as (d & Hd & Hxd).
  destruct (mapM_nth _ _ E1 _ Hp) as (t & Ht & Hyt).
  exists d, t. split; [|auto].
  assert (Hr : forall A (l : list A) a, nth_error l (Z.to_nat i) = Some a ->
                                        Py.getitem l i = Ok a).
  { intros A l a Hn.
    assert (Z.to_nat i < length l)%nat by (apply nth_error_Some; congruence).
    destruct (@getitem_in_range A l i) as (a' & Ha' & Hn'); [lia|].
    congruence. }
  unfold getitem. simpl. rewrite (Hr _ _ _ Hd), (Hr _ _ _ Ht). reflexivity.
Qed.

(** Collation keeps the positions: the index tensor of a fetched batch is
    the list of positions it was fetched at. *)
Lemma fetch_idx (ds : dataset) (positions : list Z) (b : batch) :
  fetch ds positions = Ok b -> snd b = positions.
Proof.
  unfold fetch. intro H. inv_bind H. inv_ok H. rename a into items.
  revert items E. induction positions as [|p ps IH]; simpl; intros items E.
  - inv_ok E. reflexivity.
  - inv_bind E. inv_bind E. inv_ok E.
    pose proof (getitem_index _ _ E0) as Hp. destruct a as [[d t] j].
    simpl in Hp. subst j. simpl.
    specialize (IH _ E1). destruct (collate a0) as [[dd tt] jj]. simpl in *.
    congruence.
Qed.


(** A Python subscript: positions [-n .. n - 1] are valid and select the
    element at [i mod n]; every other subscript raises [IndexError]. *)
Lemma Py_getitem_cases {A} (l : list A) (i : Z) :
  let n := Z.of_nat (length l) in
  ((- n <= i < n)%Z ->
   exists a, Py.getitem l i = Ok a
             /\ nth_error l (Z.to_nat (i mod n)) = Some a)
  /\ ((i < - n \/ n <= i)%Z -> Py.getitem l i = Raise IndexError).
Proof.
  intro n. unfold Py.getitem. fold n. split.
  - intro Hi. destruct (Z.ltb_spec i 0) as [Hneg|Hpos].
    + assert (Hm : (i mod n = n + i)%Z).
      { rewrite <- (Z_mod_plus_full i 1 n). replace (i + 1 * n)%Z with (n + i)%Z by lia.
        apply Z.mod_small. lia. }
      rewrite Hm.
      assert (E1 : (0 <=? n + i)%Z = true) by (apply Z.leb_le; lia).
      assert (E2 : (n + i <? n)%Z = true) by (apply Z.ltb_lt; lia).
      rewrite E1, E2. simpl.
      destruct (nth_error l (Z.to_nat (n + i))) as [a|] eqn:En; [eauto|].
      apply nth_error_None in En. lia.
    + rewrite Z.mod_small by lia.
      assert (E1 : (0 <=? i)%Z = true) by (apply Z.leb_le; lia).
      assert (E2 : (i <? n)%Z = true) by (apply Z.ltb_lt; lia).
      rewrite E1, E2. simpl.
      destruct (nth_error l (Z.to_nat i)) as [a|] eqn:En; [eauto|].
      apply nth_error_None in En. lia.
  - intros [Hlo|Hhi].
    + assert (E : (i <? 0)%Z = true) by (apply Z.ltb_lt; lia). rewrite E.
      assert (E1 : (0 <=? n + i)%Z = false) by (apply Z.leb_gt; lia).
      rewrite E1. reflexivity.
    + assert (E : (i <? 0)%Z = false) by (apply Z.ltb_ge; lia). rewrite E.
      assert (E2 : (i <? n)%Z = false) by (apply Z.ltb_ge; lia).
      rewrite E2, andb_false_r. reflexivity.
Qed.

(** [__getitem__] over all integers, for a dataset of [n] samples with as
    many targets: an index in [-n .. n - 1] returns the sample and target
    at position [index mod n] and the index as it was passed (a negative
    index is not normalised); any other index raises [IndexError]. *)
Theorem getitem_index_range (ds : dataset) (i : Z) :
  length (targets ds) = length (data ds) ->
  let n := Z.of_nat (len ds) in
  ((- n <= i < n)%Z ->
   exists d t,
     getitem ds i = Ok (d, t, i)
     /\ nth_error (data ds) (Z.to_nat (i mod n)) = Some d
     /\ nth_error (targets ds) (Z.to_nat (i mod n)) = Some t)
  /\ ((i < - n \/ n <= i)%Z -> getitem ds i = Raise IndexError).
Proof.
  intros Hlen n. unfold getitem.
  destruct (Py_getitem_cases (data ds) i) as (Hd & Hde).
  destruct (Py_getitem_cases (targets ds) i) as (Ht & Hte).
  rewrite Hlen in Ht, Hte. fold (len ds) in Hd, Hde, Ht, Hte. fold n in Hd, Hde, Ht, Hte.
  split.
  - intro Hi. destruct (Hd Hi) as (d & Ed & Nd). destruct (Ht Hi) as (t & Et & Nt).
    exists d, t. rewrite Ed, Et. simpl. auto.
  - intro Hi. rewrite (Hde Hi). reflexivity.
Qed.

End BaseDatasetFacts.

(* ------------------------------------------------------------------ *)
(** ** The batch losses *)

Module LossFacts.

Import Torch BaseDataset.

Section WithTypes.

Variables Weights Opt : Type.

(** [GRAEBase.compute_loss] with [lam > 0]: two means. *)
Lemma GRAEBase_loss_is_mean
      (s : GraeModels.state Weights Opt) (x x_hat zb : tensor) (idx : list Z)
      (target rows : tensor) :
  (0 < GraeModels.lam s)%Q ->
  GraeModels.target_embedding s = Some target ->
  index_select target idx = Ok rows ->
  same_shape x x_hat ->
  same_shape zb rows ->
  exists loss,
    GraeModels.GRAEBase_compute_loss s x x_hat zb idx = Ok loss
    /\ (loss == Spec.mean_squared_error x x_hat
                + GraeModels.lam s * Spec.mean_squared_error zb rows)%Q.
Proof.
  intros Hlam Ht Hrows Hx Hz.
  unfold GraeModels.GRAEBase_compute_loss, GraeModels.criterion.
  apply Qlt_bool_iff in Hlam. rewrite Hlam, Ht. simpl.
  destruct (TorchFacts.MSELoss_mean Hx) as (v1 & E1 & Q1).
  destruct (TorchFacts.MSELoss_mean Hz) as (v2 & E2 & Q2).
  rewrite E1. simpl. rewrite Hrows. simpl. rewrite E2. simpl.
  eexists. split; [reflexivity|]. rewrite Q1, Q2. reflexivity.
Qed.

(** [models.GRAE.apply_loss] with [lam > 0]: two sums. *)
Lemma GRAE_loss_is_sum
      (m : Models.model Weights Opt) (x x_hat zb : tensor) (idx : list Z)
      (target rows : tensor) :
  (0 < Models.lam m)%Q ->
  Models.z m = Some target ->
  index_select target idx = Ok rows ->
  same_shape x x_hat ->
  same_shape zb rows ->
  exists loss,
    Models.GRAE_apply_loss m x x_hat zb idx = Ok loss
    /\ (loss == Spec.sum_squared_error x x_hat
                + Models.lam m * Spec.sum_squared_error zb rows)%Q.
Proof.
  intros Hlam Ht Hrows Hx Hz.
  unfold Models.GRAE_apply_loss, Models.criterion.
  apply Qlt_bool_iff in Hlam. rewrite Hlam, Ht. simpl.
  destruct (TorchFacts.MSELoss_sum Hx) as (v1 & E1 & Q1).
  destruct (TorchFacts.MSELoss_sum Hz) as (v2 & E2 & Q2).
  rewrite E1. simpl. rewrite Hrows. simpl. rewrite E2. simpl.
  eexists. split; [reflexivity|]. rewrite Q1, Q2. reflexivity.
Qed.

(** C1, as the code has it.  With [lam > 0], on a batch whose
    reconstruction has the shape of the input and whose latents have the
    shape of the target rows [target[idx]]:
    [grae_models.GRAEBase.compute_loss] (criterion [reduction='mean'])
    is the mean squared reconstruction error plus [lam] times the mean
    squared error between the latents and the target rows, while
    [models.GRAE.apply_loss] (criterion [reduction='sum']) is the same
    composition of the two sums of squared errors. *)
Theorem loss_composition
        (s : GraeModels.state Weights Opt) (m : Models.model Weights Opt)
        (x x_hat zb : tensor) (idx : list Z) (target rows : tensor) :
  (0 < GraeModels.lam s)%Q ->
  (0 < Models.lam m)%Q ->
  GraeModels.target_embedding s = Some target ->
  Models.z m = Some target ->
  index_select target idx = Ok rows ->
  same_shape x x_hat ->
  same_shape zb rows ->
  (exists loss,
      GraeModels.GRAEBase_compute_loss s x x_hat zb idx = Ok loss
      /\ (loss == Spec.mean_squared_error x x_hat
                  + GraeModels.lam s * Spec.mean_squared_error zb rows)%Q)
  /\ (exists loss,
         Models.GRAE_apply_loss m x x_hat zb idx = Ok loss
         /\ (loss == Spec.sum_squared_error x x_hat
                     + Models.lam m * Spec.sum_squared_error zb rows)%Q).
Proof.
  intros. split.
  - eapply GRAEBase_loss_is_mean; eassumption.
  - eapply GRAE_loss_is_sum; eassumption.
Qed.

(** C9.  With [lam] equal to zero the geometry-regularised loss is the
    plain autoencoder's loss, as a value and, for every batch, as a
    function of the network parameters (which is what the gradients are
    taken of). *)
Theorem lam_zero_same_loss
        (forward : bool -> Weights -> tensor -> tensor * tensor)
        (s : GraeModels.state Weights Opt) :
  (GraeModels.lam s == 0)%Q ->
  (forall x x_hat zb idx,
      GraeModels.GRAEBase_compute_loss s x x_hat zb idx
      = GraeModels.AE_compute_loss x x_hat zb idx)
  /\ (forall hp hp' b w,
         GraeModels.cls hp = GraeModels.GRAEBase ->
         GraeModels.cls hp' = GraeModels.AE ->
         GraeModels.batch_loss forward hp s b w
         = GraeModels.batch_loss forward hp' s b w).
Proof.
  intro H0.
  assert (L : forall x x_hat zb idx,
             GraeModels.GRAEBase_compute_loss s x x_hat zb idx
             = GraeModels.AE_compute_loss x x_hat zb idx).
  { intros. unfold GraeModels.GRAEBase_compute_loss.
    rewrite (Qlt_bool_zero_eq H0). reflexivity. }
  split; [exact L|].
  intros hp hp' [[d t] idx] w Hg Ha.
  unfold GraeModels.batch_loss, GraeModels.compute_loss.
  rewrite Hg, Ha. destruct (forward true w d) as [x_hat zb]. apply L.
Qed.

End WithTypes.

End LossFacts.

(** *** The losses on concrete batches *)

Module LossExamples.

Import Torch BaseDataset Toy.

Lemma loss_composition_witness :
  (exists loss,
      GraeModels.GRAEBase_compute_loss s1 (col [2; 0]%Z) (col [0; 0]%Z)
                                       (col [0; 0]%Z) [0; 1]%Z = Ok loss
      /\ (loss == Spec.mean_squared_error (col [2; 0]%Z) (col [0; 0]%Z)
                  + GraeModels.lam s1
                    * Spec.mean_squared_error (col [0; 0]%Z) (col [0; 0]%Z))%Q)
  /\ (exists loss,
         Models.GRAE_apply_loss m1 (col [2; 0]%Z) (col [0; 0]%Z)
                                (col [0; 0]%Z) [0; 1]%Z = Ok loss
         /\ (loss == Spec.sum_squared_error (col [2; 0]%Z) (col [0; 0]%Z)
                     + Models.lam m1
                       * Spec.sum_squared_error (col [0; 0]%Z) (col [0; 0]%Z))%Q).
Proof.
  apply (@LossFacts.loss_composition Weights Opt s1 m1 (col [2; 0]%Z)
           (col [0; 0]%Z) (col [0; 0]%Z) [0; 1]%Z (col [0; 0]%Z) (col [0; 0]%Z)).
  - reflexivity.
  - reflexivity.
  - reflexivity.
  - reflexivity.
  - reflexivity.
  - repeat constructor.
  - repeat constructor.
Defined.

(** The reconstruction term of [models.GRAE.apply_loss] is a sum: on two
    samples with squared errors 4 and 0 the loss is 4, not their mean 2. *)
Lemma models_GRAE_loss_is_not_a_mean :
  exists loss,
    Models.GRAE_apply_loss m1 (col [2; 0]%Z) (col [0; 0]%Z)
                           (col [0; 0]%Z) [0; 1]%Z = Ok loss
    /\ ~ (loss == Spec.mean_squared_error (col [2; 0]%Z) (col [0; 0]%Z)
                  + Models.lam m1
                    * Spec.mean_squared_error (col [0; 0]%Z) (col [0; 0]%Z))%Q.
Proof.
  eexists. split.
  - vm_compute. reflexivity.
  - intro H. vm_compute in H. discriminate H.
Qed.

Lemma lam_zero_same_loss_witness :
  (forall x x_hat zb idx,
      GraeModels.GRAEBase_compute_loss s0 x x_hat zb idx
      = GraeModels.AE_compute_loss x x_hat zb idx)
  /\ (forall hp hp' b w,
         GraeModels.cls hp = GraeModels.GRAEBase ->
         GraeModels.cls hp' = GraeModels.AE ->
         GraeModels.batch_loss forward hp s0 b w
         = GraeModels.batch_loss forward hp' s0 b w).
Proof.
  apply (@LossFacts.lam_zero_same_loss Weights Opt forward s0).
  reflexivity.
Defined.

End LossExamples.

(* ------------------------------------------------------------------ *)
(** ** The Siamese loss on batches of odd size *)

Module SiameseFacts.

Import Torch BaseDataset.

Section WithTypes.

Variables Weights Opt : Type.
Variable sqrtQ : Q -> Q.

(** C4 fails on the code.  On a batch of odd size [n >= 5] with
    [lam > 0] the loss computation raises: [idx] is cut to
    [idx[half:2 * half]] but the latents are not, so [z[:half] - z[half:]]
    subtracts [half + 1] rows from [half >= 2] rows, which torch
    refuses. *)
Theorem SGRAE_odd_batch_raises
      (m : Models.model Weights Opt) (x x_hat zb : tensor) (idx : list Z) :
  (0 < Models.lam m)%Q ->
  length zb = length x ->
  Nat.odd (length x) = true ->
  (5 <= length x)%nat ->
  Models.SGRAE_apply_loss sqrtQ m x x_hat zb idx = Raise RuntimeError.
Proof.
  intros Hlam Hz Hodd Hn.
  unfold Models.SGRAE_apply_loss. apply Qlt_bool_iff in Hlam. rewrite Hlam.
  unfold shape0, Py.slice_to, Py.slice_from.
  apply Nat.odd_spec in Hodd. destruct Hodd as [h Hh].
  assert (Hhalf : (length x / 2 = h)%nat).
  { rewrite Hh. replace (2 * h + 1)%nat with (1 + h * 2)%nat by lia.
    rewrite Nat.div_add by lia. reflexivity. }
  rewrite Hhalf.
  assert (L1 : length (firstn h zb) = h) by (rewrite length_firstn; lia).
  assert (L2 : length (skipn h zb) = S h) by (rewrite length_skipn; lia).
  unfold sub2, bcast. rewrite L1, L2.
  assert (E : (h =? S h)%nat = false) by (apply Nat.eqb_neq; lia).
  rewrite E.
  destruct (firstn h zb) as [|a1 [|a2 l1]]; simpl in L1; try lia.
  destruct (skipn h zb) as [|b1 [|b2 l2]]; simpl in L2; try lia.
  reflexivity.
Qed.

(** On an even batch the two halves are paired element-wise: the
    subtraction is between [half] rows and [half] rows. *)
Lemma SGRAE_even_batch_halves (zb : tensor) :
  Nat.even (length zb) = true ->
  let half := (length zb / 2)%nat in
  length (Py.slice_to half zb) = length (Py.slice_from half zb).
Proof.
  intros Hev half. unfold Py.slice_to, Py.slice_from.
  apply Nat.even_spec in Hev. destruct Hev as [h Hh].
  assert (Hhalf : half = h).
  { unfold half. rewrite Hh. rewrite Nat.mul_comm. apply Nat.div_mul. lia. }
  rewrite length_firstn, length_skipn. lia.
Qed.


Lemma zipM_length {A B C} (f : A -> B -> result C) :
  forall (l1 : list A) (l2 : list B) (r : list C),
    length l1 = length l2 -> zipM f l1 l2 = Ok r -> length r = length l1.
Proof.
  induction l1 as [|a l1 IH]; intros [|b l2] r Hl H; simpl in *;
    try discriminate.
  - inv_ok H. reflexivity.
  - inv_bind H. inv_bind H. inv_ok H. simpl. f_equal. eapply IH; eauto.
Qed.

Lemma zipM_nth {A B C} (f : A -> B -> result C) :
  forall (l1 : list A) (l2 : list B) (r : list C),
    zipM f l1 l2 = Ok r ->
    forall k a b, nth_error l1 k = Some a -> nth_error l2 k = Some b ->
                  exists c, nth_error r k = Some c /\ f a b = Ok c.
Proof.
  induction l1 as [|a0 l1 IH]; intros [|b0 l2] r H k a b Ha Hb;
    try (destruct k; discriminate).
  simpl in H. inv_bind H. inv_bind H. inv_ok H.
  destruct k as [|k]; simpl in *.
  - injection Ha as ->. injection Hb as ->. eauto.
  - eapply IH; eauto.
Qed.

(** On a batch of even size [2 * h] with [lam > 0], written as its two
    halves (latents [z1 ++ z2], indices [i1 ++ i2]), sample [k] of the
    first half is paired with sample [k] of the second half: the loss is
    the summed squared reconstruction error plus [lam] times the sum over
    the pairs of [(||z1[k] - z2[k]|| - d_mx[i1[k], i2[k]]) ** 2]. *)
Theorem SGRAE_even_batch_pairs
      (m : Models.model Weights Opt) (x x_hat z1 z2 : tensor)
      (i1 i2 : list Z) (dist : tensor) (ref : row) :
  (0 < Models.lam m)%Q ->
  Models.d_mx m = Some dist ->
  length x = (2 * length z1)%nat ->
  length i1 = length z1 ->
  length i2 = length z1 ->
  same_shape z1 z2 ->
  same_shape x x_hat ->
  index_pairs dist i1 i2 = Ok ref ->
  (forall k a b, nth_error i1 k = Some a -> nth_error i2 k = Some b ->
                 exists r v, Py.getitem dist a = Ok r /\ Py.getitem r b = Ok v
                             /\ nth_error ref k = Some v)
  /\ exists loss,
      Models.SGRAE_apply_loss sqrtQ m x x_hat (z1 ++ z2) (i1 ++ i2) = Ok loss
      /\ (loss == Spec.sum_squared_error x x_hat
                  + Models.lam m
                    * qsum (map (fun p =>
                                   square (sqrtQ (qsum (map square
                                              (diff_row (fst (fst p)) (snd (fst p)))))
                                           - snd p))
                                (combine (combine z1 z2) ref)))%Q.
Proof.
  intros Hlam Hd Hx Hi1 Hi2 Hz Hxx Href.
  pose proof (Forall2_length Hz) as Hzl.
  assert (Hzip : zipM (fun i j => r <- Py.getitem dist i ;; Py.getitem r j) i1 i2
                 = Ok ref).
  { unfold index_pairs in Href. rewrite TorchFacts.bcast_same in Href by congruence.
    exact Href. }
  split.
  - intros k a b Ha Hb.
    destruct (zipM_nth _ _ _ Hzip _ Ha Hb) as (v & Hv & Hf).
    inv_bind Hf. eauto.
  - unfold Models.SGRAE_apply_loss. apply Qlt_bool_iff in Hlam. rewrite Hlam.
    unfold shape0, Py.slice_to, Py.slice_from, Py.slice.
    assert (Hhalf : (length x / 2 = length z1)%nat).
    { rewrite Hx, Nat.mul_comm. apply Nat.div_mul. lia. }
    rewrite Hhalf.
    replace (2 * length z1 - length z1)%nat with (length z1) by lia.
    assert (S1 : forall A (l1 l2 : list A), firstn (length l1) (l1 ++ l2) = l1).
    { intros. rewrite firstn_app, Nat.sub_diag, firstn_all. simpl. apply app_nil_r. }
    assert (S2 : forall A (l1 l2 : list A), skipn (length l1) (l1 ++ l2) = l2).
    { intros. rewrite skipn_app, Nat.sub_diag, skipn_all. reflexivity. }
    rewrite S1, S2. rewrite <- Hi1, S1, S2.
    replace (length i1) with (length i2) by congruence. rewrite firstn_all.
    rewrite (TorchFacts.sub2_same Hz). simpl. rewrite Hd. simpl.
    rewrite Href. simpl.
    assert (Hrl : length ref = length i1) by (eapply zipM_length; [|exact Hzip]; congruence).
    assert (Hnl : length (Models.norm_rows sqrtQ (diff z1 z2)) = length ref).
    { unfold Models.norm_rows, diff. rewrite !length_map, length_combine. lia. }
    rewrite (TorchFacts.sub1_same _ _ Hnl). simpl.
    destruct (TorchFacts.MSELoss_sum Hxx) as (v & Ev & Qv).
    unfold Models.criterion. rewrite Ev. simpl.
    eexists. split; [reflexivity|]. rewrite Qv.
    apply Qplus_comp; [reflexivity|]. apply Qmult_comp; [reflexivity|].
    unfold Models.norm_rows, diff, diff_row at 1.
    clear. revert z2 ref. induction z1 as [|a z1 IH]; intros [|b z2] [|r ref];
      simpl; try reflexivity.
    rewrite IH. reflexivity.
Qed.

End WithTypes.

(** A batch of five samples with [lam = 10]: the loss computation raises
    torch's size-mismatch error. *)
Lemma SGRAE_batch_of_five_raises :
  Models.SGRAE_apply_loss Toy.sqrtQ (Toy.sgrae 10 Toy.x5)
                          (data Toy.x5) (data Toy.x5) (data Toy.x5) (range 5)
  = Raise RuntimeError.
Proof.
  apply (@SGRAE_odd_batch_raises Toy.Weights Toy.Opt Toy.sqrtQ
           (Toy.sgrae 10 Toy.x5) (data Toy.x5) (data Toy.x5) (data Toy.x5)
           (range 5)).
  - reflexivity.
  - reflexivity.
  - reflexivity.
  - vm_compute. lia.
Defined.

(** A batch of three does not raise, but the trailing sample is not
    dropped: the one row of [z[:1]] is broadcast against both rows of
    [z[1:]], so the first sample is compared with the second and with the
    third (latents 0, 3, 7; zero reference distances; the toy "square
    root" is the identity, so the two distances are 9 and 49). *)
Example SGRAE_batch_of_three_pairs_first_with_both :
  Models.SGRAE_apply_loss Toy.sqrtQ (Toy.sgrae 1 (Toy.points [1; 2; 3]%Z))
                          (Toy.col [1; 2; 3]%Z) (Toy.col [1; 2; 3]%Z)
                          (Toy.col [0; 3; 7]%Z) (range 3)
  = Ok (inject_Z (9 * 9 + 49 * 49)).
Proof. vm_compute. reflexivity. Qed.

Example SGRAE_batch_of_four_pairs_halves :
  Models.SGRAE_apply_loss Toy.sqrtQ (Toy.sgrae 1 (Toy.points [1; 2; 3; 4]%Z))
                          (Toy.col [1; 2; 3; 4]%Z) (Toy.col [1; 2; 3; 4]%Z)
                          (Toy.col [0; 3; 7; 9]%Z) (range 4)
  = Ok (inject_Z (49 * 49 + 36 * 36)).
Proof. vm_compute. reflexivity. Qed.

End SiameseFacts.

(* ------------------------------------------------------------------ *)
(** ** [grae_models.AE.fit]: the epoch loop, early stopping, relaxation
       and the checkpoint *)

Module FitFacts.

Import Torch BaseDataset.
Import GraeModels.

Section WithTorch.

Variables Arch Params Opt : Type.
Variable Arch_eq_dec : forall a b : Arch, {a = b} + {a <> b}.

Local Abbreviation Weights := (GraeModels.Weights Arch Params).

Variable AutoencoderModule : nat -> Weights.
Variable ConvAutoencoderModule : nat -> nat -> nat -> Weights.
Variable Adam : Weights -> Opt.
Variable forward : bool -> Weights -> tensor -> tensor * tensor.
Variable backward_step : (Weights -> result Q) -> Weights -> Opt -> Params * Opt.
Variable DataLoader : dataset -> nat -> nat -> list batch.

Local Abbreviation state := (GraeModels.state Weights Opt).
Local Abbreviation train_batch := (GraeModels.train_batch forward backward_step).
Local Abbreviation train_batches := (GraeModels.train_batches forward backward_step).
Local Abbreviation eval_MSE := (GraeModels.eval_MSE forward DataLoader).
Local Abbreviation log_metrics := (GraeModels.log_metrics forward DataLoader).
Local Abbreviation improves := (GraeModels.improves forward DataLoader).
Local Abbreviation epoch_body :=
  (GraeModels.epoch_body forward backward_step DataLoader).
Local Abbreviation epoch_loop :=
  (GraeModels.epoch_loop forward backward_step DataLoader).
Local Abbreviation fit_setup :=
  (GraeModels.fit_setup AutoencoderModule ConvAutoencoderModule Adam).
Local Abbreviation fit_train :=
  (GraeModels.fit_train AutoencoderModule ConvAutoencoderModule Adam
                        forward backward_step DataLoader).
Local Abbreviation load_file :=
  (GraeModels.load Arch_eq_dec AutoencoderModule ConvAutoencoderModule).
Local Abbreviation restore_checkpoint :=
  (GraeModels.restore_checkpoint Arch_eq_dec AutoencoderModule
                                 ConvAutoencoderModule).
Local Abbreviation AE_fit :=
  (GraeModels.AE_fit Arch_eq_dec AutoencoderModule ConvAutoencoderModule Adam
                     forward backward_step DataLoader).

Implicit Types (hp : hyper) (s : state) (x v : dataset).

(** *** What each step leaves alone *)

(** Mini-batch training touches the parameters and the optimiser
    only. *)
Lemma train_batch_frame hp s b s' :
  train_batch hp s b = Ok s' ->
  torch_module s' <> None
  /\ data_shape s' = data_shape s
  /\ val_loader s' = val_loader s
  /\ current_loss_min s' = current_loss_min s
  /\ early_stopping_count s' = early_stopping_count s
  /\ lam s' = lam s
  /\ target_embedding s' = target_embedding s
  /\ checkpoint_pt s' = checkpoint_pt s.
Proof.
  unfold GraeModels.train_batch. intro H.
  inv_bind H. inv_bind H. inv_bind H.
  destruct (backward_step _ a a0) as [w' o']. inv_ok H.
  simpl. repeat split; congruence.
Qed.

Lemma train_batches_frame hp bs : forall s s',
  train_batches hp s bs = Ok s' ->
  (torch_module s <> None -> torch_module s' <> None)
  /\ data_shape s' = data_shape s
  /\ val_loader s' = val_loader s
  /\ current_loss_min s' = current_loss_min s
  /\ early_stopping_count s' = early_stopping_count s
  /\ lam s' = lam s
  /\ target_embedding s' = target_embedding s
  /\ checkpoint_pt s' = checkpoint_pt s.
Proof.
  induction bs as [|b bs IH]; simpl; intros s s' H.
  - inv_ok H. repeat split; auto.
  - inv_bind H.
    destruct (train_batch_frame _ _ _ E) as (M & F1 & F2 & F3 & F4 & F5 & F6 & F7).
    destruct (IH _ _ H) as (M' & G1 & G2 & G3 & G4 & G5 & G6 & G7).
    repeat split; try congruence. intros _. exact (M' M).
Qed.

(** The validation loss reads the parameters only. *)
Lemma eval_MSE_module hp s s' v e :
  torch_module s' = torch_module s -> eval_MSE hp s' v e = eval_MSE hp s v e.
Proof. intro H. unfold GraeModels.eval_MSE. rewrite H. reflexivity. Qed.

(** [log_metrics]: without a validation loader nothing changes; with one,
    an improvement resets the counter and writes the checkpoint, anything
    else increments the counter. *)
Lemma log_metrics_cases hp s e s' :
  log_metrics hp s e = Ok s' ->
  torch_module s' = torch_module s
  /\ data_shape s' = data_shape s
  /\ val_loader s' = val_loader s
  /\ lam s' = lam s
  /\ target_embedding s' = target_embedding s
  /\ match val_loader s with
     | None => s' = s
     | Some v =>
         exists val_mse,
         eval_MSE hp s v e = Ok val_mse
         /\ if below_min val_mse (current_loss_min s)
            then early_stopping_count s' = 0%Z
                 /\ current_loss_min s' = Some val_mse
                 /\ exists w, torch_module s = Some w
                              /\ checkpoint_pt s' = Some (w, data_shape s)
            else early_stopping_count s' = (early_stopping_count s + 1)%Z
                 /\ current_loss_min s' = current_loss_min s
                 /\ checkpoint_pt s' = checkpoint_pt s
     end.
Proof.
  unfold GraeModels.log_metrics, GraeModels.log_metrics_val.
  destruct (val_loader s) as [v|] eqn:Ev; intro H.
  - inv_bind H. rename a into val_mse.
    destruct (below_min val_mse (current_loss_min s)) eqn:Eb.
    + unfold save in H. inv_bind H. inv_ok H. simpl in *.
      do 5 (split; [first [reflexivity | assumption]|]).
      exists val_mse. split; [exact E|]. rewrite Eb.
      do 2 (split; [reflexivity|]).
      destruct (torch_module s) as [w|]; [|discriminate].
      inv_ok E0. exists a. auto.
    + inv_ok H. simpl. do 5 (split; [first [reflexivity | assumption]|]).
      exists val_mse. split; [exact E|]. rewrite Eb. auto.
  - inv_ok H. auto 10.
Qed.

(** [end_epoch] can only set [lam] to zero. *)
Lemma end_epoch_frame hp s e :
  torch_module (end_epoch hp s e) = torch_module s
  /\ data_shape (end_epoch hp s e) = data_shape s
  /\ val_loader (end_epoch hp s e) = val_loader s
  /\ current_loss_min (end_epoch hp s e) = current_loss_min s
  /\ early_stopping_count (end_epoch hp s e) = early_stopping_count s
  /\ target_embedding (end_epoch hp s e) = target_embedding s
  /\ checkpoint_pt (end_epoch hp s e) = checkpoint_pt s.
Proof.
  unfold end_epoch, GRAEBase_end_epoch.
  destruct (cls hp); [repeat split|].
  destruct (relax hp && Qlt_bool 0 (lam s)
            && (early_stopping_count s =? half_patience hp)%Z)%bool;
    repeat split.
Qed.

Lemma end_epoch_lam hp s e :
  lam (end_epoch hp s e)
  = match cls hp with
    | AE => lam s
    | GRAEBase =>
        if (relax hp && Qlt_bool 0 (lam s)
            && (early_stopping_count s =? half_patience hp)%Z)%bool
        then 0%Q else lam s
    end.
Proof.
  unfold end_epoch, GRAEBase_end_epoch.
  destruct (cls hp); [reflexivity|].
  destruct (relax hp && Qlt_bool 0 (lam s)
            && (early_stopping_count s =? half_patience hp)%Z)%bool;
    reflexivity.
Qed.

(** *** One epoch *)

Lemma epoch_body_frame hp x s e s' :
  epoch_body hp x s e = Ok s' ->
  (torch_module s <> None -> torch_module s' <> None)
  /\ data_shape s' = data_shape s
  /\ val_loader s' = val_loader s
  /\ target_embedding s' = target_embedding s.
Proof.
  unfold GraeModels.epoch_body. intro H. inv_bind H. inv_bind H. inv_ok H.
  destruct (train_batches_frame _ _ _ E) as (M & F1 & F2 & F3 & F4 & F5 & F6 & F7).
  destruct (log_metrics_cases _ _ _ E0) as (G0 & G1 & G2 & G3 & G4 & _).
  destruct (end_epoch_frame hp a0 e) as (H0 & H1 & H2 & H3 & H4 & H5 & H6).
  repeat split; try congruence. intro Hm. rewrite H0, G0. exact (M Hm).
Qed.

(** An epoch without a validation loader leaves the early-stopping
    state and the checkpoint file alone. *)
Lemma epoch_body_no_val hp x s e s' :
  epoch_body hp x s e = Ok s' ->
  val_loader s = None ->
  early_stopping_count s' = early_stopping_count s
  /\ current_loss_min s' = current_loss_min s
  /\ checkpoint_pt s' = checkpoint_pt s.
Proof.
  unfold GraeModels.epoch_body. intros H Hv. inv_bind H. inv_bind H. inv_ok H.
  destruct (train_batches_frame _ _ _ E) as (M & F1 & F2 & F3 & F4 & F5 & F6 & F7).
  destruct (log_metrics_cases _ _ _ E0) as (G0 & G1 & G2 & G3 & G4 & G5).
  rewrite F2, Hv in G5. subst a0.
  destruct (end_epoch_frame hp a e) as (H0 & H1 & H2 & H3 & H4 & H5 & H6).
  repeat split; congruence.
Qed.

(** An epoch with a validation loader: either the validation loss
    improves, the counter is reset and the parameters the epoch ends
    with are checkpointed, or the counter grows by one and the
    checkpoint is the one of before. *)
Lemma epoch_body_val hp x s e s' v :
  epoch_body hp x s e = Ok s' ->
  val_loader s = Some v ->
  exists w,
    torch_module s' = Some w
    /\ if improves hp v s s' e
       then early_stopping_count s' = 0%Z
            /\ checkpoint_pt s' = Some (w, data_shape s')
       else early_stopping_count s' = (early_stopping_count s + 1)%Z
            /\ current_loss_min s' = current_loss_min s
            /\ checkpoint_pt s' = checkpoint_pt s.
Proof.
  unfold GraeModels.epoch_body. intros H Hv. inv_bind H. inv_bind H. inv_ok H.
  rename a into t, a0 into l.
  destruct (train_batches_frame _ _ _ E) as (M & F1 & F2 & F3 & F4 & F5 & F6 & F7).
  destruct (log_metrics_cases _ _ _ E0) as (G0 & G1 & G2 & G3 & G4 & G5).
  rewrite F2, Hv in G5. destruct G5 as (val_mse & Ev & Hcase).
  destruct (end_epoch_frame hp l e) as (H0 & H1 & H2 & H3 & H4 & H5 & H6).
  assert (Ew : exists w, torch_module t = Some w).
  { unfold GraeModels.eval_MSE in Ev. inv_bind Ev.
    destruct (torch_module t); [eauto | discriminate]. }
  destruct Ew as (w & Ew). exists w. split; [congruence|].
  unfold GraeModels.improves.
  rewrite (@eval_MSE_module hp t (end_epoch hp l e) v e) by congruence.
  rewrite Ev, <- F3.
  destruct (below_min val_mse (current_loss_min t)).
  - destruct Hcase as (C1 & C2 & w' & Ew' & C3).
    split; [congruence|]. rewrite H6, C3, H1, G1. congruence.
  - destruct Hcase as (C1 & C2 & C3). repeat split; congruence.
Qed.

(** An epoch changes [lam] only through [end_epoch]. *)
Lemma epoch_body_lam hp x s e s' :
  epoch_body hp x s e = Ok s' ->
  lam s'
  = match cls hp with
    | AE => lam s
    | GRAEBase =>
        if (relax hp && Qlt_bool 0 (lam s)
            && (early_stopping_count s' =? half_patience hp)%Z)%bool
        then 0%Q else lam s
    end.
Proof.
  unfold GraeModels.epoch_body. intro H. inv_bind H. inv_bind H. inv_ok H.
  destruct (train_batches_frame _ _ _ E) as (M & F1 & F2 & F3 & F4 & F5 & F6 & F7).
  destruct (log_metrics_cases _ _ _ E0) as (G0 & G1 & G2 & G3 & G4 & _).
  destruct (end_epoch_frame hp a0 e) as (H0 & H1 & H2 & H3 & H4 & H5 & H6).
  rewrite end_epoch_lam, H4, G3, F5. reflexivity.
Qed.

(** *** The epoch loop, step by step *)

Lemma nth_error_seq_some (a n i e : nat) :
  nth_error (seq a n) i = Some e -> e = (a + i)%nat /\ (i < n)%nat.
Proof.
  revert a i; induction n as [|n IH]; intros a i H; simpl in H.
  - destruct i; discriminate.
  - destruct i as [|i]; simpl in H.
    + injection H as <-. lia.
    + apply IH in H. lia.
Qed.

Lemma last_cons {A} (l : list A) : forall a b, last (b :: l) a = last l b.
Proof.
  induction l as [|c l IH]; intros a b; [reflexivity|].
  change (last (b :: c :: l) a) with (last (c :: l) a).
  rewrite (IH a c), (IH b c). reflexivity.
Qed.

Lemma nth_error_last {A} (l : list A) (a : A) :
  nth_error (a :: l) (length l) = Some (last l a).
Proof.
  revert a; induction l as [|b l IH]; intro a; [reflexivity|].
  change (nth_error (a :: b :: l) (length (b :: l))) with (nth_error (b :: l) (length l)).
  rewrite IH, last_cons. reflexivity.
Qed.

(** The list [epoch_loop] returns is a run: each state is the result of
    [epoch_body] on the state before it, no state but the last has the
    counter at [patience], and a run shorter than the budget ends with
    the counter at [patience]. *)
Lemma epoch_loop_steps hp x : forall todo s hist,
  epoch_loop hp x todo s = Ok hist ->
  (length hist <= length todo)%nat
  /\ (forall i c, nth_error hist i = Some c ->
        exists e p, nth_error todo i = Some e
                    /\ nth_error (s :: hist) i = Some p
                    /\ epoch_body hp x p e = Ok c)
  /\ (forall i c, nth_error hist i = Some c -> (S i < length hist)%nat ->
        early_stopping_count c <> patience hp)
  /\ ((length hist < length todo)%nat ->
        early_stopping_count (last hist s) = patience hp /\ hist <> []).
Proof.
  induction todo as [|e rest IH]; intros s hist H; simpl in H.
  - inv_ok H. simpl. split; [lia|]. split; [|split].
    + intros [|i] c Hc; discriminate.
    + intros [|i] c Hc; discriminate.
    + lia.
  - inv_bind H. rename a into s'.
    destruct (early_stopping_count s' =? patience hp)%Z eqn:Eb.
    + inv_ok H. apply Z.eqb_eq in Eb. simpl. split; [lia|]. split; [|split].
      * intros [|i] c Hc; simpl in Hc; [|destruct i; discriminate].
        injection Hc as <-. exists e, s. auto.
      * intros i c _ Hi. lia.
      * intros _. split; [exact Eb | discriminate].
    + inv_bind H. inv_ok H. rename a into h. apply Z.eqb_neq in Eb.
      destruct (IH _ _ E0) as (L & St & Nl & La). simpl.
      split; [lia|]. split; [|split].
      * intros [|i] c Hc; simpl in Hc.
        -- injection Hc as <-. exists e, s. auto.
        -- destruct (St _ _ Hc) as (e' & p & He' & Hp & Hb).
           exists e', p. auto.
      * intros [|i] c Hc Hi; simpl in Hc.
        -- injection Hc as <-. exact Eb.
        -- apply (Nl _ _ Hc). lia.
      * intro Hlt. destruct La as (Lc & Hne); [lia|].
        split; [|discriminate].
        destruct h as [|b h']; [congruence|].
        rewrite (last_cons h' s' b) in Lc.
        change (last (s' :: b :: h') s) with (last (b :: h') s).
        rewrite (last_cons h' s b). exact Lc.
Qed.

(** The validation loader, once set, stays. *)
Lemma epoch_loop_val_loader hp x todo s hist v :
  epoch_loop hp x todo s = Ok hist ->
  val_loader s = Some v ->
  forall j sj, nth_error (s :: hist) j = Some sj -> val_loader sj = Some v.
Proof.
  intros H Hv. destruct (epoch_loop_steps _ _ _ _ H) as (_ & St & _).
  induction j as [|j IH]; intros sj Hj; simpl in Hj.
  - injection Hj as <-. exact Hv.
  - destruct (St _ _ Hj) as (e & p & _ & Hp & Hb).
    destruct (epoch_body_frame _ _ _ _ Hb) as (_ & _ & F & _).
    rewrite F. exact (IH _ Hp).
Qed.

(** *** Setting up *)

Lemma fit_setup_frame hp s x s' :
  fit_setup hp s x = Ok s' ->
  torch_module s' <> None
  /\ val_loader s' = match data_val hp with
                     | Some v => Some v
                     | None => val_loader s
                     end
  /\ current_loss_min s' = current_loss_min s
  /\ early_stopping_count s' = early_stopping_count s
  /\ lam s' = lam s
  /\ target_embedding s' = target_embedding s
  /\ checkpoint_pt s' = checkpoint_pt s.
Proof.
  unfold GraeModels.fit_setup. intro H. inv_bind H. rename a into shape.
  inv_bind H. rename a into s2. inv_bind H. rename a into w. inv_ok H.
  assert (F : torch_module s2 <> None
              /\ val_loader s2 = val_loader s
              /\ current_loss_min s2 = current_loss_min s
              /\ early_stopping_count s2 = early_stopping_count s
              /\ lam s2 = lam s
              /\ target_embedding s2 = target_embedding s
              /\ checkpoint_pt s2 = checkpoint_pt s).
  { destruct (torch_module (set_data_shape s shape)) eqn:Em.
    - inv_ok E0. simpl in *. repeat split; congruence.
    - inv_bind E0. inv_ok E0. simpl. repeat split; congruence. }
  destruct F as (F0 & F1 & F2 & F3 & F4 & F5 & F6).
  destruct (data_val hp); simpl; repeat split; congruence.
Qed.

Lemma fit_train_inv hp s x s1 hist :
  fit_train hp s x = Ok (s1, hist) ->
  exists s0,
    fit_setup hp s x = Ok s0
    /\ log_metrics hp s0 0 = Ok s1
    /\ epoch_loop hp x (seq 1 (Z.to_nat (epochs hp))) s1 = Ok hist.
Proof.
  unfold GraeModels.fit_train. intro H.
  inv_bind H. inv_bind H. inv_bind H. inv_ok H.
  unfold range2 in E1. rewrite Nat.add_sub in E1. eauto.
Qed.

(** The model holds parameters from [fit_setup] on. *)
Lemma fit_train_module hp s x s1 hist :
  fit_train hp s x = Ok (s1, hist) ->
  forall j sj, nth_error (s1 :: hist) j = Some sj -> torch_module sj <> None.
Proof.
  intro H. destruct (fit_train_inv _ _ _ H) as (s0 & Hs & Hl & Hloop).
  destruct (fit_setup_frame _ _ _ Hs) as (M0 & _).
  destruct (log_metrics_cases _ _ _ Hl) as (G0 & _).
  destruct (epoch_loop_steps _ _ _ _ Hloop) as (_ & St & _).
  induction j as [|j IH]; intros sj Hj; simpl in Hj.
  - injection Hj as <-. congruence.
  - destruct (St _ _ Hj) as (e & p & _ & Hp & Hb).
    destruct (epoch_body_frame _ _ _ _ Hb) as (M & _).
    exact (M (IH _ Hp)).
Qed.

(** *** The checkpoint at the end of [fit] *)

(** Training changes the values of the parameters, never the
    architecture. *)
Lemma train_batch_arch hp s b s' w :
  train_batch hp s b = Ok s' ->
  torch_module s = Some w ->
  exists w', torch_module s' = Some w' /\ fst w' = fst w.
Proof.
  unfold GraeModels.train_batch. intros H Hw. rewrite Hw in H. simpl in H.
  inv_bind H. inv_bind H.
  destruct (backward_step _ w a) as [p' o']. inv_ok H.
  simpl. eauto.
Qed.

Lemma train_batches_arch hp bs : forall s s' w,
  train_batches hp s bs = Ok s' ->
  torch_module s = Some w ->
  exists w', torch_module s' = Some w' /\ fst w' = fst w.
Proof.
  induction bs as [|b bs IH]; simpl; intros s s' w H Hw.
  - inv_ok H. eauto.
  - inv_bind H. destruct (train_batch_arch _ _ _ E Hw) as (w1 & Hw1 & A1).
    destruct (IH _ _ _ H Hw1) as (w' & Hw' & A'). exists w'.
    split; [exact Hw' | congruence].
Qed.

(** An epoch keeps the architecture, and the checkpoint it leaves is the
    one it found or one it wrote from its own parameters. *)
Lemma epoch_body_arch hp x s e s' w :
  epoch_body hp x s e = Ok s' ->
  torch_module s = Some w ->
  exists w', torch_module s' = Some w' /\ fst w' = fst w
             /\ (checkpoint_pt s' = checkpoint_pt s
                 \/ exists sh, checkpoint_pt s' = Some (w', sh)).
Proof.
  unfold GraeModels.epoch_body. intros H Hw. inv_bind H. inv_bind H. inv_ok H.
  rename a into t, a0 into l.
  destruct (train_batches_arch _ _ _ E Hw) as (w' & Hw' & A).
  destruct (train_batches_frame _ _ _ E) as (_ & _ & _ & _ & _ & _ & _ & Fc).
  destruct (log_metrics_cases _ _ _ E0) as (G0 & _ & _ & _ & _ & G5).
  destruct (end_epoch_frame hp l e) as (H0 & _ & _ & _ & _ & _ & H6).
  exists w'. split; [congruence|]. split; [exact A|].
  rewrite H6. destruct (val_loader t) as [v|].
  - destruct G5 as (val & _ & Hcase).
    destruct (below_min val (current_loss_min t)).
    + destruct Hcase as (_ & _ & w1 & Hw1 & Hck). right.
      exists (data_shape t). congruence.
    + destruct Hcase as (_ & _ & Hck). left. congruence.
  - subst l. left. exact Fc.
Qed.

(** Through a whole [fit] the model has one architecture, and the
    checkpoint file is the one [fit] found or holds parameters of that
    architecture. *)
Lemma fit_train_lineage hp s x s1 hist :
  fit_train hp s x = Ok (s1, hist) ->
  exists a,
    forall j sj, nth_error (s1 :: hist) j = Some sj ->
      (exists w, torch_module sj = Some w /\ fst w = a)
      /\ (checkpoint_pt sj = checkpoint_pt s
          \/ exists w sh, checkpoint_pt sj = Some (w, sh) /\ fst w = a).
Proof.
  intro H. destruct (fit_train_inv _ _ _ H) as (s0 & Hs & Hl & Hloop).
  destruct (fit_setup_frame _ _ _ Hs) as (M0 & _ & _ & _ & _ & _ & F6).
  destruct (log_metrics_cases _ _ _ Hl) as (G0 & _ & _ & _ & _ & G5).
  destruct (torch_module s0) as [w0|] eqn:Ew0; [|congruence].
  exists (fst w0).
  destruct (epoch_loop_steps _ _ _ _ Hloop) as (_ & St & _).
  induction j as [|j IH]; intros sj Hj; simpl in Hj.
  - injection Hj as <-. split; [exists w0; split; [congruence | reflexivity]|].
    destruct (val_loader s0) as [v|].
    + destruct G5 as (val & _ & Hcase).
      destruct (below_min val (current_loss_min s0)).
      * destruct Hcase as (_ & _ & w1 & Hw1 & Hck). right.
        exists w1, (data_shape s0). split; [exact Hck | congruence].
      * destruct Hcase as (_ & _ & Hck). left. congruence.
    + subst s1. left. exact F6.
  - destruct (St _ _ Hj) as (e & p & _ & Hp & Hb).
    destruct (IH _ Hp) as ((wp & Hwp & Ap) & Cp).
    destruct (epoch_body_arch _ _ _ _ Hb Hwp) as (w' & Hw' & A' & C').
    split; [exists w'; split; [exact Hw' | congruence]|].
    destruct C' as [C'|(sh & C')].
    + rewrite C'. exact Cp.
    + right. exists w', sh. split; [exact C' | congruence].
Qed.

(** Restoring on a model that holds parameters: a missing file changes
    nothing; a file of the model's architecture replaces the parameters
    and is removed; a file of another architecture raises the error of
    [load_state_dict]. *)
Lemma restore_checkpoint_cases s w0 :
  torch_module s = Some w0 ->
  match checkpoint_pt s with
  | Some (w, shape) =>
      if Arch_eq_dec (fst w0) (fst w)
      then exists s', restore_checkpoint s = Ok s'
                      /\ torch_module s' = Some w
                      /\ checkpoint_pt s' = None
      else restore_checkpoint s = Raise RuntimeError
  | None => restore_checkpoint s = Ok s
  end.
Proof.
  intro M. unfold GraeModels.restore_checkpoint.
  destruct (checkpoint_pt s) as [[w shape]|]; [|reflexivity].
  unfold load. rewrite M. simpl. rewrite M. simpl.
  unfold load_state_dict.
  destruct (Arch_eq_dec (fst w0) (fst w)); simpl; [|reflexivity].
  eexists. split; [reflexivity|]. split; reflexivity.
Qed.

(** A checkpoint of the model's own architecture is restored. *)
Lemma restore_own_checkpoint s w0 w shape :
  torch_module s = Some w0 ->
  checkpoint_pt s = Some (w, shape) ->
  fst w = fst w0 ->
  exists s', restore_checkpoint s = Ok s'
             /\ torch_module s' = Some w
             /\ checkpoint_pt s' = None.
Proof.
  intros M C A. pose proof (restore_checkpoint_cases _ M) as R.
  rewrite C in R. destruct (Arch_eq_dec (fst w0) (fst w)); [exact R | congruence].
Qed.

Lemma AE_fit_after_loop hp s x s1 hist :
  fit_train hp s x = Ok (s1, hist) ->
  AE_fit hp s x = restore_checkpoint (last hist s1).
Proof. intro H. unfold GraeModels.AE_fit. rewrite H. reflexivity. Qed.

(** When no checkpoint file lies at the path as [fit] is called, the
    restoration at its end cannot raise: a file found there was written
    during the call, from the module of the model. *)
Lemma AE_fit_returns_after_loop hp s x s1 hist :
  fit_train hp s x = Ok (s1, hist) ->
  checkpoint_pt s = None ->
  exists s', AE_fit hp s x = Ok s'.
Proof.
  intros H Hck. rewrite (AE_fit_after_loop _ _ _ H).
  destruct (fit_train_lineage _ _ _ H) as (a & Lin).
  destruct (Lin _ _ (nth_error_last hist s1)) as ((wl & Hwl & Al) & Cl).
  destruct Cl as [Cl|(w & sh & Cl & Aw)].
  - unfold GraeModels.restore_checkpoint. rewrite Cl, Hck. eauto.
  - destruct (@restore_own_checkpoint (last hist s1) wl w sh)
      as (s' & R & _); [exact Hwl | exact Cl | congruence |]. eauto.
Qed.

(** C7, as the code has it.  When the epoch loop of [AE.fit] has ended
    (the code both classes run; [GRAEBase.fit] calls it through
    [super().fit(x)]) the model holds a module.  If no checkpoint file
    exists, [fit] returns normally with the state the last executed epoch
    left, parameters included.  If the file exists and its parameters
    have the names and sizes of that module, [fit] returns normally, the
    model holds the parameters stored in the file and the file is gone.
    If the file exists with other names or sizes, [fit] raises the
    mismatch error of [load_state_dict]. *)
Theorem checkpoint_restored hp s x s1 hist :
  fit_train hp s x = Ok (s1, hist) ->
  exists w0,
    torch_module (last hist s1) = Some w0
    /\ match checkpoint_pt (last hist s1) with
       | Some (w, shape) =>
           if Arch_eq_dec (fst w0) (fst w)
           then exists s', AE_fit hp s x = Ok s'
                           /\ torch_module s' = Some w
                           /\ checkpoint_pt s' = None
           else AE_fit hp s x = Raise RuntimeError
       | None => AE_fit hp s x = Ok (last hist s1)
       end.
Proof.
  intro H. rewrite (AE_fit_after_loop _ _ _ H).
  pose proof (fit_train_module _ _ _ H _ (nth_error_last hist s1)) as M.
  destruct (torch_module (last hist s1)) as [w0|] eqn:Ew; [|congruence].
  exists w0. split; [reflexivity|].
  apply restore_checkpoint_cases. exact Ew.
Qed.

(** *** The training state at the start of [fit] *)

(** C5, as the code has it.  The minimum validation loss and the
    early-stopping counter are initialised by the constructor (infinity
    and zero); [fit] does not assign them before its first
    [log_metrics(0)]: it starts from the values the state it is called on
    holds. *)
Theorem fit_keeps_training_state hp s x s' :
  fit_setup hp s x = Ok s' ->
  (current_loss_min (GraeModels.init Weights Opt hp) = None
   /\ early_stopping_count (GraeModels.init Weights Opt hp) = 0%Z)
  /\ current_loss_min s' = current_loss_min s
  /\ early_stopping_count s' = early_stopping_count s.
Proof.
  intro H. destruct (fit_setup_frame _ _ _ H) as (_ & _ & F1 & F2 & _).
  split; [split; reflexivity|]. split; assumption.
Qed.

(** *** Without a validation split *)

Lemma no_validation_states hp s x s1 hist :
  data_val hp = None ->
  val_loader s = None ->
  fit_train hp s x = Ok (s1, hist) ->
  forall j sj, nth_error (s1 :: hist) j = Some sj ->
               val_loader sj = None
               /\ early_stopping_count sj = early_stopping_count s
               /\ current_loss_min sj = current_loss_min s
               /\ checkpoint_pt sj = checkpoint_pt s.
Proof.
  intros Hd Hv H.
  destruct (fit_train_inv _ _ _ H) as (s0 & Hs & Hl & Hloop).
  destruct (fit_setup_frame _ _ _ Hs) as (_ & F0 & F1 & F2 & _ & _ & F3).
  rewrite Hd in F0.
  destruct (log_metrics_cases _ _ _ Hl) as (_ & _ & _ & _ & _ & G).
  rewrite F0, Hv in G. subst s1.
  destruct (epoch_loop_steps _ _ _ _ Hloop) as (_ & St & _).
  induction j as [|j IH]; intros sj Hj; simpl in Hj.
  - injection Hj as <-. repeat split; congruence.
  - destruct (St _ _ Hj) as (e & p & _ & Hp & Hb).
    destruct (IH _ Hp) as (I0 & I1 & I2 & I3).
    destruct (epoch_body_frame _ _ _ _ Hb) as (_ & _ & B0 & _).
    destruct (epoch_body_no_val _ _ _ _ Hb I0) as (B1 & B2 & B3).
    repeat split; congruence.
Qed.

(** Without a validation split the counter never moves, and unless it
    already equals [patience] the loop executes every epoch of the
    budget. *)
Lemma no_validation_full_budget hp s x s1 hist :
  data_val hp = None ->
  val_loader s = None ->
  early_stopping_count s <> patience hp ->
  fit_train hp s x = Ok (s1, hist) ->
  length hist = Z.to_nat (epochs hp)
  /\ forall j sj, nth_error (s1 :: hist) j = Some sj ->
                  early_stopping_count sj = early_stopping_count s.
Proof.
  intros Hd Hv Hc H.
  pose proof (no_validation_states _ _ _ Hd Hv H) as N.
  split; [|intros j sj Hj; apply (N _ _ Hj)].
  destruct (fit_train_inv _ _ _ H) as (s0 & Hs & Hl & Hloop).
  destruct (epoch_loop_steps _ _ _ _ Hloop) as (L & _ & _ & La).
  rewrite length_seq in L, La.
  destruct (Nat.eq_dec (length hist) (Z.to_nat (epochs hp))) as [|Hne]; [assumption|].
  destruct La as (Lc & _); [lia|].
  destruct (N _ _ (nth_error_last hist s1)) as (_ & Nc & _). congruence.
Qed.

(** C8 fails on the code when the counter equals [patience] (a new model
    with [patience = 0]).  The counter of a model without a validation
    split never moves, yet the loop tests it: the first epoch ends with
    [early_stopping_count == patience] and [break]s, so at most one epoch
    of the budget is executed. *)
Theorem no_validation_stops_at_patience hp s x s1 hist :
  data_val hp = None ->
  val_loader s = None ->
  early_stopping_count s = patience hp ->
  fit_train hp s x = Ok (s1, hist) ->
  length hist = Nat.min 1 (Z.to_nat (epochs hp)).
Proof.
  intros Hd Hv Hc H.
  pose proof (no_validation_states _ _ _ Hd Hv H) as N.
  destruct (fit_train_inv _ _ _ H) as (s0 & Hs & Hl & Hloop).
  destruct (Z.to_nat (epochs hp)) as [|n]; simpl in Hloop.
  - inv_ok Hloop. reflexivity.
  - inv_bind Hloop. rename a into c.
    destruct (early_stopping_count c =? patience hp)%Z eqn:Eb.
    + inv_ok Hloop. reflexivity.
    + inv_bind Hloop. inv_ok Hloop. apply Z.eqb_neq in Eb.
      destruct (N 1%nat c eq_refl) as (_ & Nc & _). congruence.
Qed.

(** *** Early stopping *)




(** *** Relaxation of [lam] *)



(** *** [fit] returns *)

Lemma sum_loss_total (w : Weights) (bs : list batch) :
  (forall data, same_shape data (fst (forward false w data))) ->
  forall acc, exists total, GraeModels.sum_loss forward w bs acc = Ok total.
Proof.
  intro Hshape. induction bs as [|[[data t] idx] bs IH]; intro acc; simpl.
  - eauto.
  - pose proof (Hshape data) as Hs.
    destruct (forward false w data) as [x_hat zb]. simpl in Hs.
    destruct (TorchFacts.MSELoss_mean Hs) as (l & Hl & _).
    unfold criterion. rewrite Hl. simpl. apply IH.
Qed.

(** The loss of a batch depends on the model through [lam] and the
    target embedding only; [trained_like s s'] says that [s'] has the
    target embedding of [s] and its [lam], or [lam = 0]. *)
Local Abbreviation trained_like s s' :=
  (target_embedding s' = target_embedding s
   /\ (lam s' = lam s \/ lam s' = 0%Q)).

Lemma train_batches_total hp s0 bs : forall s,
  (forall s' b w, trained_like s0 s' -> In b bs ->
                  exists l, GraeModels.batch_loss forward hp s' b w = Ok l) ->
  trained_like s0 s ->
  torch_module s <> None ->
  optimizer s <> None ->
  exists s', train_batches hp s bs = Ok s'
             /\ torch_module s' <> None /\ optimizer s' <> None.
Proof.
  induction bs as [|b bs IH]; intros s Hloss Hlike Hm Ho; simpl.
  - eauto.
  - unfold GraeModels.train_batch.
    destruct (torch_module s) as [w|] eqn:Ew; [|congruence].
    destruct (optimizer s) as [o|] eqn:Eo; [|congruence]. simpl.
    destruct (Hloss s b w Hlike (or_introl eq_refl)) as (l & Hl).
    rewrite Hl. simpl.
    destruct (backward_step (GraeModels.batch_loss forward hp s b) w o)
      as [p' o']. simpl.
    apply IH.
    + intros s' b' w' Hl' Hin. apply Hloss; [exact Hl' | right; exact Hin].
    + simpl. exact Hlike.
    + simpl. discriminate.
    + simpl. discriminate.
Qed.

Lemma log_metrics_total hp s e :
  (forall w data, same_shape data (fst (forward false w data))) ->
  torch_module s <> None ->
  (forall v, val_loader s = Some v -> len v <> 0%nat) ->
  exists s', log_metrics hp s e = Ok s' /\ optimizer s' = optimizer s.
Proof.
  intros Hshape Hm Hv.
  unfold GraeModels.log_metrics, GraeModels.log_metrics_val.
  destruct (val_loader s) as [v|] eqn:Ev; [|eauto].
  unfold GraeModels.eval_MSE.
  destruct (torch_module s) as [w|] eqn:Ew; [|congruence]. simpl.
  destruct (@sum_loss_total w (DataLoader v (batch_size hp) e) (Hshape w) 0%Q)
    as (total & Ht).
  rewrite Ht. simpl.
  assert (En : (len v =? 0)%nat = false) by (apply Nat.eqb_neq; auto).
  rewrite En. simpl.
  destruct (below_min (total / Qnat (len v)) (current_loss_min s)).
  - unfold save. simpl. rewrite Ew. simpl. eauto.
  - eauto.
Qed.

Lemma end_epoch_optimizer hp s e : optimizer (end_epoch hp s e) = optimizer s.
Proof.
  unfold end_epoch, GRAEBase_end_epoch.
  destruct (cls hp); [reflexivity|].
  destruct (relax hp && Qlt_bool 0 (lam s)
            && (early_stopping_count s =? half_patience hp)%Z)%bool;
    reflexivity.
Qed.

Lemma epoch_loop_total hp x s0 : forall todo s,
  (forall s' e b w, trained_like s0 s' ->
                    In b (DataLoader x (batch_size hp) e) ->
                    exists l, GraeModels.batch_loss forward hp s' b w = Ok l) ->
  (forall w data, same_shape data (fst (forward false w data))) ->
  trained_like s0 s ->
  torch_module s <> None ->
  optimizer s <> None ->
  (forall v, val_loader s = Some v -> len v <> 0%nat) ->
  exists hist, epoch_loop hp x todo s = Ok hist.
Proof.
  induction todo as [|e rest IH]; intros s Hloss Hshape Hlike Hm Ho Hv; simpl.
  - eauto.
  - unfold GraeModels.epoch_body.
    destruct (@train_batches_total hp s0 (DataLoader x (batch_size hp) e) s)
      as (t & Ht & Mt & Ot); try assumption.
    { intros s' b w Hl' Hin. exact (Hloss s' e b w Hl' Hin). }
    rewrite Ht. simpl.
    destruct (train_batches_frame _ _ _ Ht)
      as (_ & _ & Fv & _ & _ & Fl & Ft & _).
    destruct (@log_metrics_total hp t e Hshape Mt) as (l & Hl & Ol).
    { intros v Hlv. apply Hv. congruence. }
    fold (GraeModels.log_metrics forward DataLoader hp t e).
    rewrite Hl. simpl.
    destruct (log_metrics_cases _ _ _ Hl) as (G0 & _ & G2 & G3 & G4 & _).
    destruct (end_epoch_frame hp l e) as (H0 & _ & H2 & _ & _ & H5 & _).
    destruct (early_stopping_count (end_epoch hp l e) =? patience hp)%Z;
      [eauto|].
    destruct (IH (end_epoch hp l e) Hloss Hshape) as (hist & Hh).
    + destruct Hlike as (Lt & Ll). split; [congruence|].
      rewrite end_epoch_lam.
      assert (Ll' : lam l = lam s0 \/ lam l = 0%Q)
        by (destruct Ll; [left | right]; congruence).
      destruct (cls hp); [exact Ll'|].
      destruct (relax hp && Qlt_bool 0 (lam l)
                && (early_stopping_count l =? half_patience hp)%Z)%bool;
        [right; reflexivity | exact Ll'].
    + congruence.
    + rewrite end_epoch_optimizer. congruence.
    + intros v Hlv. apply Hv. congruence.
    + rewrite Hh. simpl. eauto.
Qed.

(** [fit] returns, with no exception, when no checkpoint file lies at the
    path, the dataset has a first sample of rank 1 or 3, the loss of
    every training batch can be computed (with the target embedding of
    the model and with its [lam] or [lam = 0]), evaluation reconstructs
    batches in the shape of its input and the validation split is not
    empty. *)
Lemma fit_never_raises hp s x shape :
  sample_shape x = Ok shape ->
  (length shape = 1 \/ length shape = 3)%nat ->
  checkpoint_pt s = None ->
  (forall s' e b w, trained_like s s' ->
                    In b (DataLoader x (batch_size hp) e) ->
                    exists l, GraeModels.batch_loss forward hp s' b w = Ok l) ->
  (forall w data, same_shape data (fst (forward false w data))) ->
  (forall v, data_val hp = Some v -> len v <> 0%nat) ->
  (forall v, val_loader s = Some v -> len v <> 0%nat) ->
  exists s', AE_fit hp s x = Ok s'.
Proof.
  intros Hx Hrank Hck Hloss Hshape Hdv Hsv.
  assert (Hsetup : exists s0, fit_setup hp s x = Ok s0).
  { unfold GraeModels.fit_setup. rewrite Hx. simpl.
    destruct (torch_module s) as [w|] eqn:Ew; simpl.
    - rewrite Ew. simpl. eauto.
    - destruct shape as [|a [|b [|c [|d shape]]]]; simpl in Hrank;
        try (exfalso; lia); simpl; eauto. }
  destruct Hsetup as (s0 & Hs0).
  destruct (fit_setup_frame _ _ _ Hs0) as (M0 & V0 & _ & _ & L0 & T0 & _).
  assert (O0 : optimizer s0 <> None).
  { unfold GraeModels.fit_setup in Hs0. inv_bind Hs0. inv_bind Hs0. inv_bind Hs0.
    inv_ok Hs0. destruct (data_val hp); simpl; discriminate. }
  assert (Hv0 : forall v, val_loader s0 = Some v -> len v <> 0%nat).
  { intros v Hv. rewrite V0 in Hv. destruct (data_val hp) as [dv|] eqn:Ed.
    - apply Hdv. exact Hv.
    - apply Hsv. exact Hv. }
  destruct (@log_metrics_total hp s0 0%nat Hshape M0 Hv0) as (s1 & Hl & O1).
  destruct (log_metrics_cases _ _ _ Hl) as (G0 & _ & G2 & G3 & G4 & _).
  destruct (@epoch_loop_total hp x s (range2 1 (Z.to_nat (epochs hp) + 1)) s1
              Hloss Hshape) as (hist & Hh).
  - split; [congruence | left; congruence].
  - congruence.
  - congruence.
  - intros v Hv. apply Hv0. congruence.
  - assert (Ht : fit_train hp s x = Ok (s1, hist)).
    { unfold GraeModels.fit_train. rewrite Hs0. simpl.
      fold (GraeModels.log_metrics forward DataLoader hp s0 0).
      rewrite Hl. simpl. rewrite Hh. reflexivity. }
    rewrite (AE_fit_after_loop _ _ _ Ht).
    destruct (fit_train_lineage _ _ _ Ht) as (a & Lin).
    destruct (Lin _ _ (nth_error_last hist s1)) as ((wl & Hwl & Al) & Cl).
    destruct Cl as [Cl|(w & sh & Cl & Aw)].
    + unfold GraeModels.restore_checkpoint. rewrite Cl, Hck. eauto.
    + destruct (@restore_own_checkpoint (last hist s1) wl w sh)
        as (s' & R & _); [exact Hwl | exact Cl | congruence |]. eauto.
Qed.

(** For the plain autoencoder the loss of a batch can be computed as soon
    as the network reconstructs batches in the shape of its input. *)
Lemma AE_batch_loss_total hp :
  cls hp = AE ->
  (forall training w data, same_shape data (fst (forward training w data))) ->
  forall s b w, exists l, GraeModels.batch_loss forward hp s b w = Ok l.
Proof.
  intros Hc Hshape s [[data t] idx] w.
  unfold GraeModels.batch_loss, compute_loss, AE_compute_loss, criterion.
  rewrite Hc. pose proof (Hshape true w data) as Hs.
  destruct (forward true w data) as [x_hat zb]. simpl in Hs.
  destruct (TorchFacts.MSELoss_mean Hs) as (l & Hl & _). eauto.
Qed.

(** For [GRAEBase] it can be computed when, besides, the indices of the
    batch select rows of the target embedding that have the shape of the
    latents. *)
Lemma GRAEBase_batch_loss_total hp s (target : tensor) b w :
  cls hp = GRAEBase ->
  target_embedding s = Some target ->
  same_shape (batch_data b) (fst (forward true w (batch_data b))) ->
  (exists rows, index_select target (snd b) = Ok rows
                /\ same_shape (snd (forward true w (batch_data b))) rows) ->
  exists l, GraeModels.batch_loss forward hp s b w = Ok l.
Proof.
  destruct b as [[data t] idx]. unfold batch_data. simpl.
  intros Hc Ht Hs (rows & Hr & Hz).
  unfold GraeModels.batch_loss, compute_loss, GRAEBase_compute_loss, criterion.
  rewrite Hc. destruct (forward true w data) as [x_hat zb]. simpl in Hs, Hz.
  destruct (TorchFacts.MSELoss_mean Hs) as (l & Hl & _).
  destruct (Qlt_bool 0 (lam s)); [|eauto].
  rewrite Hl, Ht. simpl. rewrite Hr. simpl.
  destruct (TorchFacts.MSELoss_mean Hz) as (g & Hg & _). rewrite Hg. simpl. eauto.
Qed.

(** *** The errors [fit] raises before training *)

(** [AE.fit] (also when [GRAEBase.fit] reaches it as [super().fit(x)])
    on a model without a module: a first sample whose rank is neither 1
    nor 3 is a configuration error, raised before any training. *)
Theorem fit_rejects_unsupported_rank hp s x shape :
  torch_module s = None ->
  sample_shape x = Ok shape ->
  length shape <> 1%nat -> length shape <> 3%nat ->
  AE_fit hp s x = Raise ConfigError.
Proof.
  intros Hm Hx H1 H3.
  unfold GraeModels.AE_fit, GraeModels.fit_train, GraeModels.fit_setup.
  rewrite Hx. simpl. rewrite Hm.
  destruct shape as [|a [|b [|c [|d shape]]]]; simpl in *;
    try reflexivity; exfalso; lia.
Qed.

(** [AE.fit] (also when [GRAEBase.fit] reaches it as [super().fit(x)])
    on an empty dataset raises [IndexError] (at [x[0]]), whatever the
    state of the model. *)
Theorem fit_rejects_empty_dataset hp s x :
  data x = [] -> AE_fit hp s x = Raise IndexError.
Proof.
  intro Hx.
  unfold GraeModels.AE_fit, GraeModels.fit_train, GraeModels.fit_setup,
    sample_shape, getitem.
  rewrite Hx. reflexivity.
Qed.

(** *** What stays constant during [fit] *)

Lemma restore_checkpoint_frame s s' :
  restore_checkpoint s = Ok s' ->
  lam s' = lam s
  /\ target_embedding s' = target_embedding s
  /\ current_loss_min s' = current_loss_min s
  /\ early_stopping_count s' = early_stopping_count s.
Proof.
  unfold GraeModels.restore_checkpoint.
  destruct (checkpoint_pt s) as [[w shape]|]; intro H.
  - inv_bind H. inv_ok H. unfold load in E. inv_bind E. rename a0 into t.
    inv_bind E. inv_bind E. inv_ok E.
    assert (F : lam t = lam s /\ target_embedding t = target_embedding s
                /\ current_loss_min t = current_loss_min s
                /\ early_stopping_count t = early_stopping_count s).
    { destruct (torch_module s).
      - inv_ok E0. repeat split.
      - inv_bind E0. inv_bind E0. inv_ok E0. repeat split. }
    simpl. exact F.
  - inv_ok H. repeat split.
Qed.

(** A [GRAEBase] model without relaxation ([relax = False]), in a [fit]
    call whose loop did not raise: [lam] has the value it had when [fit]
    was called at the end of every epoch, and on the model [fit] returns;
    and [fit] does return when no checkpoint file lay at the path as it
    was called. *)
Theorem lam_constant_without_relaxation hp s x s1 hist :
  cls hp = GRAEBase ->
  relax hp = false ->
  fit_train hp s x = Ok (s1, hist) ->
  (forall j sj, nth_error (s1 :: hist) j = Some sj -> lam sj = lam s)
  /\ (forall s', AE_fit hp s x = Ok s' -> lam s' = lam s)
  /\ (checkpoint_pt s = None ->
      exists s', AE_fit hp s x = Ok s' /\ lam s' = lam s).
Proof.
  intros Hc Hr H.
  destruct (fit_train_inv _ _ _ H) as (s0 & Hs & Hl & Hloop).
  destruct (fit_setup_frame _ _ _ Hs) as (_ & _ & _ & _ & F & _).
  destruct (log_metrics_cases _ _ _ Hl) as (_ & _ & _ & G & _).
  destruct (epoch_loop_steps _ _ _ _ Hloop) as (_ & St & _).
  assert (A : forall j sj, nth_error (s1 :: hist) j = Some sj -> lam sj = lam s).
  { induction j as [|j IH]; intros sj Hj; simpl in Hj.
    - injection Hj as <-. congruence.
    - destruct (St _ _ Hj) as (e & p & _ & Hp & Hb).
      rewrite (epoch_body_lam _ _ _ _ Hb), (IH _ Hp), Hc, Hr. reflexivity. }
  assert (B : forall s', AE_fit hp s x = Ok s' -> lam s' = lam s).
  { intros s' Hfit. rewrite (AE_fit_after_loop _ _ _ H) in Hfit.
    destruct (restore_checkpoint_frame _ Hfit) as (L & _).
    rewrite L. exact (A _ _ (nth_error_last hist s1)). }
  split; [exact A|]. split; [exact B|].
  intro Hck. destruct (AE_fit_returns_after_loop _ _ _ H Hck) as (s' & Hs').
  exists s'. split; [exact Hs' | exact (B _ Hs')].
Qed.

(** *** The validation loss *)

Lemma Qnat_mul (a b : nat) : (Qnat (a * b) == Qnat a * Qnat b)%Q.
Proof.
  unfold Qnat. rewrite Nat2Z.inj_mul, inject_Z_mult. reflexivity.
Qed.

Lemma Qnat_nonzero (n : nat) : n <> 0%nat -> ~ (Qnat n == 0)%Q.
Proof.
  intros Hn H. unfold Qnat, Qeq in H. simpl in H. lia.
Qed.

Lemma length_concat_width (t : tensor) (D : nat) :
  Forall (fun r : row => length r = D) t ->
  length (concat t) = (length t * D)%nat.
Proof.
  induction 1 as [|r t Hr _ IH]; simpl; [reflexivity|].
  rewrite length_app, IH, Hr. reflexivity.
Qed.

(** One batch adds its sum of squared errors divided by the width of a
    sample: weighting the batch mean by the batch size undoes the division
    by the batch size. *)
Lemma weighted_batch_mean (data x_hat : tensor) (D : nat) :
  D <> 0%nat ->
  Forall (fun r : row => length r = D) data ->
  same_shape data x_hat ->
  exists l, criterion data x_hat = Ok l
            /\ (Qnat (shape0 data) * l
                == Spec.sum_squared_error data x_hat / Qnat D)%Q.
Proof.
  intros HD Hw Hs.
  destruct (TorchFacts.MSELoss_mean Hs) as (l & Hl & Hq).
  exists l. split; [exact Hl|]. rewrite Hq.
  unfold Spec.mean_squared_error, shape0.
  rewrite (length_concat_width Hw).
  destruct data as [|r data].
  - inversion Hs; subst. unfold Spec.sum_squared_error. simpl.
    unfold Qdiv. ring.
  - rewrite Qnat_mul.
    pose proof (@Qnat_nonzero (length (r :: data)) ltac:(discriminate)) as N1.
    pose proof (Qnat_nonzero HD) as N2.
    field. split; assumption.
Qed.

Lemma sum_loss_value (w : Weights) (D : nat) (bs : list batch) :
  D <> 0%nat ->
  Forall (fun b => Forall (fun r : row => length r = D) (batch_data b)
                   /\ same_shape (batch_data b)
                                 (fst (forward false w (batch_data b)))) bs ->
  forall acc,
  exists total,
    GraeModels.sum_loss forward w bs acc = Ok total
    /\ (total
        == acc + qsum (map (fun b =>
                              Spec.sum_squared_error
                                (batch_data b)
                                (fst (forward false w (batch_data b)))) bs)
                 / Qnat D)%Q.
Proof.
  intros HD Hall. induction Hall as [|[[data t] idx] bs [Hw Hs] _ IH];
    intro acc; simpl.
  - exists acc. split; [reflexivity|]. unfold Qdiv. ring.
  - unfold batch_data in Hw, Hs. simpl in Hw, Hs.
    unfold batch_data at 1 2. simpl.
    destruct (forward false w data) as [x_hat zb] eqn:Ef. simpl in Hs.
    destruct (weighted_batch_mean HD Hw Hs) as (l & Hl & Hq).
    rewrite Hl. simpl.
    destruct (IH (acc + Qnat (shape0 data) * l)%Q) as (total & Ht & Hv).
    exists total. split; [exact Ht|]. rewrite Hv, Hq.
    pose proof (Qnat_nonzero HD) as N. field. exact N.
Qed.

(** [eval_MSE] is the mean squared error per entry over everything the
    loader yields, however the samples are cut into batches: when every
    sample has [D] entries, every batch is reconstructed in its own shape
    and the batches hold [len(dataset)] samples in all, the result is the
    total squared error divided by [len(dataset) * D]. *)
Theorem eval_MSE_is_mean_over_loader hp s v e w (D : nat) :
  torch_module s = Some w ->
  D <> 0%nat ->
  len v <> 0%nat ->
  Forall (fun b => Forall (fun r : row => length r = D) (batch_data b)
                   /\ same_shape (batch_data b)
                                 (fst (forward false w (batch_data b))))
         (DataLoader v (batch_size hp) e) ->
  exists m,
    eval_MSE hp s v e = Ok m
    /\ (m == qsum (map (fun b =>
                          Spec.sum_squared_error
                            (batch_data b)
                            (fst (forward false w (batch_data b))))
                       (DataLoader v (batch_size hp) e))
             / Qnat (len v * D))%Q.
Proof.
  intros Hw HD Hn Hall. unfold GraeModels.eval_MSE. rewrite Hw. simpl.
  destruct (@sum_loss_value w D _ HD Hall 0%Q) as (total & Ht & Hv).
  rewrite Ht. simpl.
  assert (En : (len v =? 0)%nat = false) by (apply Nat.eqb_neq; exact Hn).
  rewrite En. eexists. split; [reflexivity|].
  rewrite Hv, Qnat_mul.
  pose proof (Qnat_nonzero HD) as N1. pose proof (Qnat_nonzero Hn) as N2.
  field. split; assumption.
Qed.

(** [eval_MSE] on an empty dataset divides by zero. *)
Lemma eval_MSE_empty_dataset hp s v e w :
  torch_module s = Some w ->
  len v = 0%nat ->
  (forall data, same_shape data (fst (forward false w data))) ->
  eval_MSE hp s v e = Raise ZeroDivisionError.
Proof.
  intros Hw Hn Hshape. unfold GraeModels.eval_MSE. rewrite Hw. simpl.
  destruct (@sum_loss_total w (DataLoader v (batch_size hp) e) Hshape 0%Q)
    as (total & Ht).
  rewrite Ht. simpl. rewrite Hn. reflexivity.
Qed.

(** *** The best validation loss *)

Lemma below_min_true (val : Q) (cur : option Q) :
  below_min val cur = true ->
  forall m, cur = Some m -> (val < m)%Q.
Proof.
  intros H m ->. simpl in H. apply Qlt_bool_iff. exact H.
Qed.

Lemma below_min_false (val : Q) (cur : option Q) :
  below_min val cur = false ->
  exists m, cur = Some m /\ (m <= val)%Q.
Proof.
  destruct cur as [m|]; simpl; intro H; [|discriminate].
  exists m. split; [reflexivity|].
  apply Qnot_lt_le. intro Hlt. apply Qlt_bool_iff in Hlt. congruence.
Qed.

(** An epoch with a validation loader, in full: the loss it measures, and
    what becomes of the minimum, the counter and the checkpoint. *)
Lemma epoch_body_val_full hp x s e s' v :
  epoch_body hp x s e = Ok s' ->
  val_loader s = Some v ->
  exists w val_mse,
    torch_module s' = Some w
    /\ eval_MSE hp s' v e = Ok val_mse
    /\ if below_min val_mse (current_loss_min s)
       then early_stopping_count s' = 0%Z
            /\ current_loss_min s' = Some val_mse
            /\ checkpoint_pt s' = Some (w, data_shape s')
       else early_stopping_count s' = (early_stopping_count s + 1)%Z
            /\ current_loss_min s' = current_loss_min s
            /\ checkpoint_pt s' = checkpoint_pt s.
Proof.
  unfold GraeModels.epoch_body. intros H Hv. inv_bind H. inv_bind H. inv_ok H.
  rename a into t, a0 into l.
  destruct (train_batches_frame _ _ _ E) as (M & F1 & F2 & F3 & F4 & F5 & F6 & F7).
  destruct (log_metrics_cases _ _ _ E0) as (G0 & G1 & G2 & G3 & G4 & G5).
  rewrite F2, Hv in G5. destruct G5 as (val_mse & Ev & Hcase).
  destruct (end_epoch_frame hp l e) as (H0 & H1 & H2 & H3 & H4 & H5 & H6).
  assert (Ew : exists w, torch_module t = Some w).
  { unfold GraeModels.eval_MSE in Ev. inv_bind Ev.
    destruct (torch_module t); [eauto | discriminate]. }
  destruct Ew as (w & Ew). exists w, val_mse.
  split; [congruence|]. split.
  - rewrite (@eval_MSE_module hp t (end_epoch hp l e) v e) by congruence.
    exact Ev.
  - rewrite <- F3.
    destruct (below_min val_mse (current_loss_min t)).
    + destruct Hcase as (C1 & C2 & w' & Ew' & C3).
      split; [congruence|]. split; [congruence|].
      rewrite H6, C3, H1, G1. congruence.
    + destruct Hcase as (C1 & C2 & C3). repeat split; congruence.
Qed.

(** The first [fit] of a model with a validation split (no minimum
    recorded yet): [fit] returns the parameters of the evaluation (epoch 0
    is the one before training) whose validation loss is the smallest of
    all evaluations made, and records that loss as the minimum. *)
Theorem fit_returns_best_validation hp s x v s1 hist :
  data_val hp = Some v ->
  current_loss_min s = None ->
  fit_train hp s x = Ok (s1, hist) ->
  exists s' j sj m,
    AE_fit hp s x = Ok s'
    /\ nth_error (s1 :: hist) j = Some sj
    /\ torch_module s' = torch_module sj
    /\ eval_MSE hp sj v j = Ok m
    /\ current_loss_min s' = Some m
    /\ forall i si, nth_error (s1 :: hist) i = Some si ->
                    exists vi, eval_MSE hp si v i = Ok vi /\ (m <= vi)%Q.
Proof.
  intros Hd Hmin H.
  destruct (fit_train_inv _ _ _ H) as (s0 & Hs & Hl & Hloop).
  destruct (fit_setup_frame _ _ _ Hs) as (_ & F0 & F1 & _). rewrite Hd in F0.
  destruct (log_metrics_cases _ _ _ Hl) as (G0 & G1 & G2 & _ & _ & G5).
  rewrite F0 in G5. destruct G5 as (v0 & Ev0 & Hcase0).
  rewrite F1, Hmin in Hcase0. simpl in Hcase0.
  destruct Hcase0 as (_ & Cm0 & w0 & Ew0 & Ck0).
  assert (Hv : val_loader s1 = Some v) by congruence.
  assert (Htodo : forall i e, nth_error (seq 1 (Z.to_nat (epochs hp))) i = Some e
                              -> e = S i).
  { intros i e He. apply nth_error_seq_some in He. lia. }
  destruct (epoch_loop_steps _ _ _ _ Hloop) as (_ & St & _).
  (* the invariant, at the end of every epoch *)
  assert (Inv : forall n st,
             nth_error (s1 :: hist) n = Some st ->
             exists j sj w sh m,
               nth_error (s1 :: hist) j = Some sj
               /\ torch_module sj = Some w
               /\ checkpoint_pt st = Some (w, sh)
               /\ current_loss_min st = Some m
               /\ eval_MSE hp sj v j = Ok m
               /\ forall i si, (i <= n)%nat ->
                               nth_error (s1 :: hist) i = Some si ->
                               exists vi, eval_MSE hp si v i = Ok vi
                                          /\ (m <= vi)%Q).
  { induction n as [|n IH]; intros st Hn; simpl in Hn.
    - injection Hn as <-.
      assert (E1 : eval_MSE hp s1 v 0 = Ok v0).
      { rewrite (@eval_MSE_module hp s0 s1 v 0%nat G0). exact Ev0. }
      exists 0%nat, s1, w0, (data_shape s0), v0.
      split; [reflexivity|]. split; [congruence|].
      split; [exact Ck0|]. split; [exact Cm0|]. split; [exact E1|].
      intros i si Hi Hsi. assert (i = 0)%nat by lia. subst i.
      simpl in Hsi. injection Hsi as <-.
      exists v0. split; [exact E1 | apply Qle_refl].
    - destruct (St _ _ Hn) as (e & p & He & Hp & Hb).
      apply Htodo in He. subst e.
      destruct (IH _ Hp) as (j & sj & w & sh & m & Hj & Hwj & Hck & Hm & Hej & Hall).
      pose proof (epoch_loop_val_loader _ _ _ _ Hloop Hv _ Hp) as Hvp.
      destruct (epoch_body_val_full _ _ _ _ Hb Hvp) as (w' & val & Hw' & Hev & Hcase).
      destruct (below_min val (current_loss_min p)) eqn:Eb.
      + destruct Hcase as (_ & Cm & Ck).
        pose proof (@below_min_true _ _ Eb _ Hm) as Hlt.
        exists (S n), st, w', (data_shape st), val.
        split; [exact Hn|]. split; [exact Hw'|]. split; [exact Ck|].
        split; [exact Cm|]. split; [exact Hev|].
        intros i si Hi Hsi.
        destruct (Nat.eq_dec i (S n)) as [->|Hne].
        * assert (si = st) by (simpl in Hsi; congruence). subst si.
          exists val. split; [exact Hev | apply Qle_refl].
        * destruct (Hall i si) as (vi & Hvi & Hle); [lia | exact Hsi |].
          exists vi. split; [exact Hvi|].
          apply Qlt_le_weak. eapply Qlt_le_trans; eassumption.
      + destruct Hcase as (_ & Cm & Ck).
        destruct (@below_min_false _ _ Eb) as (m' & Hm' & Hle).
        assert (m' = m) by congruence. subst m'.
        exists j, sj, w, sh, m.
        split; [exact Hj|]. split; [exact Hwj|]. split; [congruence|].
        split; [congruence|]. split; [exact Hej|].
        intros i si Hi Hsi.
        destruct (Nat.eq_dec i (S n)) as [->|Hne].
        * assert (si = st) by (simpl in Hsi; congruence). subst si.
          exists val. split; [exact Hev | exact Hle].
        * apply Hall; [lia | exact Hsi]. }
  destruct (Inv _ _ (nth_error_last hist s1))
    as (j & sj & w & sh & m & Hj & Hwj & Hck & Hm & Hej & Hall).
  destruct (fit_train_lineage _ _ _ H) as (a & Lin).
  destruct (Lin _ _ Hj) as ((wj & Hwj' & Aj) & _).
  destruct (Lin _ _ (nth_error_last hist s1)) as ((wl & Hwl & Al) & _).
  assert (wj = w) by congruence. subst wj.
  destruct (@restore_own_checkpoint (last hist s1) wl w sh)
    as (s' & R1 & R2 & R3); [exact Hwl | exact Hck | congruence |].
  exists s', j, sj, m. rewrite (AE_fit_after_loop _ _ _ H).
  split; [exact R1|]. split; [exact Hj|]. split; [congruence|].
  split; [exact Hej|]. split.
  - destruct (restore_checkpoint_frame _ R1) as (_ & _ & Cm & _). congruence.
  - intros i si Hsi. apply (Hall i si); [|exact Hsi].
    assert (i < length (s1 :: hist))%nat by (apply nth_error_Some; congruence).
    simpl in *. lia.
Qed.

(** *** The counter *)

(** From a counter that is not negative, no epoch makes it negative: an
    epoch resets it to zero, adds one, or leaves it. *)
Lemma epoch_body_count hp x s e s' :
  epoch_body hp x s e = Ok s' ->
  early_stopping_count s' = 0%Z
  \/ early_stopping_count s' = (early_stopping_count s + 1)%Z
  \/ early_stopping_count s' = early_stopping_count s.
Proof.
  intro H. destruct (val_loader s) as [v|] eqn:Ev.
  - destruct (epoch_body_val _ _ _ _ H Ev) as (w & _ & Hcase).
    destruct (improves hp v s s' e); intuition.
  - destruct (epoch_body_no_val _ _ _ _ H Ev) as (C & _). auto.
Qed.

(** The first [fit] of a new model (counter 0, no minimum recorded) with
    [patience >= 1]: the counter stays between 0 and [patience] at the end
    of every epoch, so the equality test of the loop cannot be stepped
    over, and the loop ends before its budget exactly when the counter has
    reached [patience]. *)
Theorem counter_within_patience hp s x s1 hist :
  early_stopping_count s = 0%Z ->
  current_loss_min s = None ->
  (1 <= patience hp)%Z ->
  fit_train hp s x = Ok (s1, hist) ->
  (forall j sj, nth_error (s1 :: hist) j = Some sj ->
                (0 <= early_stopping_count sj <= patience hp)%Z)
  /\ ((length hist < Z.to_nat (epochs hp))%nat ->
      early_stopping_count (last hist s1) = patience hp).
Proof.
  intros Hc Hmin Hpat H.
  destruct (fit_train_inv _ _ _ H) as (s0 & Hs & Hl & Hloop).
  destruct (fit_setup_frame _ _ _ Hs) as (_ & _ & F1 & F2 & _).
  destruct (log_metrics_cases _ _ _ Hl) as (_ & _ & _ & _ & _ & G5).
  assert (C1 : early_stopping_count s1 = 0%Z).
  { destruct (val_loader s0) as [v|].
    - destruct G5 as (v0 & _ & Hcase). rewrite F1, Hmin in Hcase.
      simpl in Hcase. tauto.
    - subst s1. congruence. }
  destruct (epoch_loop_steps _ _ _ _ Hloop) as (_ & St & Nl & La).
  rewrite length_seq in La.
  split; [|intro Hlt; apply La; exact Hlt].
  induction j as [|j IH]; intros sj Hj; simpl in Hj.
  - injection Hj as <-. lia.
  - destruct (St _ _ Hj) as (e & p & _ & Hp & Hb).
    pose proof (IH _ Hp) as Ip.
    assert (Hpn : early_stopping_count p <> patience hp).
    { destruct j as [|j]; simpl in Hp.
      - injection Hp as <-. lia.
      - apply (Nl _ _ Hp).
        assert (S j < length hist)%nat by (apply nth_error_Some; congruence).
        lia. }
    destruct (epoch_body_count _ _ _ _ Hb) as [C|[C|C]]; lia.
Qed.

(** With a validation split and [patience = 0] the test
    [early_stopping_count == patience] holds exactly after an epoch that
    improved: every executed epoch but the last failed to improve, and a
    loop that ended before its budget ended on an epoch that improved. *)
Theorem zero_patience_stops_on_improvement hp s x v s1 hist :
  data_val hp = Some v ->
  patience hp = 0%Z ->
  (0 <= early_stopping_count s)%Z ->
  fit_train hp s x = Ok (s1, hist) ->
  (forall i p c,
      nth_error (s1 :: hist) i = Some p ->
      nth_error hist i = Some c ->
      (S i < length hist)%nat ->
      improves hp v p c (S i) = false)
  /\ ((length hist < Z.to_nat (epochs hp))%nat ->
      exists p c,
        nth_error (s1 :: hist) (length hist - 1) = Some p
        /\ nth_error hist (length hist - 1) = Some c
        /\ improves hp v p c (length hist) = true).
Proof.
  intros Hd Hpat Hc H.
  destruct (fit_train_inv _ _ _ H) as (s0 & Hs & Hl & Hloop).
  destruct (fit_setup_frame _ _ _ Hs) as (_ & F0 & _ & F2 & _). rewrite Hd in F0.
  destruct (log_metrics_cases _ _ _ Hl) as (_ & _ & G2 & _ & _ & G5).
  rewrite F0 in G5. destruct G5 as (v0 & _ & Hcase0).
  assert (Hv : val_loader s1 = Some v) by congruence.
  assert (C1 : (0 <= early_stopping_count s1)%Z).
  { destruct (below_min v0 (current_loss_min s0)); destruct Hcase0 as (C & _); lia. }
  assert (Htodo : forall i e, nth_error (seq 1 (Z.to_nat (epochs hp))) i = Some e
                              -> e = S i).
  { intros i e He. apply nth_error_seq_some in He. lia. }
  destruct (epoch_loop_steps _ _ _ _ Hloop) as (_ & St & Nl & La).
  rewrite length_seq in La.
  assert (Pos : forall j sj, nth_error (s1 :: hist) j = Some sj ->
                             (0 <= early_stopping_count sj)%Z).
  { induction j as [|j IH]; intros sj Hj; simpl in Hj.
    - injection Hj as <-. exact C1.
    - destruct (St _ _ Hj) as (e & p & _ & Hp & Hb).
      pose proof (IH _ Hp).
      destruct (epoch_body_count _ _ _ _ Hb) as [C|[C|C]]; lia. }
  split.
  - intros i p c Hp Hci Hlast.
    destruct (St _ _ Hci) as (e & p' & He & Hp' & Hb).
    apply Htodo in He. subst e. assert (p' = p) by congruence. subst p'.
    pose proof (epoch_loop_val_loader _ _ _ _ Hloop Hv _ Hp) as Hvp.
    destruct (epoch_body_val _ _ _ _ Hb Hvp) as (w & _ & Hcase).
    destruct (improves hp v p c (S i)); [|reflexivity].
    exfalso. apply (Nl _ _ Hci Hlast). destruct Hcase. congruence.
  - intro Hlt. destruct (La Hlt) as (Lc & Hne).
    destruct hist as [|c0 rest] eqn:Eh; [congruence|]. rewrite <- Eh in *.
    assert (Hlen : (length hist = S (length rest))%nat) by (rewrite Eh; reflexivity).
    destruct (nth_error hist (length hist - 1)) as [c|] eqn:Ec.
    2:{ apply nth_error_None in Ec. lia. }
    assert (Hcl : c = last hist s1).
    { pose proof (nth_error_last hist s1) as Hl'.
      replace (length hist) with (S (length hist - 1)) in Hl' at 1 by lia.
      simpl in Hl'. congruence. }
    destruct (St _ _ Ec) as (e & p & He & Hp & Hb).
    apply Htodo in He. subst e.
    exists p, c. split; [exact Hp|]. split; [reflexivity|].
    replace (length hist) with (S (length hist - 1)) at 1 by lia.
    pose proof (epoch_loop_val_loader _ _ _ _ Hloop Hv _ Hp) as Hvp.
    destruct (epoch_body_val _ _ _ _ Hb Hvp) as (w & _ & Hcase).
    destruct (improves hp v p c (S (length hist - 1))); [reflexivity|].
    exfalso. destruct Hcase as (C & _). pose proof (Pos _ _ Hp).
    rewrite <- Hcl in Lc. lia.
Qed.

(** *** [GRAEBase.fit] *)

Variable embedder_fit_transform : dataset -> tensor.
Variable zscore : tensor -> tensor.

Local Abbreviation GRAEBase_fit_ :=
  (GraeModels.GRAEBase_fit Arch_eq_dec AutoencoderModule ConvAutoencoderModule Adam
                           forward backward_step DataLoader
                           embedder_fit_transform zscore).

(** [GRAEBase.fit] stores the normalised embedding of the dataset it is
    called on, and neither training nor the restoration of the checkpoint
    touches it. *)
Theorem target_embedding_after_fit hp s x s' :
  GRAEBase_fit_ hp s x = Ok s' ->
  target_embedding s' = Some (zscore (embedder_fit_transform x)).
Proof.
  unfold GraeModels.GRAEBase_fit, GraeModels.AE_fit. intro H.
  inv_bind H. destruct a as [s1 hist].
  destruct (fit_train_inv _ _ _ E) as (s0 & Hs & Hl & Hloop).
  destruct (fit_setup_frame _ _ _ Hs) as (_ & _ & _ & _ & _ & F & _).
  destruct (log_metrics_cases _ _ _ Hl) as (_ & _ & _ & _ & G & _).
  destruct (epoch_loop_steps _ _ _ _ Hloop) as (_ & St & _).
  assert (A : forall j sj, nth_error (s1 :: hist) j = Some sj ->
                           target_embedding sj = target_embedding s1).
  { induction j as [|j IH]; intros sj Hj; simpl in Hj.
    - injection Hj as <-. reflexivity.
    - destruct (St _ _ Hj) as (e & p & _ & Hp & Hb).
      destruct (epoch_body_frame _ _ _ _ Hb) as (_ & _ & _ & T).
      rewrite T. exact (IH _ Hp). }
  destruct (restore_checkpoint_frame _ H) as (_ & T & _).
  rewrite T, (A _ _ (nth_error_last hist s1)), G, F. reflexivity.
Qed.

End WithTorch.

End FitFacts.

(* ------------------------------------------------------------------ *)
(** ** [models.GRAE.fit]: subsampling and the two training phases *)

Module ModelsFacts.

Import Torch BaseDataset.
Import Models.

Lemma collate_length (items : list (row * Q * Z)) :
  length (fst (fst (collate items))) = length items.
Proof.
  induction items as [|[[d t] i] rest IH]; simpl; [reflexivity|].
  destruct (collate rest) as [[ds ts] js]. simpl in *. congruence.
Qed.

Lemma fetch_length (X : dataset) (positions : list Z) (b : batch) :
  fetch X positions = Ok b -> length (fst (fst b)) = length positions.
Proof.
  unfold fetch. intro H. inv_bind H. inv_ok H.
  rewrite collate_length. eapply mapM_length. eassumption.
Qed.

Lemma fetch_total (X : dataset) (positions : list Z) :
  length (targets X) = length (data X) ->
  Forall (fun i => (0 <= i < Z.of_nat (len X))%Z) positions ->
  exists b, fetch X positions = Ok b.
Proof.
  intros Hlen Hpos. unfold fetch.
  destruct (@mapM_total _ _ (getitem X) positions) as (items & Hitems).
  - eapply Forall_impl; [|exact Hpos]. intros i Hi. unfold len in Hi.
    destruct (getitem_in_range (data X) Hi) as (d & Hd & _).
    assert (Hi' : (0 <= i < Z.of_nat (length (targets X)))%Z)
      by (rewrite Hlen; exact Hi).
    destruct (getitem_in_range (targets X) Hi') as (t & Ht & _).
    unfold getitem. rewrite Hd, Ht. simpl. eauto.
  - rewrite Hitems. simpl. eauto.
Qed.

Section WithTorch.

Variables Weights Opt : Type.
Variable AutoencoderModule : nat -> Weights.
Variable ConvAutoencoderModule : nat -> nat -> nat -> Weights.
Variable Adam : Weights -> Opt.
Variable forward : Weights -> tensor -> tensor * tensor.
Variable backward_step : (Weights -> result Q) -> Weights -> Opt -> Weights * Opt.
Variable DataLoader : Dataset -> nat -> Z -> list batch.
Variable embedder_fit_transform : Dataset -> tensor.
Variable zscore : tensor -> tensor.
Variable sqrtQ : Q -> Q.
Variable choice : nat -> nat -> list Z.

Local Abbreviation model := (Models.model Weights Opt).
Local Abbreviation train_batch := (Models.train_batch forward backward_step sqrtQ).
Local Abbreviation train_batches := (Models.train_batches forward backward_step sqrtQ).
Local Abbreviation epoch_loop :=
  (Models.epoch_loop forward backward_step DataLoader sqrtQ).
Local Abbreviation AE_fit :=
  (Models.AE_fit AutoencoderModule ConvAutoencoderModule Adam
                 forward backward_step DataLoader sqrtQ).
Local Abbreviation subset := (Models.subset choice).
Local Abbreviation GRAE_fit :=
  (Models.GRAE_fit AutoencoderModule ConvAutoencoderModule Adam
                   forward backward_step DataLoader
                   embedder_fit_transform zscore sqrtQ choice).

Implicit Types (m : model) (X : dataset) (D : Dataset).

Lemma same_config_refl m : same_config m m.
Proof. unfold same_config. repeat split. Qed.

Lemma same_config_trans m1 m2 m3 :
  same_config m1 m2 -> same_config m2 m3 -> same_config m1 m3.
Proof. unfold same_config. intuition congruence. Qed.

Lemma train_batch_config m b m' : train_batch m b = Ok m' -> same_config m m'.
Proof.
  unfold Models.train_batch. intro H. inv_bind H. inv_bind H. inv_bind H.
  destruct (backward_step _ a a0) as [w' o']. inv_ok H.
  unfold same_config. simpl. repeat split.
Qed.

Lemma train_batches_config bs : forall m m',
  train_batches m bs = Ok m' -> same_config m m'.
Proof.
  induction bs as [|b bs IH]; simpl; intros m m' H.
  - inv_ok H. apply same_config_refl.
  - inv_bind H. eapply same_config_trans.
    + eapply train_batch_config. eassumption.
    + eapply IH. eassumption.
Qed.

Lemma end_epoch_GRAE m e : cls m = GRAE -> end_epoch m e = m.
Proof. unfold end_epoch. intros ->. reflexivity. Qed.

(** For a [GRAE] model every epoch of a loop trains with the [lam] the
    loop was entered with. *)
Lemma epoch_loop_GRAE D off : forall todo m m' runs,
  cls m = GRAE ->
  epoch_loop m D off todo = Ok (m', runs) ->
  same_config m m'
  /\ runs = map (fun e => {| run_epoch := (e + off)%Z; run_data := D;
                             run_lam := lam m |}) todo.
Proof.
  induction todo as [|e rest IH]; simpl; intros m m' runs Hc H.
  - inv_ok H. split; [apply same_config_refl | reflexivity].
  - inv_bind H. rename a into mt. inv_bind H. destruct a as [m3 rs]. inv_ok H.
    pose proof (train_batches_config _ _ E) as C.
    assert (Hct : cls mt = GRAE) by (destruct C as (C0 & _); congruence).
    rewrite end_epoch_GRAE in E0 by exact Hct.
    destruct (IH _ _ _ Hct E0) as (C' & Hr).
    split; [eapply same_config_trans; eassumption|].
    rewrite Hr. destruct C as (_ & _ & Cl & _). rewrite Cl. reflexivity.
Qed.

Lemma AE_fit_GRAE m D n off m' runs :
  cls m = GRAE ->
  AE_fit m D (Some n) off = Ok (m', runs) ->
  same_config m m'
  /\ runs = map (fun e => {| run_epoch := (e + off)%Z; run_data := D;
                             run_lam := lam m |}) (range n).
Proof.
  unfold Models.AE_fit. intros Hc H. inv_bind H. rename a into m1.
  inv_bind H. rename a into w.
  assert (C1 : same_config m m1).
  { destruct (torch_module m).
    - inv_ok E. apply same_config_refl.
    - inv_bind E. destruct a as [|? [|? [|? [|]]]]; try discriminate;
        inv_ok E; unfold same_config; simpl; repeat split. }
  assert (C2 : same_config m1 (set_optimizer m1 (Adam w))).
  { unfold same_config. simpl. repeat split. }
  pose proof (same_config_trans C1 C2) as C.
  destruct (@epoch_loop_GRAE D off (range n) (set_optimizer m1 (Adam w)) m' runs)
    as (C' & Hr);
    [destruct C as (C0 & _); congruence | exact H |].
  split; [eapply same_config_trans; eassumption|].
  rewrite Hr. destruct C as (_ & _ & Cl & _). rewrite Cl. reflexivity.
Qed.

(** With [lam] equal to zero [GRAE.apply_loss] is the reconstruction loss
    alone. *)
Lemma GRAE_lam_zero_reconstruction_only m (x x_hat zb : tensor) (idx : list Z) :
  cls m = GRAE -> (lam m == 0)%Q ->
  apply_loss sqrtQ m x x_hat zb idx = AE_apply_loss x x_hat zb idx.
Proof.
  intros Hc H0. unfold apply_loss, GRAE_apply_loss. rewrite Hc.
  rewrite (Qlt_bool_zero_eq H0). reflexivity.
Qed.

(** *** [GRAE.fit] on a subsample *)








(** *** [SGRAE]: the soft schedule of [lam] *)

Variable potential_distances : dataset -> tensor.

Local Abbreviation SGRAE_fit :=
  (Models.SGRAE_fit AutoencoderModule ConvAutoencoderModule Adam
                    forward backward_step DataLoader potential_distances sqrtQ).

(** [dropped m a e]: in a loop entered at epoch [a] with model [m], the
    end of an epoch before [e] has set [lam] to zero. *)
Local Abbreviation dropped m a e :=
  (match drop_lam m with
   | Some d => ((Z.of_nat a <=? d - 1)%Z && (d - 1 <? e)%Z)%bool
   | None => false
   end).

Lemma end_epoch_SGRAE m (e : Z) :
  cls m = SGRAE ->
  cls (end_epoch m e) = SGRAE
  /\ epochs (end_epoch m e) = epochs m
  /\ drop_lam (end_epoch m e) = drop_lam m
  /\ lam (end_epoch m e)
     = match drop_lam m with
       | Some d => if (e =? d - 1)%Z then 0%Q else lam m
       | None => lam m
       end.
Proof.
  intro Hc. unfold end_epoch. rewrite Hc.
  destruct (drop_lam m) as [d|] eqn:Ed; [|rewrite Ed; auto].
  destruct (e =? d - 1)%Z; simpl; rewrite ?Ed; auto.
Qed.

Lemma epoch_loop_SGRAE X off : forall k a m m' runs,
  cls m = SGRAE ->
  epoch_loop m X off (map Z.of_nat (seq a k)) = Ok (m', runs) ->
  runs = map (fun e => {| run_epoch := (e + off)%Z; run_data := X;
                          run_lam := if dropped m a e then 0%Q else lam m |})
             (map Z.of_nat (seq a k))
  /\ lam m' = (if dropped m a (Z.of_nat (a + k)) then 0%Q else lam m).
Proof.
  induction k as [|k IH]; simpl; intros a m m' runs Hc H.
  - injection H as Hm Hr. subst m' runs. split; [reflexivity|].
    destruct (drop_lam m) as [d|]; [|reflexivity].
    replace ((Z.of_nat a <=? d - 1)%Z && (d - 1 <? Z.of_nat (a + 0))%Z)%bool
      with false; [reflexivity|].
    symmetry. apply andb_false_iff.
    destruct (Z.leb_spec (Z.of_nat a) (d - 1)); [right | left; reflexivity].
    apply Z.ltb_ge. lia.
  - inv_bind H. rename a0 into mt. inv_bind H. destruct a0 as [m3 rs].
    injection H as Hm Hr. subst m3.
    destruct (train_batches_config _ _ E) as (C0 & C1 & C2 & C3 & _).
    assert (Hct : cls mt = SGRAE) by congruence.
    destruct (@end_epoch_SGRAE mt (Z.of_nat a) Hct) as (D0 & D1 & D2 & D3).
    destruct (IH (S a) _ _ _ D0 E0) as (Hrs & Hl).
    rewrite C3 in D2, D3. rewrite C2 in D3.
    assert (Hdrop : forall e, (Z.of_nat a < e)%Z ->
               (if dropped (end_epoch mt (Z.of_nat a)) (S a) e
                then 0%Q else lam (end_epoch mt (Z.of_nat a)))
               = (if dropped m a e then 0%Q else lam m)).
    { intros e He. rewrite D2, D3.
      destruct (drop_lam m) as [d|]; [|reflexivity].
      destruct (Z.eqb_spec (Z.of_nat a) (d - 1)) as [Heq|Hne].
      - replace ((Z.of_nat a <=? d - 1)%Z && (d - 1 <? e)%Z)%bool with true.
        + destruct (_ && _)%bool; reflexivity.
        + symmetry. apply andb_true_iff. split; [apply Z.leb_le | apply Z.ltb_lt]; lia.
      - replace (Z.of_nat (S a) <=? d - 1)%Z with (Z.of_nat a <=? d - 1)%Z;
          [reflexivity|].
        destruct (Z.leb_spec (Z.of_nat a) (d - 1)); symmetry;
          [apply Z.leb_le | apply Z.leb_gt]; lia. }
    split.
    + rewrite <- Hr. f_equal.
      * f_equal. destruct (drop_lam m) as [d|]; [|reflexivity].
        replace ((Z.of_nat a <=? d - 1)%Z && (d - 1 <? Z.of_nat a)%Z)%bool
          with false; [reflexivity|].
        symmetry. apply andb_false_iff.
        destruct (Z.leb_spec (Z.of_nat a) (d - 1)); [right | left; reflexivity].
        apply Z.ltb_ge. lia.
      * rewrite Hrs. apply map_ext_in. intros e He.
        apply in_map_iff in He. destruct He as (n & <- & Hn).
        apply in_seq in Hn. rewrite Hdrop by lia. reflexivity.
    + rewrite Hl. replace (S a + k)%nat with (a + S k)%nat by lia.
      apply Hdrop. lia.
Qed.

(** [SGRAE.fit]: every epoch [0 .. epochs - 1] runs on the whole dataset;
    with [drop_lam = d] and [1 <= d] the epochs numbered below [d] train
    with the configured [lam] and the later ones with [lam = 0]; with
    [drop_lam] [None] or [d <= 0] (the test [epoch == drop_lam - 1] never
    holds) every epoch trains with [lam].  The model keeps the [lam] of
    its last update: [0] once epoch [d - 1] has run. *)
Theorem SGRAE_soft_schedule m X m' runs :
  cls m = SGRAE ->
  SGRAE_fit m X = Ok (m', runs) ->
  let off_at (e : Z) :=
    match drop_lam m with
    | Some d => ((1 <=? d)%Z && (d <=? e)%Z)%bool
    | None => false
    end in
  runs = map (fun e => {| run_epoch := (e + 0)%Z; run_data := X;
                          run_lam := if off_at e then 0%Q else lam m |})
             (range (epochs m))
  /\ lam m' = (if off_at (Z.max 0 (epochs m)) then 0%Q else lam m).
Proof.
  intros Hc H off_at. unfold Models.SGRAE_fit, Models.AE_fit in H.
  inv_bind H. rename a into m1. inv_bind H. rename a into w.
  set (m0 := set_d_mx m (potential_distances X)) in *.
  assert (C1 : cls m1 = SGRAE /\ epochs m1 = epochs m /\ lam m1 = lam m
               /\ drop_lam m1 = drop_lam m).
  { destruct (torch_module m0).
    - inv_ok E. auto.
    - inv_bind E. destruct a as [|? [|? [|? [|]]]]; try discriminate;
        inv_ok E; simpl; auto. }
  destruct C1 as (K0 & K1 & K2 & K3).
  unfold range in H. simpl epochs in H.
  destruct (@epoch_loop_SGRAE X 0%Z (Z.to_nat (epochs m)) 0%nat
              (set_optimizer m1 (Adam w)) m' runs K0 H) as (Hr & Hl).
  assert (Hoff : forall e, (0 <= e)%Z ->
             dropped (set_optimizer m1 (Adam w)) 0 e = off_at e).
  { intros e He. unfold off_at. simpl. rewrite K3.
    destruct (drop_lam m) as [d|]; [|reflexivity].
    f_equal.
    - destruct (Z.leb_spec 1 d); [apply Z.leb_le | apply Z.leb_gt]; lia.
    - destruct (Z.leb_spec d e); [apply Z.ltb_lt | apply Z.ltb_ge]; lia. }
  split.
  - rewrite Hr. unfold range. apply map_ext_in. intros e He.
    apply in_map_iff in He. destruct He as (n & <- & _).
    rewrite Hoff by lia. simpl. rewrite K2. reflexivity.
  - rewrite Hl, Hoff by lia. simpl lam. rewrite K2.
    replace (Z.of_nat (0 + Z.to_nat (epochs m))) with (Z.max 0 (epochs m)) by lia.
    reflexivity.
Qed.

(** *** [GRAE]: the two phases of [fit] *)

Lemma range_In (n e : Z) : In e (range n) <-> (0 <= e < n)%Z.
Proof.
  unfold range. rewrite in_map_iff. split.
  - intros (k & <- & Hk). apply in_seq in Hk. lia.
  - intro He. exists (Z.to_nat e). split; [lia|]. apply in_seq. lia.
Qed.

Lemma map_seq_offset (a : nat) : forall (b s : nat),
  map Z.of_nat (seq (s + a) b)
  = map (fun e => (e + Z.of_nat a)%Z) (map Z.of_nat (seq s b)).
Proof.
  induction b as [|b IH]; intro s; simpl; [reflexivity|].
  f_equal; [lia|]. apply (IH (S s)).
Qed.

Lemma range_split (d n : Z) :
  (0 <= d <= n)%Z ->
  range n = range d ++ map (fun e => (e + d)%Z) (range (n - d)).
Proof.
  intro H. unfold range.
  replace (Z.to_nat n) with (Z.to_nat d + Z.to_nat (n - d))%nat by lia.
  rewrite seq_app, map_app. f_equal.
  rewrite (map_seq_offset (Z.to_nat d) (Z.to_nat (n - d)) 0).
  apply map_ext. intro e. lia.
Qed.

(** [fit] of a [GRAE] model whose epoch count [d] of the first phase
    ([self.drop_lam], which [__init__] computed) is between 0 and
    [epochs]: exactly [epochs] epochs run, numbered [0 .. epochs - 1] in
    order; those numbered below [d] train with the configured [lam], the
    others with [lam = 0]. *)
Theorem GRAE_fit_runs_every_epoch_once m X (d : Z) m' runs :
  cls m = GRAE ->
  drop_lam m = Some d ->
  (0 <= d <= epochs m)%Z ->
  GRAE_fit m X = Ok (m', runs) ->
  map run_epoch runs = range (epochs m)
  /\ Forall (fun r => run_lam r = if (run_epoch r <? d)%Z then lam m else 0%Q)
            runs.
Proof.
  intros Hc Hd Hr H.
  unfold Models.GRAE_fit in H.
  set (grae_data := match max_grae m with
                    | Some cap =>
                        if (Z.of_nat (len X) >? cap)%Z then subset X cap
                        else Whole X
                    | None => Whole X
                    end) in H.
  simpl in H. rewrite Hd in H. simpl in H.
  apply bind_Ok in H as ([m2 runs1] & E1 & H).
  destruct (@AE_fit_GRAE (set_z m (zscore (embedder_fit_transform grae_data)))
                          grae_data d 0%Z m2 runs1) as (C1 & R1);
    [exact Hc | exact E1 |].
  destruct C1 as (C1c & C1e & C1l & _). simpl in C1c, C1e, C1l, R1.
  assert (P1 : map run_epoch runs1 = range d
               /\ Forall (fun r => run_lam r
                                   = if (run_epoch r <? d)%Z then lam m else 0%Q)
                         runs1).
  { rewrite R1. split.
    - rewrite map_map. simpl. rewrite <- (map_id (range d)) at 2.
      apply map_ext. intro e. lia.
    - apply Forall_forall. intros r Hin. apply in_map_iff in Hin.
      destruct Hin as (e & <- & He). apply range_In in He. simpl.
      replace (e + 0 <? d)%Z with true; [reflexivity|].
      symmetry. apply Z.ltb_lt. lia. }
  destruct P1 as (P1 & P1').
  rewrite C1e in H.
  destruct (d <? epochs m)%Z eqn:Ed.
  - apply bind_Ok in H as ([m4 runs2] & E2 & H).
    injection H as Hm Hruns. subst m4.
    eapply AE_fit_GRAE in E2 as (_ & R2); [|simpl; congruence].
    simpl in R2. rewrite <- Hruns. split.
    + rewrite map_app, P1, R2, map_map. simpl.
      symmetry. apply range_split. exact Hr.
    + apply Forall_app. split; [exact P1'|].
      rewrite R2. apply Forall_forall. intros r Hin. apply in_map_iff in Hin.
      destruct Hin as (e & <- & He). apply range_In in He. simpl.
      replace (e + d <? d)%Z with false; [reflexivity|].
      symmetry. apply Z.ltb_ge. lia.
  - injection H as Hm Hruns. subst m2. rewrite <- Hruns.
    apply Z.ltb_ge in Ed. assert (d = epochs m) by lia.
    split; [congruence | exact P1'].
Qed.

(** [fit] of a [GRAE] model with [drop_lam < epochs] leaves [lam = 0] on
    the model: a later [fit] of the same model trains every epoch, the
    first [drop_lam] included, without the geometric term. *)
Theorem GRAE_refit_has_no_geometric_term m X (d : Z) m' runs :
  cls m = GRAE ->
  drop_lam m = Some d ->
  (d < epochs m)%Z ->
  GRAE_fit m X = Ok (m', runs) ->
  lam m' = 0%Q
  /\ forall X' m'' runs',
       GRAE_fit m' X' = Ok (m'', runs') ->
       Forall (fun r => run_lam r = 0%Q) runs'.
Proof.
  intros Hc Hd Hlt H.
  unfold Models.GRAE_fit in H.
  set (grae_data := match max_grae m with
                    | Some cap =>
                        if (Z.of_nat (len X) >? cap)%Z then subset X cap
                        else Whole X
                    | None => Whole X
                    end) in H.
  simpl in H. rewrite Hd in H. simpl in H.
  apply bind_Ok in H as ([m2 runs1] & E0 & H).
  destruct (@AE_fit_GRAE (set_z m (zscore (embedder_fit_transform grae_data)))
                          grae_data d 0%Z m2 runs1) as (C1 & _);
    [exact Hc | exact E0 |].
  destruct C1 as (C1c & C1e & C1l & C1d & _). simpl in C1c, C1e, C1l, C1d.
  rewrite C1e in H. apply Z.ltb_lt in Hlt. rewrite Hlt in H.
  apply bind_Ok in H as ([m4 runs2] & E1 & H).
  injection H as Hm Hr. subst m4.
  eapply AE_fit_GRAE in E1 as (C2 & _); [|simpl; congruence].
  destruct C2 as (C2c & C2e & C2l & C2d & _). simpl in C2c, C2e, C2l, C2d.
  split; [exact C2l|].
  intros X' m'' runs' H'.
  unfold Models.GRAE_fit in H'.
  set (gd := match max_grae m' with
             | Some cap =>
                 if (Z.of_nat (len X') >? cap)%Z then subset X' cap
                 else Whole X'
             | None => Whole X'
             end) in H'.
  simpl in H'.
  assert (Hd' : drop_lam m' = Some d) by congruence.
  rewrite Hd' in H'. simpl in H'.
  apply bind_Ok in H' as ([n2 r1] & F1 & H').
  destruct (@AE_fit_GRAE (set_z m' (zscore (embedder_fit_transform gd)))
                          gd d 0%Z n2 r1) as (D1 & S1);
    [simpl; congruence | exact F1 |].
  simpl in S1. rewrite C2l in S1.
  assert (Z1 : Forall (fun r => run_lam r = 0%Q) r1).
  { rewrite S1. apply Forall_forall. intros r Hin. apply in_map_iff in Hin.
    destruct Hin as (e & <- & _). reflexivity. }
  destruct (d <? epochs n2)%Z.
  - apply bind_Ok in H' as ([n4 r2] & F2 & H'). injection H' as Hm' Hr'. subst n4.
    eapply AE_fit_GRAE in F2 as (_ & S2);
      [|destruct D1 as (D1c & _); simpl in *; congruence].
    rewrite <- Hr'. apply Forall_app. split; [exact Z1|].
    rewrite S2. apply Forall_forall. intros r Hin. apply in_map_iff in Hin.
    destruct Hin as (e & <- & _). reflexivity.
  - injection H' as Hm' Hr'. rewrite <- Hr'. exact Z1.
Qed.

End WithTorch.

End ModelsFacts.

(* ------------------------------------------------------------------ *)
(** ** The theorems on concrete runs *)

Module Runs.

Import Torch BaseDataset Toy.
Import GraeModels.

Local Abbreviation AE_fit :=
  (GraeModels.AE_fit Arch_eq_dec AutoencoderModule ConvAutoencoderModule Adam
                     forward backward_step DataLoader).

Local Abbreviation fit_train :=
  (GraeModels.fit_train AutoencoderModule ConvAutoencoderModule Adam
                        forward backward_step DataLoader).

Lemma runA_eq : fit_train hpA (new_model hpA) x2 = Ok (fst runA, snd runA).
Proof. vm_compute. reflexivity. Defined.

Lemma run0_eq : fit_train hp0 (new_model hp0) x2 = Ok (fst run0, snd run0).
Proof. vm_compute. reflexivity. Defined.


Lemma runG_eq : fit_train hpG sG x2 = Ok (fst runG, snd runG).
Proof. vm_compute. reflexivity. Defined.

Lemma net_same_shape (training : bool) (w : Toy.Weights) (t : tensor) :
  same_shape t (fst (forward training w t)).
Proof.
  unfold forward, net, same_shape. simpl.
  induction t as [|r t IH]; simpl; constructor; [|exact IH].
  rewrite length_map. reflexivity.
Qed.



(** The best validation loss at epoch 0, with patience 2: the loop stops
    after epoch 2 and [fit] returns the parameters the model had before
    training. *)
Example early_stopping_at_epoch_zero :
  fit_train hpA trained x2 = Ok (fst run_trained, snd run_trained)
  /\ length (snd run_trained) = 2%nat
  /\ exists s', AE_fit hpA trained x2 = Ok s'
                /\ torch_module s' = torch_module trained.
Proof.
  split; [vm_compute; reflexivity|]. split; [reflexivity|].
  eexists. split; vm_compute; reflexivity.
Qed.

(** With [patience = 0] the bound [k + patience] fails for [k = 0]: the
    loss is best at epoch 0 and never improves again, the counter is 1
    at the first test of the loop and grows, and the loop runs its whole
    budget. *)
Example zero_patience_best_at_epoch_zero :
  exists s1 hist,
    fit_train hpZ trained x2 = Ok (s1, hist)
    /\ patience hpZ = 0%Z
    /\ length hist = Z.to_nat (epochs hpZ)
    /\ map (@early_stopping_count Toy.Weights Opt) (s1 :: hist)
       = map Z.of_nat (seq 0 (S (Z.to_nat (epochs hpZ)))).
Proof.
  eexists. eexists. split; [vm_compute; reflexivity|].
  split; [reflexivity|]. split; reflexivity.
Qed.

Example early_stopping_run :
  length (snd runA) = 3%nat
  /\ exists s', AE_fit hpA (new_model hpA) x2 = Ok s'
                /\ torch_module s' = Some (0%nat, 1%nat).
Proof. split; [reflexivity|]. eexists. split; vm_compute; reflexivity. Qed.

(** The checkpoint of the early-stopping run holds the parameters of
    epoch 1, of the architecture of the model: [fit] returns them and
    removes the file. *)
Lemma checkpoint_restored_witness :
  exists w0,
    torch_module (last (snd runA) (fst runA)) = Some w0
    /\ match checkpoint_pt (last (snd runA) (fst runA)) with
       | Some (w, shape) =>
           if Arch_eq_dec (fst w0) (fst w)
           then exists s', AE_fit hpA (new_model hpA) x2 = Ok s'
                           /\ torch_module s' = Some w
                           /\ checkpoint_pt s' = None
           else AE_fit hpA (new_model hpA) x2 = Raise RuntimeError
       | None => AE_fit hpA (new_model hpA) x2
                 = Ok (last (snd runA) (fst runA))
       end.
Proof.
  exact (@FitFacts.checkpoint_restored Arch Params Opt Arch_eq_dec
           AutoencoderModule ConvAutoencoderModule Adam forward backward_step
           DataLoader hpA (new_model hpA) x2 (fst runA) (snd runA) runA_eq).
Defined.

Example checkpoint_restored_run :
  checkpoint_pt (last (snd runA) (fst runA))
  = Some ((0%nat, 1%nat), Some [1%nat])
  /\ exists s', AE_fit hpA (new_model hpA) x2 = Ok s'
                /\ torch_module s' = Some (0%nat, 1%nat)
                /\ checkpoint_pt s' = None.
Proof.
  split; [reflexivity|]. eexists. split; [vm_compute; reflexivity|].
  split; reflexivity.
Qed.

(** C7 fails on the code.  A fully connected model without a validation
    split, with a checkpoint of the convolutional architecture lying at
    the path: the loop runs its 3 epochs, the file is still there at the
    end, and [fit] raises the mismatch error instead of returning with
    the parameters of the file. *)
Lemma stale_checkpoint_raises :
  exists s1 hist file,
    fit_train hpN beside_stale x2 = Ok (s1, hist)
    /\ length hist = 3%nat
    /\ checkpoint_pt (last hist s1) = Some file
    /\ AE_fit hpN beside_stale x2 = Raise RuntimeError.
Proof.
  exists (fst run_stale), (snd run_stale),
         ((1%nat, 7%nat), Some [1%nat; 2%nat; 2%nat]).
  split; [vm_compute; reflexivity|]. split; [reflexivity|].
  split; [reflexivity|]. vm_compute. reflexivity.
Qed.

(** Without a validation split no checkpoint is written: [fit] returns
    the state of the last executed epoch. *)
Example no_checkpoint_run :
  AE_fit hp0 (new_model hp0) x2 = Ok (last (snd run0) (fst run0)).
Proof.
  rewrite (FitFacts.AE_fit_after_loop Arch_eq_dec _ _ _ _ _ _ _ _ _ run0_eq).
  reflexivity.
Qed.

(** A second [fit] on the model the first one returned starts from the
    counter and the minimum the first one left. *)
Lemma fit_keeps_training_state_witness :
  (current_loss_min (GraeModels.init Toy.Weights Opt hpA) = None
   /\ early_stopping_count (GraeModels.init Toy.Weights Opt hpA) = 0%Z)
  /\ current_loss_min setup_again = current_loss_min after_fitA
  /\ early_stopping_count setup_again = early_stopping_count after_fitA.
Proof.
  apply (@FitFacts.fit_keeps_training_state Arch Params Opt
           AutoencoderModule
           ConvAutoencoderModule Adam hpA after_fitA x2 setup_again).
  vm_compute. reflexivity.
Defined.

(** C5 fails on the code: after a first [fit] that stopped early, the
    second [fit] on the same model reaches its first [log_metrics(0)] with
    the counter at 2 and a finite minimum, not with 0 and infinity. *)
Lemma second_fit_is_not_reset :
  exists s1 s2,
    Toy.fit hpA (new_model hpA) x2 = Ok s1
    /\ Toy.fit_setup hpA s1 x2 = Ok s2
    /\ early_stopping_count s2 <> 0%Z
    /\ current_loss_min s2 <> None.
Proof.
  exists after_fitA, setup_again.
  split; [vm_compute; reflexivity|].
  split; [vm_compute; reflexivity|].
  split; vm_compute; discriminate.
Qed.

(** What the inherited counter does to the second [fit]: it is already
    past [patience], the validation loss never improves on the inherited
    minimum, and the loop runs all 10 epochs. *)
Example second_fit_never_stops :
  fit_train hpA after_fitA x2 = Ok (fst runA_again, snd runA_again)
  /\ length (snd runA_again) = 10%nat
  /\ Forall (fun s => (patience hpA < early_stopping_count s)%Z)
            (fst runA_again :: snd runA_again).
Proof.
  split; [vm_compute; reflexivity|]. split; [reflexivity|].
  repeat constructor.
Qed.

(** No validation split, [patience = 0], a budget of 3 epochs: the loop
    executes one epoch. *)
Lemma no_validation_stops_at_patience_witness :
  length (snd run0) = Nat.min 1 (Z.to_nat (epochs hp0)).
Proof.
  apply (@FitFacts.no_validation_stops_at_patience Arch Params Opt
           AutoencoderModule ConvAutoencoderModule Adam forward backward_step
           DataLoader hp0 (new_model hp0) x2 (fst run0) (snd run0)).
  - reflexivity.
  - reflexivity.
  - reflexivity.
  - exact run0_eq.
Defined.

Example no_validation_patience_zero_run :
  data_val hp0 = None
  /\ Z.to_nat (epochs hp0) = 3%nat
  /\ fit_train hp0 (new_model hp0) x2 = Ok (fst run0, snd run0)
  /\ length (snd run0) = 1%nat.
Proof.
  split; [reflexivity|]. split; [reflexivity|].
  split; [exact run0_eq | reflexivity].
Qed.




(** The same model and dataset with a subsample that keeps positions 0
    and 1, where the indices of the subsample happen to be its positions:
    [fit] returns. *)
Example subsampled_fit_prefix_returns :
  Toy.GRAE_fit grae_capped x5 = Ok (fst fit_capped, snd fit_capped)
  /\ length (snd fit_capped) = 4%nat.
Proof. split; [vm_compute; reflexivity | reflexivity]. Qed.

(** The batches of a sub-dataset carry the indices of the full
    dataset. *)
Example sub_dataset_keeps_indices :
  Models.Dataset_fetch (Models.subset choice_tail x5 2) [0; 1]%Z
  = Ok tail_batch.
Proof. vm_compute. reflexivity. Qed.

(** Without a validation split and with [patience = 2] the loop runs its
    3 epochs and the counter stays 0. *)
Lemma no_validation_full_budget_witness :
  length (snd runN) = Z.to_nat (epochs hpN)
  /\ forall j sj, nth_error (fst runN :: snd runN) j = Some sj ->
                  early_stopping_count sj = early_stopping_count (new_model hpN).
Proof.
  apply (@FitFacts.no_validation_full_budget Arch Params Opt
           AutoencoderModule
           ConvAutoencoderModule Adam forward backward_step DataLoader
           hpN (new_model hpN) x2 (fst runN) (snd runN)).
  - reflexivity.
  - reflexivity.
  - vm_compute. discriminate.
  - vm_compute. reflexivity.
Defined.


(** The relaxed [GRAEBase] run returns. *)
Lemma fit_never_raises_witness :
  exists s', AE_fit hpR sR x2 = Ok s'.
Proof.
  apply (@FitFacts.fit_never_raises Arch Params Opt Arch_eq_dec
           AutoencoderModule ConvAutoencoderModule Adam forward backward_step
           DataLoader hpR sR x2 [1%nat]).
  - reflexivity.
  - left. reflexivity.
  - reflexivity.
  - intros s' e b w (Ht & _) Hin.
    destruct Hin as [<-|[]].
    apply (@FitFacts.GRAEBase_batch_loss_total Arch Params Opt forward
             hpR s' (data x2)).
    + reflexivity.
    + exact Ht.
    + apply net_same_shape.
    + exists (data x2). split; [reflexivity|]. repeat constructor.
  - intros w t. apply net_same_shape.
  - intros v Hv. injection Hv as <-. vm_compute. discriminate.
  - intros v Hv. discriminate Hv.
Defined.

(** After the split, item 0 of the train part is sample 2 of the data the
    split was taken from, and it carries index 0. *)
Lemma getitem_after_split_witness :
  exists d t, getitem train_part 0 = Ok (d, t, 0%Z)
              /\ Py.getitem (col [10; 20; 30]%Z) 2 = Ok d
              /\ Py.getitem [1; 2; 3]%Q 2 = Ok t.
Proof.
  apply (@BaseDatasetFacts.getitem_after_split split_2_0 (col [10; 20; 30]%Z)
           [1; 2; 3]%Q [1%nat] (8 # 10) 42%Z train_part 0%Z 2%Z).
  - vm_compute. reflexivity.
  - reflexivity.
  - lia.
Defined.


Lemma runZ_eq : fit_train hpZ (new_model hpZ) x2 = Ok (fst runZ, snd runZ).
Proof. vm_compute. reflexivity. Defined.

(** Samples of rank 2 are refused. *)
Lemma fit_rejects_unsupported_rank_witness :
  AE_fit hpA (new_model hpA) x_rank2 = Raise ConfigError.
Proof.
  apply (@FitFacts.fit_rejects_unsupported_rank Arch Params Opt Arch_eq_dec
           AutoencoderModule
           ConvAutoencoderModule Adam forward backward_step DataLoader
           hpA (new_model hpA) x_rank2 [1%nat; 1%nat]).
  - reflexivity.
  - reflexivity.
  - simpl. lia.
  - simpl. lia.
Defined.

Lemma fit_rejects_empty_dataset_witness :
  AE_fit hpA (new_model hpA) x_empty = Raise IndexError.
Proof.
  apply (@FitFacts.fit_rejects_empty_dataset Arch Params Opt Arch_eq_dec
           AutoencoderModule
           ConvAutoencoderModule Adam forward backward_step DataLoader
           hpA (new_model hpA) x_empty).
  reflexivity.
Defined.

(** A [GRAEBase] with [lam = 1] and [relax = False]. *)
Lemma lam_constant_without_relaxation_witness :
  (forall j sj, nth_error (fst runG :: snd runG) j = Some sj ->
                lam sj = lam sG)
  /\ (forall s', AE_fit hpG sG x2 = Ok s' -> lam s' = lam sG)
  /\ (checkpoint_pt sG = None ->
      exists s', AE_fit hpG sG x2 = Ok s' /\ lam s' = lam sG).
Proof.
  apply (@FitFacts.lam_constant_without_relaxation Arch Params Opt Arch_eq_dec
           AutoencoderModule ConvAutoencoderModule Adam forward backward_step
           DataLoader hpG sG x2 (fst runG) (snd runG)).
  - reflexivity.
  - reflexivity.
  - exact runG_eq.
Defined.

Example lam_constant_run :
  map (@lam Toy.Weights Opt) (fst runG :: snd runG) = [1; 1; 1; 1]%Q
  /\ exists s', AE_fit hpG sG x2 = Ok s' /\ lam s' = 1%Q.
Proof.
  split; [reflexivity|]. eexists. split; [vm_compute; reflexivity | reflexivity].
Qed.

Lemma target_embedding_after_fit_witness :
  target_embedding after_fitR = Some (zscore (embedder_fit_transform x2)).
Proof.
  apply (@FitFacts.target_embedding_after_fit Arch Params Opt Arch_eq_dec
           AutoencoderModule
           ConvAutoencoderModule Adam forward backward_step DataLoader
           embedder_fit_transform zscore hpR (new_model hpR) x2 after_fitR).
  vm_compute. reflexivity.
Defined.

(** The validation loss of the model the early-stopping run returned, on
    the two one-entry samples of [x2]. *)
Lemma eval_MSE_is_mean_over_loader_witness :
  exists m,
    GraeModels.eval_MSE forward DataLoader hpA after_fitA x2 0 = Ok m
    /\ (m == qsum (map (fun b => Spec.sum_squared_error (batch_data b)
                                   (fst (forward false (0%nat, 1%nat) (batch_data b))))
                       (DataLoader x2 (batch_size hpA) 0))
             / Qnat (len x2 * 1))%Q.
Proof.
  apply (@FitFacts.eval_MSE_is_mean_over_loader Arch Params Opt forward DataLoader
           hpA after_fitA x2 0%nat (0%nat, 1%nat) 1%nat).
  - reflexivity.
  - discriminate.
  - vm_compute. discriminate.
  - repeat constructor.
Defined.

(** The early-stopping run returns the parameters of epoch 1, whose
    validation loss is the smallest of the four evaluations. *)
Lemma fit_returns_best_validation_witness :
  exists s' j sj m,
    AE_fit hpA (new_model hpA) x2 = Ok s'
    /\ nth_error (fst runA :: snd runA) j = Some sj
    /\ torch_module s' = torch_module sj
    /\ GraeModels.eval_MSE forward DataLoader hpA sj x2 j = Ok m
    /\ current_loss_min s' = Some m
    /\ forall i si, nth_error (fst runA :: snd runA) i = Some si ->
                    exists vi, GraeModels.eval_MSE forward DataLoader hpA si x2 i
                               = Ok vi /\ (m <= vi)%Q.
Proof.
  apply (@FitFacts.fit_returns_best_validation Arch Params Opt Arch_eq_dec
           AutoencoderModule
           ConvAutoencoderModule Adam forward backward_step DataLoader
           hpA (new_model hpA) x2 x2 (fst runA) (snd runA)).
  - reflexivity.
  - reflexivity.
  - exact runA_eq.
Defined.

Lemma counter_within_patience_witness :
  (forall j sj, nth_error (fst runA :: snd runA) j = Some sj ->
                (0 <= early_stopping_count sj <= patience hpA)%Z)
  /\ ((length (snd runA) < Z.to_nat (epochs hpA))%nat ->
      early_stopping_count (last (snd runA) (fst runA)) = patience hpA).
Proof.
  apply (@FitFacts.counter_within_patience Arch Params Opt
           AutoencoderModule
           ConvAutoencoderModule Adam forward backward_step DataLoader
           hpA (new_model hpA) x2 (fst runA) (snd runA)).
  - reflexivity.
  - reflexivity.
  - vm_compute. discriminate.
  - exact runA_eq.
Defined.

(** Validation on [x2] with [patience = 0]: epoch 1 improves and the loop
    stops there. *)
Lemma zero_patience_stops_on_improvement_witness :
  (forall i p c,
      nth_error (fst runZ :: snd runZ) i = Some p ->
      nth_error (snd runZ) i = Some c ->
      (S i < length (snd runZ))%nat ->
      GraeModels.improves forward DataLoader hpZ x2 p c (S i) = false)
  /\ ((length (snd runZ) < Z.to_nat (epochs hpZ))%nat ->
      exists p c,
        nth_error (fst runZ :: snd runZ) (length (snd runZ) - 1) = Some p
        /\ nth_error (snd runZ) (length (snd runZ) - 1) = Some c
        /\ GraeModels.improves forward DataLoader hpZ x2 p c (length (snd runZ))
           = true).
Proof.
  apply (@FitFacts.zero_patience_stops_on_improvement Arch Params Opt
           AutoencoderModule ConvAutoencoderModule Adam forward backward_step
           DataLoader hpZ (new_model hpZ) x2 x2 (fst runZ) (snd runZ)).
  - reflexivity.
  - reflexivity.
  - vm_compute. discriminate.
  - exact runZ_eq.
Defined.

Example zero_patience_run : length (snd runZ) = 1%nat.
Proof. reflexivity. Qed.

(** [drop_lam = 2], 4 epochs: epochs 0 and 1 train with [lam = 1], epochs
    2 and 3 with [lam = 0], and the model is left with [lam = 0]. *)
Lemma SGRAE_soft_schedule_witness :
  let off_at (e : Z) :=
    match Models.drop_lam sgrae_soft with
    | Some d => ((1 <=? d)%Z && (d <=? e)%Z)%bool
    | None => false
    end in
  snd fit_soft
  = map (fun e => {| Models.run_epoch := (e + 0)%Z; Models.run_data := Models.Whole x4;
                     Models.run_lam := if off_at e then 0%Q
                                       else Models.lam sgrae_soft |})
        (range (Models.epochs sgrae_soft))
  /\ Models.lam (fst fit_soft)
     = (if off_at (Z.max 0 (Models.epochs sgrae_soft)) then 0%Q
        else Models.lam sgrae_soft).
Proof.
  apply (@ModelsFacts.SGRAE_soft_schedule Toy.Weights Opt AutoencoderModule
           ConvAutoencoderModule Adam (fun w => forward true w)
           backward_step_module DataLoaderZ sqrtQ potential_distances
           sgrae_soft x4 (fst fit_soft) (snd fit_soft)).
  - reflexivity.
  - vm_compute. reflexivity.
Defined.

Example SGRAE_soft_run :
  map Models.run_lam (snd fit_soft) = [1; 1; 0; 0]%Q
  /\ Models.lam (fst fit_soft) = 0%Q.
Proof. split; reflexivity. Qed.

(** The capped model: 4 epochs, of which [int(0.5 * 4) = 2] in the first
    phase. *)
Lemma GRAE_fit_runs_every_epoch_once_witness :
  map Models.run_epoch (snd fit_capped) = range (Models.epochs grae_capped)
  /\ Forall (fun r => Models.run_lam r
                      = if (Models.run_epoch r <? 2)%Z
                        then Models.lam grae_capped else 0%Q)
            (snd fit_capped).
Proof.
  apply (@ModelsFacts.GRAE_fit_runs_every_epoch_once Toy.Weights Opt
           AutoencoderModule ConvAutoencoderModule Adam
           (fun w => forward true w) backward_step_module DataLoaderZ
           embedder_fit_transformZ zscore sqrtQ choice
           grae_capped x5 2%Z (fst fit_capped) (snd fit_capped)).
  - reflexivity.
  - reflexivity.
  - vm_compute. split; discriminate.
  - vm_compute. reflexivity.
Defined.

(** [GRAE.__init__] multiplies floats: [int(0.29 * 100)] is 28, where the
    product of the decimal numbers is 29; [int(0.7 * 10)] is 7. *)
Example GRAE_init_rounds_the_product :
  (m <- new_grae 1 (Some (Float64.of_ratio 29 100)) None 100 ;;
   Ok (Models.drop_lam m)) = Ok (Some 28%Z)
  /\ (m <- new_grae 1 (Some (Float64.of_ratio 7 10)) None 10 ;;
      Ok (Models.drop_lam m)) = Ok (Some 7%Z)
  /\ (m <- new_grae 1 None None 10 ;; Ok (Models.drop_lam m))
     = Ok (Some 10%Z).
Proof. repeat split; vm_compute; reflexivity. Qed.

Lemma GRAE_refit_has_no_geometric_term_witness :
  Models.lam (fst fit_capped) = 0%Q
  /\ forall X' m'' runs',
       Toy.GRAE_fit (fst fit_capped) X' = Ok (m'', runs') ->
       Forall (fun r => Models.run_lam r = 0%Q) runs'.
Proof.
  apply (@ModelsFacts.GRAE_refit_has_no_geometric_term Toy.Weights Opt
           AutoencoderModule ConvAutoencoderModule Adam
           (fun w => forward true w) backward_step_module DataLoaderZ
           embedder_fit_transformZ zscore sqrtQ choice
           grae_capped x5 2%Z (fst fit_capped) (snd fit_capped)).
  - reflexivity.
  - reflexivity.
  - vm_compute. reflexivity.
  - vm_compute. reflexivity.
Defined.

(** Index [-2] of the five samples of [x5] is sample 3 and keeps the
    index [-2]; indices [5] and [-6] raise. *)
Lemma getitem_index_range_witness :
  let n := Z.of_nat (len x5) in
  ((- n <= -2 < n)%Z ->
   exists d t,
     getitem x5 (-2) = Ok (d, t, (-2)%Z)
     /\ nth_error (data x5) (Z.to_nat (-2 mod n)) = Some d
     /\ nth_error (targets x5) (Z.to_nat (-2 mod n)) = Some t)
  /\ ((-2 < - n \/ n <= -2)%Z -> getitem x5 (-2) = Raise IndexError).
Proof.
  apply (@BaseDatasetFacts.getitem_index_range x5 (-2)%Z).
  reflexivity.
Defined.

Example getitem_negative_and_out_of_range :
  getitem x5 (-2) = Ok ([inject_Z 4], 0%Q, (-2)%Z)
  /\ getitem x5 5 = Raise IndexError
  /\ getitem x5 (-6) = Raise IndexError.
Proof. repeat split. Qed.

(** Four samples with latents 0, 3, 7, 9 and zero reference distances:
    sample 0 is paired with sample 2 and sample 1 with sample 3. *)
Lemma SGRAE_even_batch_pairs_witness :
  (forall k a b, nth_error [0; 1]%Z k = Some a -> nth_error [2; 3]%Z k = Some b ->
                 exists r v, Py.getitem (potential_distances x4) a = Ok r
                             /\ Py.getitem r b = Ok v
                             /\ nth_error [0; 0]%Q k = Some v)
  /\ exists loss,
      Models.SGRAE_apply_loss sqrtQ (sgrae 1 x4) (col [1; 2; 3; 4]%Z)
                              (col [1; 2; 3; 4]%Z)
                              (col [0; 3]%Z ++ col [7; 9]%Z)
                              ([0; 1]%Z ++ [2; 3]%Z) = Ok loss
      /\ (loss == Spec.sum_squared_error (col [1; 2; 3; 4]%Z) (col [1; 2; 3; 4]%Z)
                  + Models.lam (sgrae 1 x4)
                    * qsum (map (fun p =>
                                   square (sqrtQ (qsum (map square
                                              (diff_row (fst (fst p)) (snd (fst p)))))
                                           - snd p))
                                (combine (combine (col [0; 3]%Z) (col [7; 9]%Z))
                                         [0; 0]%Q)))%Q.
Proof.
  apply (@SiameseFacts.SGRAE_even_batch_pairs Toy.Weights Opt sqrtQ (sgrae 1 x4)
           (col [1; 2; 3; 4]%Z) (col [1; 2; 3; 4]%Z) (col [0; 3]%Z) (col [7; 9]%Z)
           [0; 1]%Z [2; 3]%Z (potential_distances x4) [0; 0]%Q).
  - reflexivity.
  - reflexivity.
  - reflexivity.
  - reflexivity.
  - reflexivity.
  - repeat constructor.
  - repeat constructor.
  - vm_compute. reflexivity.
Defined.

End Runs.
